(** * FF-INFO-BOT: the profile bot of [app.py], embedded and checked

    The program is one Python module: three formatters
    ([format_timestamp], [escape_markdown], [format_items]), the profile
    fetcher [get_profile_info], the chat command [get] and the module-level
    start-up code that reads the configuration.

    Python values are embedded as an inductive type of the objects
    [json.loads] can build.  Code that may raise lives in the error monad
    [result]; code that talks to the chat service, the network or the
    logger lives in [io], which threads the list of effects performed so
    far.  What belongs to the interpreter and the C library rather than to
    the program (the text of [repr] on strings, the local time zone, the
    way the C library prints a year below 1000, the Unicode database, the
    limit on the digits of an integer text) is gathered in the record
    [runtime] and left open: every theorem holds for every runtime. *)

From Stdlib Require Import String Ascii ZArith List Lia Bool DecimalString.
From Stdlib Require DecimalZ.
Import ListNotations.
Local Open Scope string_scope.
Local Open Scope Z_scope.

(** ** Text *)

(** The newline character of a Python string literal's [\n]. *)
Definition nl : string := String (ascii_of_nat 10) EmptyString.

(** A one-character string, as Python has no separate character type. *)
Definition str1 (c : ascii) : string := String c EmptyString.

(** [sep.join(parts)]. *)
Definition join (sep : string) (parts : list string) : string :=
  String.concat sep parts.

(** [s.endswith(suffix)]. *)
Fixpoint endswith (s suffix : string) : bool :=
  if String.eqb s suffix then true
  else match s with
       | EmptyString => false
       | String _ s' => endswith s' suffix
       end.

(** [str(n)] for an [int]. *)
Definition str_int (n : Z) : string := NilZero.string_of_int (Z.to_int n).

(** ** Exceptions and the error monad *)

Inductive exn : Type :=
| TypeError (msg : string)
| ValueError (msg : string)
| KeyError (key : string)
| AttributeError (msg : string)
| OverflowError (msg : string)
| OSError (msg : string)
| ClientError (msg : string)
| JSONDecodeError (msg : string)
| MissingRequiredArgument (param : string)
| CommandInvokeError (original : exn).

Inductive result (A : Type) : Type :=
| Ok (a : A)
| Raise (e : exn).
Arguments Ok {A} a.
Arguments Raise {A} e.

Definition bind {A B : Type} (r : result A) (k : A -> result B) : result B :=
  match r with
  | Ok a => k a
  | Raise e => Raise e
  end.

Declare Scope result_scope.
Delimit Scope result_scope with result.
Notation "x <- c ;; k" := (bind c (fun x => k))
  (at level 61, c at next level, right associativity) : result_scope.

(** Evaluating a generator expression item by item: the first item that
    raises ends the evaluation. *)
Fixpoint mapM {A B : Type} (f : A -> result B) (xs : list A) : result (list B) :=
  match xs with
  | [] => Ok []
  | x :: rest =>
      (y <- f x ;; ys <- mapM f rest ;; Ok (y :: ys))%result
  end.

(** ** Python objects *)

(** A [float] reaches the bot only inside the fetched document, and the
    program makes four observations of it; a float is modelled by what
    they return.  [float_time_t] is the whole-seconds part of the timeval
    that [datetime.fromtimestamp] derives (rounding to microseconds first);
    it raises [ValueError] on NaN and [OverflowError] outside [time_t]. *)
Record pyfloat : Type := {
  float_repr : string;
  float_bool : bool;
  float_is_one : bool;
  float_time_t : result Z
}.

(** The objects [json.loads] builds.  A [dict] is the list of its items in
    insertion order. *)
#[local] Set Warnings "-register-all".
Inductive value : Type :=
| VNone
| VBool (b : bool)
| VInt (n : Z)
| VFloat (x : pyfloat)
| VStr (s : string)
| VList (xs : list value)
| VDict (kvs : list (string * value)).

Definition type_name (v : value) : string :=
  match v with
  | VNone => "NoneType"
  | VBool _ => "bool"
  | VInt _ => "int"
  | VFloat _ => "float"
  | VStr _ => "str"
  | VList _ => "list"
  | VDict _ => "dict"
  end.

(** [bool(v)], the test behind [if v] and [not v]. *)
Definition py_truthy (v : value) : bool :=
  match v with
  | VNone => false
  | VBool b => b
  | VInt n => negb (n =? 0)
  | VFloat x => float_bool x
  | VStr s => negb (String.eqb s "")
  | VList xs => match xs with [] => false | _ => true end
  | VDict kvs => match kvs with [] => false | _ => true end
  end.

(** [v == 1]. *)
Definition py_eq_one (v : value) : bool :=
  match v with
  | VBool b => b
  | VInt n => n =? 1
  | VFloat x => float_is_one x
  | _ => false
  end.

Fixpoint dict_lookup (k : string) (kvs : list (string * value)) : option value :=
  match kvs with
  | [] => None
  | (k', v) :: rest => if String.eqb k k' then Some v else dict_lookup k rest
  end.

(** [obj.get(key, default)]: only a [dict] has the method. *)
Definition py_get (obj : value) (key : string) (default : value) : result value :=
  match obj with
  | VDict kvs =>
      Ok (match dict_lookup key kvs with Some v => v | None => default end)
  | _ =>
      Raise (AttributeError
               ("'" ++ type_name obj ++ "' object has no attribute 'get'"))
  end.

(** [obj[key]] for a string [key]. *)
Definition py_getitem (obj : value) (key : string) : result value :=
  match obj with
  | VDict kvs =>
      match dict_lookup key kvs with
      | Some v => Ok v
      | None => Raise (KeyError key)
      end
  | VList _ => Raise (TypeError "list indices must be integers or slices, not str")
  | VStr _ => Raise (TypeError "string indices must be integers, not 'str'")
  | _ => Raise (TypeError ("'" ++ type_name obj ++ "' object is not subscriptable"))
  end.

(** The items a [for] loop draws from [obj].  A string yields its
    characters (here: its bytes), a dict its keys. *)
Definition py_iter (obj : value) : result (list value) :=
  match obj with
  | VList xs => Ok xs
  | VStr s => Ok (map (fun c => VStr (str1 c)) (list_ascii_of_string s))
  | VDict kvs => Ok (map (fun kv => VStr (fst kv)) kvs)
  | _ => Raise (TypeError ("'" ++ type_name obj ++ "' object is not iterable"))
  end.

(** ** Dates *)

Definition is_leap (y : Z) : bool :=
  (y mod 4 =? 0) && (negb (y mod 100 =? 0) || (y mod 400 =? 0)).

Definition days_in_month (y m : Z) : Z :=
  if m =? 2 then (if is_leap y then 29 else 28)
  else if (m =? 4) || (m =? 6) || (m =? 9) || (m =? 11) then 30
  else 31.

Definition between (lo x hi : Z) : bool := (lo <=? x) && (x <=? hi).

(** What the constructors of [datetime.date] and [datetime.datetime]
    check. *)
Definition valid_datetime (y m d hh mm ss : Z) : bool :=
  between 1 y 9999 && between 1 m 12 && between 1 d (days_in_month y m)
  && between 0 hh 23 && between 0 mm 59 && between 0 ss 59.

(** A [datetime] object; microseconds are never shown and left out. *)
Record datetime : Type := {
  year : Z;
  month : Z;
  day : Z;
  hour : Z;
  minute : Z;
  second : Z;
  datetime_ok : valid_datetime year month day hour minute second = true
}.

Definition datetime_error (y m d hh mm ss : Z) : exn :=
  if negb (between 1 y 9999) then
    ValueError ("year " ++ str_int y ++ " is out of range")
  else if negb (between 1 m 12) then ValueError "month must be in 1..12"
  else if negb (between 1 d (days_in_month y m)) then
    ValueError "day is out of range for month"
  else if negb (between 0 hh 23) then ValueError "hour must be in 0..23"
  else if negb (between 0 mm 59) then ValueError "minute must be in 0..59"
  else ValueError "second must be in 0..59".

(** [datetime(y, m, d, hh, mm, ss)]. *)
Definition new_datetime (y m d hh mm ss : Z) : result datetime :=
  match valid_datetime y m d hh mm ss as b
        return (valid_datetime y m d hh mm ss = b -> result datetime) with
  | true => fun ok => Ok (Build_datetime y m d hh mm ss ok)
  | false => fun _ => Raise (datetime_error y m d hh mm ss)
  end eq_refl.

(** ** The runtime *)

(** The interpreter and the C library, as far as the bot calls them and
    the model leaves them open:
    - [repr_str s] is [repr(s)] for a string, which [str] of a list or a
      dict applies to the strings inside;
    - [fromtimestamp_sec t] is [datetime.fromtimestamp(t)] for a whole
      number of seconds [t]: the local time of the platform's zone, or the
      exception raised for a time it cannot represent;
    - [small_year y] is what the C library's [strftime] prints for [%Y]
      when [y < 1000] (glibc prints 999, others 0999);
    - [unicode_decimal cp] is [unicodedata.decimal(chr(cp), None)] and
      [unicode_space cp] is [chr(cp).isspace()] for a code point [cp]
      outside ASCII: the Unicode database the interpreter was built with;
    - [int_max_str_digits] is [sys.get_int_max_str_digits()], and 0 on an
      interpreter that has no such limit. *)
Record runtime : Type := {
  repr_str : string -> string;
  fromtimestamp_sec : Z -> result datetime;
  small_year : Z -> string;
  unicode_decimal : Z -> option Z;
  unicode_space : Z -> bool;
  int_max_str_digits : Z
}.

(** ** Characters

    A text is kept as the bytes of its UTF-8 form.  Where Python goes by
    characters (the digits and the white space of [re] and of [int] are
    those of Unicode) the model decodes the bytes. *)

Definition code (c : ascii) : Z := Z.of_nat (nat_of_ascii c).

(** The ASCII part of [\s] of the [re] module. *)
Definition is_space (c : ascii) : bool :=
  between 9 (code c) 13 || between 28 (code c) 32.

(** The white space of C's [Py_ISSPACE], which [int] skips around the
    digits. *)
Definition is_int_space (c : ascii) : bool :=
  between 9 (code c) 13 || (code c =? 32).

(** The ASCII digits. *)
Definition is_digit (c : ascii) : bool := between 48 (code c) 57.

Definition digit_value (c : ascii) : Z := code c - 48.

Definition digit_char (n : Z) : ascii := ascii_of_nat (Z.to_nat (48 + n)).

Definition lower (c : ascii) : ascii :=
  if between 65 (code c) 90 then ascii_of_nat (Z.to_nat (code c + 32)) else c.

Fixpoint lower_str (s : string) : string :=
  match s with
  | EmptyString => EmptyString
  | String c s' => String (lower c) (lower_str s')
  end.

(** A character of a text: its code point, its bytes and the text after
    it. *)
Definition uchar : Type := Z * string * string.

Definition code_point (u : uchar) : Z := fst (fst u).

Definition bytes_of (u : uchar) : string := snd (fst u).

(** [n] more bytes of the form [10xxxxxx], six bits of the code point
    each. *)
Fixpoint continuation (n : nat) (cp : Z) (taken rest : string) : option uchar :=
  match n with
  | O => Some (cp, taken, rest)
  | S n' =>
      match rest with
      | String c rest' =>
          if between 128 (code c) 191
          then continuation n' (64 * cp + (code c - 128))
                            (taken ++ String c EmptyString) rest'
          else None
      | EmptyString => None
      end
  end.

(** The character that starts with the byte [c]: one byte below 128, or a
    lead byte and one to three bytes more.  A byte that starts no
    character, which the UTF-8 form of a Python string does not have,
    counts as a character without a code point. *)
Definition char_at (c : ascii) (rest : string) : uchar :=
  let b := code c in
  let single := (if b <? 128 then b else -1, String c EmptyString, rest) in
  let wide (n : nat) (bits : Z) :=
    match continuation n bits (String c EmptyString) rest with
    | Some u => u
    | None => single
    end in
  if between 194 b 223 then wide 1%nat (b - 192)
  else if between 224 b 239 then wide 2%nat (b - 224)
  else if between 240 b 244 then wide 3%nat (b - 240)
  else single.

(** The characters of a text; [skip] bytes belong to the character
    before. *)
Fixpoint chars_from (skip : nat) (s : string) : list uchar :=
  match s with
  | EmptyString => []
  | String c s' =>
      match skip with
      | S n => chars_from n s'
      | O =>
          let u := char_at c s' in
          u :: chars_from (String.length (bytes_of u) - 1) s'
      end
  end.

Definition chars (s : string) : list uchar := chars_from 0 s.

(** [Py_UNICODE_TODECIMAL]: the value of a decimal digit of any script. *)
Definition to_decimal (rt : runtime) (cp : Z) : option Z :=
  if cp <? 128 then (if between 48 cp 57 then Some (cp - 48) else None)
  else match unicode_decimal rt cp with
       | Some d => if between 0 d 9 then Some d else None
       | None => None
       end.

(** [\d] of the [re] module on a [str]. *)
Definition is_decimal (rt : runtime) (cp : Z) : bool :=
  match to_decimal rt cp with
  | Some _ => true
  | None => false
  end.

(** [Py_UNICODE_ISSPACE], which is also [\s] of the [re] module on a
    [str]. *)
Definition is_unicode_space (rt : runtime) (cp : Z) : bool :=
  if cp <? 128 then between 9 cp 13 || between 28 cp 32
  else unicode_space rt cp.

(** ** [int(...)] of a string *)

Fixpoint lstrip (s : string) : string :=
  match s with
  | EmptyString => EmptyString
  | String c s' => if is_int_space c then lstrip s' else s
  end.

Definition is_ascii (s : string) : bool :=
  forallb (fun c => code c <? 128) (list_ascii_of_string s).

(** What [int] makes of a text that is not ASCII before it reads it: a
    character below 127 stays, a space of Unicode becomes a blank, a
    decimal digit of any script its ASCII digit, and at the first other
    character the text ends with a question mark. *)
Fixpoint to_ascii (rt : runtime) (cs : list uchar) : string :=
  match cs with
  | [] => EmptyString
  | u :: cs' =>
      if code_point u <? 127 then
        if 0 <=? code_point u then bytes_of u ++ to_ascii rt cs'
        else "?"
      else if is_unicode_space rt (code_point u) then
        String " " (to_ascii rt cs')
      else
        match to_decimal rt (code_point u) with
        | Some d => String (digit_char d) (to_ascii rt cs')
        | None => "?"
        end
  end.

Definition int_text (rt : runtime) (s : string) : string :=
  if is_ascii s then s else to_ascii rt (chars s).

(** The digits at the start of [s], with single underscores between them:
    their value, their number and the text after them; [None] for two
    underscores in a row or one at the end. *)
Fixpoint scan_digits (acc count : Z) (after_underscore : bool) (s : string)
    : option (Z * Z * string) :=
  match s with
  | EmptyString => if after_underscore then None else Some (acc, count, s)
  | String c s' =>
      if is_digit c then
        scan_digits (10 * acc + digit_value c) (count + 1) false s'
      else if Ascii.eqb c "_" then
        if after_underscore then None else scan_digits acc count true s'
      else if after_underscore then None
      else Some (acc, count, s)
  end.

Inductive int_outcome : Type :=
| IntValue (n : Z)
| IntInvalid
| IntTooLong (digits : Z).

(** [PyLong_FromString] in base 10: white space, a sign, the digits, white
    space, and nothing more.  More than [max_digits] digits are refused,
    a limit that is only looked at beyond 640 digits. *)
Definition long_from_string (max_digits : Z) (s : string) : int_outcome :=
  let body (negative : bool) (t : string) :=
    match t with
    | String "_" _ => IntInvalid
    | _ =>
        match scan_digits 0 0 false t with
        | None => IntInvalid
        | Some (n, digits, rest) =>
            if (640 <? digits) && (0 <? max_digits) && (max_digits <? digits)
            then IntTooLong digits
            else if digits =? 0 then IntInvalid
            else if String.eqb (lstrip rest) "" then
              IntValue (if negative then - n else n)
            else IntInvalid
        end
    end in
  match lstrip s with
  | String "-" t => body true t
  | String "+" t => body false t
  | t => body false t
  end.

Definition py_long (rt : runtime) (s : string) : int_outcome :=
  long_from_string (int_max_str_digits rt) (int_text rt s).

(** Whether [int(s)] returns, and what. *)
Definition py_int_of_string (rt : runtime) (s : string) : option Z :=
  match py_long rt s with
  | IntValue n => Some n
  | _ => None
  end.

(** The first [n] characters of a text. *)
Definition take_chars (n : nat) (s : string) : string :=
  String.concat "" (map bytes_of (firstn n (chars s))).

(** [int(s)] for a string [s], with the two errors it raises. *)
Definition py_int_str (rt : runtime) (s : string) : result Z :=
  match py_long rt s with
  | IntValue n => Ok n
  | IntInvalid =>
      Raise (ValueError ("invalid literal for int() with base 10: "
                         ++ take_chars 200 (repr_str rt s)))
  | IntTooLong digits =>
      Raise (ValueError
               ("Exceeds the limit (" ++ str_int (int_max_str_digits rt)
                ++ " digits) for integer string conversion: value has "
                ++ str_int digits
                ++ " digits; use sys.set_int_max_str_digits() to increase the limit"))
  end.

(** [int(x)] where [x] is what [os.getenv] returned. *)
Definition py_int (rt : runtime) (x : option string) : result Z :=
  match x with
  | None =>
      Raise (TypeError "int() argument must be a string, a bytes-like object or a real number, not 'NoneType'")
  | Some s => py_int_str rt s
  end.

(** ** The regular expressions of [_strptime]

    [datetime.strptime] compiles its format into a regular expression and
    matches it, with [re.IGNORECASE], at the start of the data.  The
    matcher below is a backtracking one in continuation-passing style:
    alternatives are tried in order, [\s+] is greedy.  [\d] and [\s] take
    one character of their class, of whatever script; a literal and a
    range of the expression are ASCII and take one byte.  [acc] is the
    text consumed since the innermost group was opened. *)

Inductive regex : Type :=
| Eps
| Lit (c : ascii)
| Digit
| Range (lo hi : ascii)
| Spaces
| Cat (r1 r2 : regex)
| Alt (r1 r2 : regex)
| Group (name : string) (r : regex).

Definition captures : Type := list (string * string).

Definition snoc (acc : string) (c : ascii) : string := acc ++ str1 c.

(** [\s+] on the characters [cs]: as many as there are, then one less, and
    so on down to one. *)
Fixpoint spaces_loop {A : Type} (space : Z -> bool) (cs : list uchar)
    (acc : string) (k : string -> string -> option A) : option A :=
  match cs with
  | [] => None
  | (cp, taken, rest) :: cs' =>
      if space cp then
        match spaces_loop space cs' (acc ++ taken) k with
        | Some a => Some a
        | None => k rest (acc ++ taken)
        end
      else None
  end.

(** One byte that satisfies [p]. *)
Definition one_char {A : Type} (p : ascii -> bool) (s acc : string)
    (k : string -> string -> option A) : option A :=
  match s with
  | EmptyString => None
  | String c s' => if p c then k s' (snoc acc c) else None
  end.

(** One character whose code point satisfies [p]. *)
Definition one_uchar {A : Type} (p : Z -> bool) (s acc : string)
    (k : string -> string -> option A) : option A :=
  match s with
  | EmptyString => None
  | String c s' =>
      let '(cp, taken, rest) := char_at c s' in
      if p cp then k rest (acc ++ taken) else None
  end.

Fixpoint rmatch {A : Type} (rt : runtime) (r : regex) (s : string)
    (caps : captures) (acc : string)
    (k : string -> captures -> string -> option A) : option A :=
  match r with
  | Eps => k s caps acc
  | Lit c =>
      one_char (fun c' => Ascii.eqb (lower c') (lower c)) s acc
               (fun s' acc' => k s' caps acc')
  | Digit => one_uchar (is_decimal rt) s acc (fun s' acc' => k s' caps acc')
  | Range lo hi =>
      one_char (fun c' => between (code lo) (code c') (code hi)) s acc
               (fun s' acc' => k s' caps acc')
  | Spaces =>
      spaces_loop (is_unicode_space rt) (chars s) acc
                  (fun s' acc' => k s' caps acc')
  | Cat r1 r2 =>
      rmatch rt r1 s caps acc
             (fun s' caps' acc' => rmatch rt r2 s' caps' acc' k)
  | Alt r1 r2 =>
      match rmatch rt r1 s caps acc k with
      | Some a => Some a
      | None => rmatch rt r2 s caps acc k
      end
  | Group name r1 =>
      rmatch rt r1 s caps EmptyString
             (fun s' caps' acc' => k s' ((name, acc') :: caps') (acc ++ acc'))
  end.

Definition cats (rs : list regex) : regex := fold_right Cat Eps rs.

Fixpoint alts (r : regex) (rs : list regex) : regex :=
  match rs with
  | [] => r
  | r' :: rest => Alt r (alts r' rest)
  end.

(** [3[0-1]|[1-2]\d|0[1-9]|[1-9]| [1-9]] *)
Definition re_d : regex :=
  Group "d" (alts (Cat (Lit "3") (Range "0" "1"))
                  [Cat (Range "1" "2") Digit; Cat (Lit "0") (Range "1" "9");
                   Range "1" "9"; Cat (Lit " ") (Range "1" "9")]).

(** [1[0-2]|0[1-9]|[1-9]] *)
Definition re_12 (name : string) : regex :=
  Group name (alts (Cat (Lit "1") (Range "0" "2"))
                   [Cat (Lit "0") (Range "1" "9"); Range "1" "9"]).

(** [\d\d\d\d] *)
Definition re_Y : regex := Group "Y" (cats [Digit; Digit; Digit; Digit]).

(** [[0-5]\d|\d] *)
Definition re_M : regex := Group "M" (alts (Cat (Range "0" "5") Digit) [Digit]).

(** [6[0-1]|[0-5]\d|\d] *)
Definition re_S : regex :=
  Group "S" (alts (Cat (Lit "6") (Range "0" "1"))
                  [Cat (Range "0" "5") Digit; Digit]).

(** [am|pm], the C locale's names. *)
Definition re_p : regex :=
  Group "p" (Alt (Cat (Lit "a") (Lit "m")) (Cat (Lit "p") (Lit "m"))).

(** The expression compiled from ['%d/%m/%Y : %I:%M:%S %p']: every run of
    white space of the format has become [\s+]. *)
Definition time_re : regex :=
  cats [re_d; Lit "/"; re_12 "m"; Lit "/"; re_Y; Spaces; Lit ":"; Spaces;
        re_12 "I"; Lit ":"; re_M; Lit ":"; re_S; Spaces; re_p].

Fixpoint capture (name : string) (caps : captures) : string :=
  match caps with
  | [] => EmptyString
  | (n, text) :: rest => if String.eqb n name then text else capture name rest
  end.

(** [int(found_dict[name])]. *)
Definition capture_int (rt : runtime) (name : string) (caps : captures)
    : result Z :=
  py_int_str rt (capture name caps).

(** The month names of [%B] in the C locale. *)
Definition month_names : list string :=
  ["January"; "February"; "March"; "April"; "May"; "June"; "July"; "August";
   "September"; "October"; "November"; "December"].

Definition pad2 (n : Z) : string :=
  String (digit_char (n / 10)) (String (digit_char (n mod 10)) EmptyString).

(** ** Effects

    What the bot does to the outside: messages sent and edited, the HTTP
    request, and the lines it logs.  The effects are kept in the order in
    which they happen; a message is named by the position of the [Send]
    that created it. *)

Record embed_field : Type := {
  field_name : string;
  field_value : string;
  field_inline : bool
}.

Record embed : Type := {
  embed_title : string;
  embed_color : Z;
  embed_url : string;
  embed_thumbnail : option string;
  embed_image : option string;
  embed_fields : list embed_field;
  embed_footer : option (string * string)
}.

(** [discord.Embed(title=..., color=..., url=...)] and its setters. *)
Definition Embed (title : string) (color : Z) (url : string) : embed :=
  {| embed_title := title; embed_color := color; embed_url := url;
     embed_thumbnail := None; embed_image := None; embed_fields := [];
     embed_footer := None |}.

Definition set_thumbnail (e : embed) (url : string) : embed :=
  {| embed_title := embed_title e; embed_color := embed_color e;
     embed_url := embed_url e; embed_thumbnail := Some url;
     embed_image := embed_image e; embed_fields := embed_fields e;
     embed_footer := embed_footer e |}.

Definition set_image (e : embed) (url : string) : embed :=
  {| embed_title := embed_title e; embed_color := embed_color e;
     embed_url := embed_url e; embed_thumbnail := embed_thumbnail e;
     embed_image := Some url; embed_fields := embed_fields e;
     embed_footer := embed_footer e |}.

Definition add_field (e : embed) (name value : string) (inline : bool) : embed :=
  {| embed_title := embed_title e; embed_color := embed_color e;
     embed_url := embed_url e; embed_thumbnail := embed_thumbnail e;
     embed_image := embed_image e;
     embed_fields := (embed_fields e ++
       [{| field_name := name; field_value := value; field_inline := inline |}])%list;
     embed_footer := embed_footer e |}.

Definition set_footer (e : embed) (text icon_url : string) : embed :=
  {| embed_title := embed_title e; embed_color := embed_color e;
     embed_url := embed_url e; embed_thumbnail := embed_thumbnail e;
     embed_image := embed_image e; embed_fields := embed_fields e;
     embed_footer := Some (text, icon_url) |}.

Inductive effect : Type :=
| Send (content : string) (delete_after : option Z)
| Edit (msg : nat) (content : string) (emb : option embed)
| HttpGet (url : string)
| LogError (text : string) (e : exn).

Definition io (A : Type) : Type := list effect -> result A * list effect.

Definition ret {A : Type} (a : A) : io A := fun log => (Ok a, log).

Definition iobind {A B : Type} (c : io A) (k : A -> io B) : io B :=
  fun log =>
    match c log with
    | (Ok a, log') => k a log'
    | (Raise e, log') => (Raise e, log')
    end.

Declare Scope io_scope.
Delimit Scope io_scope with io.
Notation "x <- c ;; k" := (iobind c (fun x => k))
  (at level 61, c at next level, right associativity) : io_scope.

(** A computation that may raise and has no other effect. *)
Definition lift {A : Type} (r : result A) : io A := fun log => (r, log).

Definition perform (e : effect) : io unit := fun log => (Ok tt, (log ++ [e])%list).

(** [try: body except Exception as e: handler(e)]; every exception of the
    model derives from [Exception]. *)
Definition try_except {A : Type} (body : io A) (handler : exn -> io A) : io A :=
  fun log =>
    match body log with
    | (Ok a, log') => (Ok a, log')
    | (Raise e, log') => handler e log'
    end.

(** [await ctx.send(content)]: the new message. *)
Definition send (content : string) (delete_after : option Z) : io nat :=
  fun log => (Ok (length log), (log ++ [Send content delete_after])%list).

(** [await msg.edit(content=..., embed=...)]. *)
Definition edit (msg : nat) (content : string) (emb : option embed) : io unit :=
  perform (Edit msg content emb).

(** [logger.error(f"{text}{e}")]. *)
Definition logger_error (text : string) (e : exn) : io unit :=
  perform (LogError text e).

(** ** The network

    What one GET on a URL meets: the transport fails, or a response
    arrives with a status and a body that [response.json()] parses or
    rejects. *)
Inductive http_outcome : Type :=
| TransportError (msg : string)
| Response (status : Z) (json : result value).

Definition network : Type := string -> http_outcome.

(** ** Start-up: lines 28 to 36 *)

Definition environment : Type := string -> option string.

Record config : Type := {
  DISCORD_TOKEN : string;
  ALLOWED_CHANNEL_IDS : list Z
}.

(** [not x] for what [os.getenv] returned. *)
Definition env_falsy (x : option string) : bool :=
  match x with
  | None => true
  | Some s => String.eqb s ""
  end.

Definition startup (rt : runtime) (getenv : environment) : result config :=
  let token := getenv "DISCORD_TOKEN" in
  let CHANNEL_ID := getenv "CHANNEL_ID" in
  (channel <- py_int rt CHANNEL_ID ;;
   let allowed := [channel] in
   if env_falsy token then
     Raise (ValueError "No DISCORD_TOKEN found in environment variables")
   else if env_falsy CHANNEL_ID then
     Raise (ValueError "No CHANNEL_ID found in environment variables")
   else
     Ok {| DISCORD_TOKEN := match token with Some t => t | None => "" end;
           ALLOWED_CHANNEL_IDS := allowed |})%result.

Section Bot.

Variable rt : runtime.

(** ** [str] and f-strings *)

(** [repr(v)]. *)
Fixpoint py_repr (v : value) : string :=
  match v with
  | VNone => "None"
  | VBool true => "True"
  | VBool false => "False"
  | VInt n => str_int n
  | VFloat x => float_repr x
  | VStr s => repr_str rt s
  | VList xs => "[" ++ join ", " (map py_repr xs) ++ "]"
  | VDict kvs =>
      "{" ++ join ", " (map (fun kv : string * value =>
                              let (k, x) := kv in
                              repr_str rt k ++ ": " ++ py_repr x) kvs)
          ++ "}"
  end.

(** [str(v)], which is also what [{v}] puts into an f-string. *)
Definition py_str (v : value) : string :=
  match v with
  | VStr s => s
  | _ => py_repr v
  end.

(** ** The formatters: lines 59 to 84 *)

Definition markdown_chars : list ascii :=
  ["_"; "*"; "["; "]"; "("; ")"; "~"; "`"; ">"; "#"; "+"; "-"; "="; "|";
   "{"; "}"; "."; "!"]%char.

(** [char in markdown_chars]. *)
Definition in_markdown_chars (char : ascii) : bool :=
  existsb (Ascii.eqb char) markdown_chars.

Definition escape_markdown (text : value) : string :=
  join "" (map (fun char => if in_markdown_chars char
                            then "\" ++ str1 char
                            else str1 char)
               (list_ascii_of_string (py_str text))).

Definition format_items (items : value) (category : string) : result string :=
  if negb (py_truthy items) then Ok "N/A"
  else
    (xs <- py_iter items ;;
     lines <- mapM (fun item =>
                      id <- py_getitem item "Items ID" ;;
                      icon <- py_getitem item "Items Icon" ;;
                      Ok ("[" ++ py_str id ++ "](" ++ py_str icon ++ ")")) xs ;;
     Ok (join nl lines))%result.

(** [datetime.strptime(data, '%d/%m/%Y : %I:%M:%S %p')], after
    [_strptime.py]: match the compiled expression at the start of the
    data, refuse data left over, convert the fields, build the date. *)
Definition strptime (data : string) : result datetime :=
  match rmatch rt time_re data [] EmptyString
               (fun rest caps _ => Some (rest, caps)) with
  | None =>
      Raise (ValueError ("time data " ++ repr_str rt data
                         ++ " does not match format '%d/%m/%Y : %I:%M:%S %p'"))
  | Some (rest, caps) =>
      if negb (String.eqb rest "") then
        Raise (ValueError ("unconverted data remains: " ++ rest))
      else
        (d <- capture_int rt "d" caps ;;
         m <- capture_int rt "m" caps ;;
         y <- capture_int rt "Y" caps ;;
         h12 <- capture_int rt "I" caps ;;
         mi <- capture_int rt "M" caps ;;
         s <- capture_int rt "S" caps ;;
         let ampm := lower_str (capture "p" caps) in
         let h :=
           if String.eqb ampm "" || String.eqb ampm "am" then
             (if h12 =? 12 then 0 else h12)
           else if String.eqb ampm "pm" then
             (if h12 =? 12 then h12 else h12 + 12)
           else h12 in
         new_datetime y m d h mi s)%result
  end.

(** [%Y] of the C library. *)
Definition year_text (y : Z) : string :=
  if y <? 1000 then small_year rt y else str_int y.

(** [dt.strftime('%d %B %Y %H:%M:%S')]. *)
Definition strftime (dt : datetime) : string :=
  pad2 (day dt) ++ " " ++ nth (Z.to_nat (month dt - 1)) month_names ""
  ++ " " ++ year_text (year dt) ++ " "
  ++ pad2 (hour dt) ++ ":" ++ pad2 (minute dt) ++ ":" ++ pad2 (second dt).

(** [datetime.fromtimestamp(timestamp)] for an [int] (a [bool] is one) or
    a [float]. *)
Definition fromtimestamp (timestamp : value) : result datetime :=
  match timestamp with
  | VBool b => fromtimestamp_sec rt (Z.b2z b)
  | VInt n => fromtimestamp_sec rt n
  | VFloat x => (t <- float_time_t x ;; fromtimestamp_sec rt t)%result
  | _ => Raise (TypeError "an integer is required")
  end.

(** [isinstance(v, (int, float))] and [isinstance(v, str)]. *)
Definition is_number (v : value) : bool :=
  match v with
  | VBool _ | VInt _ | VFloat _ => true
  | _ => false
  end.

Definition is_str (v : value) : bool :=
  match v with
  | VStr _ => true
  | _ => false
  end.

Definition format_timestamp (timestamp : value) : io string :=
  try_except
    (if is_number timestamp then
       lift (dt <- fromtimestamp timestamp ;; Ok (strftime dt))%result
     else if is_str timestamp then
       lift (dt <- strptime (py_str timestamp) ;; Ok (strftime dt))%result
     else ret "Not Available")
    (fun e =>
       (_ <- logger_error "Error formatting timestamp: " e ;;
        ret "Not Available")%io).

(** ** The fetcher: lines 47 to 56 *)

Variable net : network.

(** [session.get(url)]: the request goes out, and the transport may fail. *)
Definition session_get (url : string) : io (Z * result value) :=
  (_ <- perform (HttpGet url) ;;
   match net url with
   | TransportError msg => lift (Raise (ClientError msg))
   | Response status json => ret (status, json)
   end)%io.

(** [response.raise_for_status()]: aiohttp raises from status 400 on. *)
Definition raise_for_status (response : Z * result value) : io unit :=
  if 400 <=? fst response
  then lift (Raise (ClientError ("status " ++ str_int (fst response))))
  else ret tt.

Definition get_profile_info (uid : string) : io value :=
  let url := "https://ff-community-api.vercel.app/ff.Info?uid=" ++ uid in
  try_except
    (response <- session_get url ;;
     _ <- raise_for_status response ;;
     lift (snd response))%io
    (fun e =>
       (_ <- logger_error "Error fetching profile info: " e ;;
        ret VNone)%io).

(** ** The command: lines 104 to 199 *)

Variable cfg : config.

Definition library_icons (id : string) : string :=
  "https://ff-community-api.vercel.app/library/icons?id=" ++ id.

(** Lines 134 to 139: the thumbnail and the banner, set when the id is
    there and truthy. *)
Definition visual_elements (profile_data : value) (e : embed) : result embed :=
  (avatar <- py_get profile_data "AccountAvatarId" VNone ;;
   e1 <- (if py_truthy avatar then
            id <- py_getitem profile_data "AccountAvatarId" ;;
            Ok (set_thumbnail e (library_icons (py_str id)))
          else Ok e) ;;
   banner <- py_get profile_data "AccountBannerId" VNone ;;
   if py_truthy banner then
     id <- py_getitem profile_data "AccountBannerId" ;;
     Ok (set_image e1 (library_icons (py_str id)))
   else Ok e1)%result.

(** Lines 142 to 149. *)
Definition basic_info (profile_data : value) (uid : string) : result string :=
  (name <- py_get profile_data "AccountName" (VStr "Unknown") ;;
   level <- py_get profile_data "AccountLevel" (VStr "N/A") ;;
   region <- py_get profile_data "AccountRegion" (VStr "N/A") ;;
   likes <- py_get profile_data "AccountLikes" (VStr "N/A") ;;
   title <- py_get profile_data "EquippedTittle" (VStr "") ;;
   Ok ("```diff" ++ nl
       ++ "+ Name: " ++ escape_markdown name ++ nl
       ++ "+ UID: " ++ uid ++ nl
       ++ "+ Level: " ++ py_str level ++ " 🌟" ++ nl
       ++ "+ Region: " ++ py_str region ++ " 🌍" ++ nl
       ++ "+ Likes: " ++ py_str likes ++ " ❤️" ++ nl
       ++ "+ Title: [Equipped Title](" ++ library_icons (py_str title) ++ ")"
       ++ nl ++ "```"))%result.

(** Lines 153 to 160. *)
Definition activity_info (profile_data : value) : io string :=
  (version <- lift (py_get profile_data "ReleaseVersion" (VStr "N/A")) ;;
   bpid <- lift (py_get profile_data "AccountBPID" VNone) ;;
   br_rank <- lift (py_get profile_data "BrRank" (VStr "N/A")) ;;
   br_max <- lift (py_get profile_data "BrMaxRank" (VStr "N/A")) ;;
   cs_rank <- lift (py_get profile_data "CsRank" (VStr "N/A")) ;;
   cs_max <- lift (py_get profile_data "CsMaxRank" (VStr "N/A")) ;;
   create_time <- lift (py_get profile_data "AccountCreateTime" VNone) ;;
   created <- format_timestamp create_time ;;
   last_login_time <- lift (py_get profile_data "AccountLastLogin" VNone) ;;
   last_login <- format_timestamp last_login_time ;;
   ret ("```yaml" ++ nl
        ++ "Version: " ++ py_str version ++ " 🛠️" ++ nl
        ++ "Booyah Pass: " ++ (if py_truthy bpid then "Elite" else "Free")
        ++ " 🎫" ++ nl
        ++ "BR Rank: " ++ py_str br_rank ++ " (" ++ py_str br_max ++ " pts) 🏆"
        ++ nl
        ++ "CS Rank: " ++ py_str cs_rank ++ " (" ++ py_str cs_max ++ " pts) 🔫"
        ++ nl
        ++ "Created: " ++ created ++ " 🕰️" ++ nl
        ++ "Last Login: " ++ last_login ++ " ⏳" ++ nl
        ++ "```"))%io.

(** [s or 'N/A'] for a string [s]. *)
Definition or_na (s : string) : string :=
  if py_truthy (VStr s) then s else "N/A".

(** Lines 164 to 167. *)
Definition equipment_value (equipped_items outfit_items weapon_items : value)
    : result string :=
  (outfit <- format_items outfit_items "outfit" ;;
   weapon <- format_items weapon_items "weapon" ;;
   skills <- py_get equipped_items "EquippedSkills" (VStr "N/A") ;;
   Ok (nl ++ "**🎭 OUTFIT ITEMS**" ++ nl ++ or_na outfit ++ nl
       ++ "**🔫 WEAPON LOADOUT**" ++ nl ++ or_na weapon ++ nl
       ++ "**🦸 CHARACTER SKILLS**" ++ nl ++ py_str skills))%result.

(** Lines 172 to 177. *)
Definition pet_value (pet_info : value) : result string :=
  (name <- py_get pet_info "PetName" (VStr "N/A") ;;
   level <- py_get pet_info "PetLevel" (VStr "N/A") ;;
   exp <- py_get pet_info "PetEXP" (VStr "N/A") ;;
   skin <- py_get pet_info "SkinID" (VStr "N/A") ;;
   skin_id <- py_get pet_info "SkinID" (VStr "") ;;
   Ok ("```diff" ++ nl
       ++ "+ Name: " ++ py_str name ++ nl
       ++ "+ Level: " ++ py_str level ++ " 🐾" ++ nl
       ++ "+ EXP: " ++ py_str exp ++ " XP" ++ nl
       ++ "+ Skin: [ID " ++ py_str skin ++ "]("
       ++ library_icons (py_str skin_id) ++ ")" ++ nl
       ++ "```"))%result.

(** Lines 181 to 186. *)
Definition guild_value (guild_info : value) : result string :=
  (name <- py_get guild_info "GuildName" (VStr "N/A") ;;
   id <- py_get guild_info "GuildID" (VStr "N/A") ;;
   level <- py_get guild_info "GuildLevel" (VStr "N/A") ;;
   member <- py_get guild_info "GuildMember" (VStr "N/A") ;;
   capacity <- py_get guild_info "GuildCapacity" (VStr "N/A") ;;
   Ok ("```fix" ++ nl
       ++ "Name: " ++ escape_markdown name ++ nl
       ++ "ID: " ++ py_str id ++ nl
       ++ "Level: " ++ py_str level ++ " 🏰" ++ nl
       ++ "Members: " ++ py_str member ++ "/" ++ py_str capacity ++ " 👥" ++ nl
       ++ "```"))%result.

Definition rejection_text : string :=
  "This command can only be used in specific channels.".

Definition fetching_text (uid : string) : string :=
  "🔍 Fetching details for UID " ++ uid ++ "...".

Definition failure_text : string :=
  "❌ Sorry, there was an issue fetching data. Please try again later.".

(** Lines 119 to 191: the sections are drawn from the document and the
    message is put together. *)
Definition compose (profile_data : value) (uid : string) : io embed :=
  (guild_info <- lift (py_get profile_data "Guild Information" (VDict [])) ;;
   leader_info <- lift (py_get guild_info "LeaderInfo" (VDict [])) ;;
   pet_info <- lift (py_get profile_data "Pet Information" (VDict [])) ;;
   equipped_items <- lift (py_get profile_data "Equipped Items" (VDict [])) ;;
   outfit_items <- lift (py_get equipped_items "EquippedOutfit" (VList [])) ;;
   weapon_items <- lift (py_get equipped_items "EquippedWeapon" (VList [])) ;;
   name <- lift (py_get profile_data "AccountName" (VStr "Unknown")) ;;
   let e0 := Embed ("🎮 " ++ escape_markdown name ++ "'s PROFILE")
                   0x3498db ("https://ff.garena.com/account/" ++ uid) in
   e1 <- lift (visual_elements profile_data e0) ;;
   basic <- lift (basic_info profile_data uid) ;;
   let e2 := add_field e1 "📜 PLAYER PROFILE" basic false in
   activity <- activity_info profile_data ;;
   let e3 := add_field e2 "📈 ACTIVITY STATS" activity false in
   equipment <- lift (equipment_value equipped_items outfit_items
                                      weapon_items) ;;
   let e4 := add_field e3 "🎒 EQUIPMENT" equipment false in
   equipped <- lift (py_get pet_info "Equipped?" (VInt 0)) ;;
   e5 <- (if py_eq_one equipped then
            pet <- lift (pet_value pet_info) ;;
            ret (add_field e4 "🐾 PET COMPANION" pet false)
          else ret e4) ;;
   guild <- lift (guild_value guild_info) ;;
   let e6 := add_field e5 "🏰 GUILD DETAILS" guild false in
   ret (set_footer e6 "🔥 Powered by META's API | 📧 Contact: @jackson_tn"
                   "https://emoji.discord.st/emojis/7692_ff.png"))%io.

(** [get(ctx, uid)], with [channel_id] for [ctx.channel.id]. *)
Definition get (channel_id : Z) (uid : string) : io unit :=
  if negb (existsb (Z.eqb channel_id) (ALLOWED_CHANNEL_IDS cfg)) then
    (_ <- send rejection_text None ;; ret tt)%io
  else
    (msg <- send (fetching_text uid) None ;;
     profile_data <- get_profile_info uid ;;
     if negb (py_truthy profile_data) then
       edit msg failure_text None
     else
       e <- compose profile_data uid ;;
       edit msg "" (Some e))%io.

(** [get_error(ctx, error)]. *)
Definition get_error (error : exn) : io unit :=
  match error with
  | MissingRequiredArgument _ =>
      (_ <- send ("❌ Please use: `!get <uid>`" ++ nl
                  ++ "Example: `!get 1722778962`") (Some 15) ;;
       ret tt)%io
  | _ => ret tt
  end.

End Bot.

(** ** A reference runtime

    One concrete runtime, on which the model runs: the zone is UTC, a year
    below 1000 is printed without padding (as glibc does), [repr] of a
    string puts it between single quotes (which is Python's [repr] for a
    string without quotes, backslashes and control characters), the
    Unicode database is that of version 14.0 and an integer text has at
    most 4300 digits (both as in CPython 3.11). *)

(** The civil date of a day number counted from 1970-01-01. *)
Definition civil_from_days (days : Z) : Z * Z * Z :=
  let z := days + 719468 in
  let era := z / 146097 in
  let doe := z - era * 146097 in
  let yoe := (doe - doe / 1460 + doe / 36524 - doe / 146096) / 365 in
  let doy := doe - (365 * yoe + yoe / 4 - yoe / 100) in
  let mp := (5 * doy + 2) / 153 in
  let d := doy - (153 * mp + 2) / 5 + 1 in
  let m := if mp <? 10 then mp + 3 else mp - 9 in
  let y := yoe + era * 400 + (if m <=? 2 then 1 else 0) in
  (y, m, d).

(** [datetime.fromtimestamp] in UTC: the seconds must fit [time_t], the
    year must fit the C library's [int], and both the time and the time one
    day earlier (which CPython probes to detect a repeated hour) must fall
    in the years 1 to 9999. *)
Definition utc_fromtimestamp (t : Z) : result datetime :=
  if negb (between (- 2 ^ 63) t (2 ^ 63 - 1)) then
    Raise (OverflowError "timestamp out of range for platform time_t")
  else
    let '(y, m, d) := civil_from_days (t / 86400) in
    let '(y0, _, _) := civil_from_days ((t - 86400) / 86400) in
    let s := t mod 86400 in
    if negb (between (- 2 ^ 31) (y - 1900) (2 ^ 31 - 1)) then
      Raise (OSError "[Errno 75] Value too large for defined data type")
    else if between 1 y 9999 && negb (between 1 y0 9999) then
      Raise (ValueError ("year " ++ str_int y0 ++ " is out of range"))
    else new_datetime y m d (s / 3600) (s mod 3600 / 60) (s mod 60).

(** The zeros of the decimal digits outside ASCII; the digits 1 to 9 of
    a script follow its zero. *)
Definition unicode_zeros : list Z :=
  [0x0660; 0x06F0; 0x07C0; 0x0966; 0x09E6; 0x0A66; 0x0AE6; 0x0B66;
   0x0BE6; 0x0C66; 0x0CE6; 0x0D66; 0x0DE6; 0x0E50; 0x0ED0; 0x0F20;
   0x1040; 0x1090; 0x17E0; 0x1810; 0x1946; 0x19D0; 0x1A80; 0x1A90;
   0x1B50; 0x1BB0; 0x1C40; 0x1C50; 0xA620; 0xA8D0; 0xA900; 0xA9D0;
   0xA9F0; 0xAA50; 0xABF0; 0xFF10; 0x104A0; 0x10D30; 0x11066; 0x110F0;
   0x11136; 0x111D0; 0x112F0; 0x11450; 0x114D0; 0x11650; 0x116C0;
   0x11730; 0x118E0; 0x11950; 0x11C50; 0x11D50; 0x11DA0; 0x16A60;
   0x16AC0; 0x16B50; 0x1D7CE; 0x1D7D8; 0x1D7E2; 0x1D7EC; 0x1D7F6;
   0x1E140; 0x1E2F0; 0x1E950; 0x1FBF0].

Definition decimal_of (cp : Z) : option Z :=
  match find (fun zero => between zero cp (zero + 9)) unicode_zeros with
  | Some zero => Some (cp - zero)
  | None => None
  end.

(** The white space outside ASCII. *)
Definition unicode_spaces : list Z :=
  [0x0085; 0x00A0; 0x1680; 0x2000; 0x2001; 0x2002; 0x2003; 0x2004;
   0x2005; 0x2006; 0x2007; 0x2008; 0x2009; 0x200A; 0x2028; 0x2029;
   0x202F; 0x205F; 0x3000].

Definition utc_runtime : runtime :=
  {| repr_str := fun s => "'" ++ s ++ "'";
     fromtimestamp_sec := utc_fromtimestamp;
     small_year := str_int;
     unicode_decimal := decimal_of;
     unicode_space := fun cp => existsb (Z.eqb cp) unicode_spaces;
     int_max_str_digits := 4300 |}.

(** ** The vocabulary of the specification *)

(** The characters the specification calls formatting-significant:
    underscore, asterisk, brackets, parentheses, tilde, backtick,
    angle-bracket, hash, plus, hyphen, equals, pipe, braces, period,
    exclamation. *)
Definition significant (c : ascii) : Prop :=
  (c = "_" \/ c = "*" \/ c = "[" \/ c = "]" \/ c = "(" \/ c = ")"
   \/ c = "~" \/ c = "`" \/ c = ">" \/ c = "#" \/ c = "+" \/ c = "-"
   \/ c = "=" \/ c = "|" \/ c = "{" \/ c = "}" \/ c = "." \/ c = "!")%char.

(** [escapes s t]: [t] is [s] with a backslash put before every
    significant character, and nothing else changed. *)
Inductive escapes : string -> string -> Prop :=
| escapes_end : escapes EmptyString EmptyString
| escapes_significant (c : ascii) (s t : string) :
    significant c -> escapes s t ->
    escapes (String c s) (String "\" (String c t))
| escapes_other (c : ascii) (s t : string) :
    ~ significant c -> escapes s t -> escapes (String c s) (String c t).

(** A text with every backslash removed. *)
Fixpoint without_backslashes (s : string) : string :=
  match s with
  | EmptyString => EmptyString
  | String c s' =>
      if Ascii.eqb c "\" then without_backslashes s'
      else String c (without_backslashes s')
  end.

(** An item record that exposes an id and an icon reference. *)
Definition item_record (item id icon : value) : Prop :=
  exists kvs, item = VDict kvs
              /\ dict_lookup "Items ID" kvs = Some id
              /\ dict_lookup "Items Icon" kvs = Some icon.

(** The display line of an item: its id linked to its icon reference. *)
Definition item_line (rt : runtime) (id icon : value) : string :=
  "[" ++ py_str rt id ++ "](" ++ py_str rt icon ++ ")".

(** [s] follows the template [tpl], in which [#] stands for one of the
    digits 0 to 9 and every other character for itself. *)
Fixpoint matches_template (tpl s : string) : bool :=
  match tpl, s with
  | EmptyString, EmptyString => true
  | String t tpl', String c s' =>
      (if Ascii.eqb t "#" then is_digit c else Ascii.eqb t c)
      && matches_template tpl' s'
  | _, _ => false
  end.

(** The exact input pattern [DD/MM/YYYY : hh:mm:ss AM/PM]. *)
Definition exact_pattern (s : string) : bool :=
  matches_template "##/##/#### : ##:##:## AM" s
  || matches_template "##/##/#### : ##:##:## PM" s.

Fixpoint drop (n : nat) (s : string) : string :=
  match n, s with
  | S n', String _ s' => drop n' s'
  | _, _ => s
  end.

(** The output shape [DD Month YYYY HH:MM:SS]. *)
Definition display_shape (s : string) : bool :=
  matches_template "## " (substring 0 3 s)
  && existsb (fun name =>
                String.prefix name (drop 3 s)
                && matches_template " #### ##:##:##"
                                    (drop (3 + String.length name) s))
             month_names.

(** The two errors of the presence checks at start-up. *)
Definition missing_token : exn :=
  ValueError "No DISCORD_TOKEN found in environment variables".

Definition missing_channel : exn :=
  ValueError "No CHANNEL_ID found in environment variables".

(** What one GET may meet that the fetcher counts as a failure: the
    transport fails, the status is one [raise_for_status] refuses, or the
    body is not JSON. *)
Definition fetch_fails (o : http_outcome) : Prop :=
  match o with
  | TransportError _ => True
  | Response status json =>
      400 <= status \/ exists e, json = Raise e
  end.

(** How often the fetcher went to the network. *)
Fixpoint fetch_count (log : list effect) : nat :=
  match log with
  | [] => 0%nat
  | HttpGet _ :: rest => S (fetch_count rest)
  | _ :: rest => fetch_count rest
  end.

(** The messages of [log], oldest first. *)
Definition sent (log : list effect) : list string :=
  flat_map (fun e => match e with Send content _ => [content] | _ => [] end)
           log.

(** What message [msg] shows once [log] has happened: its text and its
    embed.  [None] when no [Send] stands at position [msg]. *)
Definition visible (log : list effect) (msg : nat)
    : option (string * option embed) :=
  match nth_error log msg with
  | Some (Send content _) =>
      Some (fold_left
              (fun shown e =>
                 match e with
                 | Edit m content' emb =>
                     if Nat.eqb m msg then
                       (content', match emb with
                                  | Some _ => emb
                                  | None => snd shown
                                  end)
                     else shown
                 | _ => shown
                 end)
              log (content, None))
  | _ => None
  end.

(** The embed that [log] delivered, if it delivered one. *)
Definition delivered (log : list effect) : option embed :=
  fold_left (fun found e =>
               match e with
               | Edit _ _ (Some emb) => Some emb
               | _ => found
               end) log None.

(** A text section wrapped as a fenced code block with a language hint:
    three backticks and a lower-case word on the first line, three
    backticks alone on the last. *)
Fixpoint hint_line (s : string) (seen : bool) : bool :=
  match s with
  | EmptyString => false
  | String c s' =>
      if Ascii.eqb c (ascii_of_nat 10) then seen
      else between 97 (code c) 122 && hint_line s' true
  end.

Definition fenced (s : string) : bool :=
  String.prefix "```" s && hint_line (drop 3 s) false
  && endswith s (nl ++ "```").

(** The first line of a text, without its newline. *)
Fixpoint first_line (s : string) : string :=
  match s with
  | EmptyString => EmptyString
  | String c s' =>
      if Ascii.eqb c (ascii_of_nat 10) then EmptyString
      else String c (first_line s')
  end.

(** The language hint of a text section: the word after the opening
    fence of a fenced code block, and none for a plain section. *)
Definition language_hint (s : string) : option string :=
  if fenced s then Some (first_line (drop 3 s)) else None.

Definition section_names (e : embed) : list string :=
  map field_name (embed_fields e).

Definition count_sections (p : string -> bool) (e : embed) : nat :=
  List.length (filter p (map field_value (embed_fields e))).

(** The keys of the profile document that the command reads. *)
Definition profile_keys : list string :=
  ["Guild Information"; "Pet Information"; "Equipped Items"; "AccountName";
   "AccountAvatarId"; "AccountBannerId"; "AccountLevel"; "AccountRegion";
   "AccountLikes"; "EquippedTittle"; "ReleaseVersion"; "AccountBPID";
   "BrRank"; "BrMaxRank"; "CsRank"; "CsMaxRank"; "AccountCreateTime";
   "AccountLastLogin"].

(** A document that has none of them. *)
Definition bare (kvs : list (string * value)) : Prop :=
  forall k, In k profile_keys -> dict_lookup k kvs = None.

(** The message composed from a document without any of the keys: every
    section holds its placeholders. *)
Definition placeholder_embed (uid : string) : embed :=
  {| embed_title := "🎮 Unknown's PROFILE";
     embed_color := 0x3498db;
     embed_url := "https://ff.garena.com/account/" ++ uid;
     embed_thumbnail := None;
     embed_image := None;
     embed_fields :=
       [ {| field_name := "📜 PLAYER PROFILE";
            field_value :=
              "```diff" ++ nl
              ++ "+ Name: Unknown" ++ nl
              ++ "+ UID: " ++ uid ++ nl
              ++ "+ Level: N/A 🌟" ++ nl
              ++ "+ Region: N/A 🌍" ++ nl
              ++ "+ Likes: N/A ❤️" ++ nl
              ++ "+ Title: [Equipped Title](https://ff-community-api.vercel.app/library/icons?id=)"
              ++ nl ++ "```";
            field_inline := false |};
         {| field_name := "📈 ACTIVITY STATS";
            field_value :=
              "```yaml" ++ nl
              ++ "Version: N/A 🛠️" ++ nl
              ++ "Booyah Pass: Free 🎫" ++ nl
              ++ "BR Rank: N/A (N/A pts) 🏆" ++ nl
              ++ "CS Rank: N/A (N/A pts) 🔫" ++ nl
              ++ "Created: Not Available 🕰️" ++ nl
              ++ "Last Login: Not Available ⏳" ++ nl
              ++ "```";
            field_inline := false |};
         {| field_name := "🎒 EQUIPMENT";
            field_value :=
              nl ++ "**🎭 OUTFIT ITEMS**" ++ nl ++ "N/A" ++ nl
              ++ "**🔫 WEAPON LOADOUT**" ++ nl ++ "N/A" ++ nl
              ++ "**🦸 CHARACTER SKILLS**" ++ nl ++ "N/A";
            field_inline := false |};
         {| field_name := "🏰 GUILD DETAILS";
            field_value :=
              "```fix" ++ nl
              ++ "Name: N/A" ++ nl
              ++ "ID: N/A" ++ nl
              ++ "Level: N/A 🏰" ++ nl
              ++ "Members: N/A/N/A 👥" ++ nl
              ++ "```";
            field_inline := false |} ];
     embed_footer :=
       Some ("🔥 Powered by META's API | 📧 Contact: @jackson_tn",
             "https://emoji.discord.st/emojis/7692_ff.png") |}.

(** An effect that delivers no embed. *)
Definition plain_effect (e : effect) : Prop :=
  match e with
  | Edit _ _ (Some _) => False
  | _ => True
  end.

(** A configuration and a network to run the command on: channel 7 is
    allowed, and every request is answered by [outcome]. *)
Definition example_config : config :=
  {| DISCORD_TOKEN := "token"; ALLOWED_CHANNEL_IDS := [7] |}.

Definition answering (outcome : http_outcome) : network := fun _ => outcome.

(** A computation whose effects deliver no embed. *)
Definition quiet {A : Type} (c : io A) : Prop :=
  forall log, exists effects,
    snd (c log) = (log ++ effects)%list /\ Forall plain_effect effects.

Definition pad4 (n : Z) : string :=
  String (digit_char (n / 1000))
    (String (digit_char (n / 100 mod 10)) (pad2 (n mod 100))).

(** The decimal numeral whose first digit is [x] and whose further digits
    are [l]: how [str] of an [int] is read digit by digit. *)
Definition decimal_digit (x : Z) (l : Decimal.uint) : Decimal.uint :=
  match x with
  | 0 => Decimal.D0 l
  | 1 => Decimal.D1 l
  | 2 => Decimal.D2 l
  | 3 => Decimal.D3 l
  | 4 => Decimal.D4 l
  | 5 => Decimal.D5 l
  | 6 => Decimal.D6 l
  | 7 => Decimal.D7 l
  | 8 => Decimal.D8 l
  | _ => Decimal.D9 l
  end.

(** The text of the exact pattern for day [d], month [m], year [y], hour
    [h] of the 12-hour clock, minute [mi] and second [s]. *)
Definition pattern_text (d m y h mi s : Z) (pm : bool) : string :=
  pad2 d ++ "/" ++ pad2 m ++ "/" ++ pad4 y ++ " : "
  ++ pad2 h ++ ":" ++ pad2 mi ++ ":" ++ pad2 s ++ " "
  ++ (if pm then "PM" else "AM").

(** The hour of the day that [h] of the 12-hour clock is. *)
Definition hour24 (h : Z) (pm : bool) : Z :=
  if pm then (if h =? 12 then 12 else h + 12)
  else (if h =? 12 then 0 else h).

(** The date that [format_timestamp] reads from its argument: by
    [fromtimestamp] from a number, by [strptime] from a string, and none
    from anything else or when the conversion raises. *)
Definition parsed (rt : runtime) (timestamp : value) : option datetime :=
  match
    (if is_number timestamp then fromtimestamp rt timestamp
     else if is_str timestamp then strptime rt (py_str rt timestamp)
     else Raise (TypeError "neither a number nor a string"))
  with
  | Ok dt => Some dt
  | Raise _ => None
  end.

(** ** The rest of the module *)

(** *** The command as the framework runs it: lines 104 and 196

    [discord.py] binds the words after [!get] to the parameters of the
    command.  With no word for [uid] it raises [MissingRequiredArgument]
    before the command runs and hands it to the command's error handler;
    an exception that the command itself raises is handed to the same
    handler wrapped in a [CommandInvokeError].  As the command has a
    handler of its own, the framework reports the error nowhere else. *)
Definition invoke (rt : runtime) (net : network) (cfg : config)
    (channel_id : Z) (words : list string) : io unit :=
  match words with
  | [] => get_error (MissingRequiredArgument "uid")
  | uid :: _ =>
      try_except (get rt net cfg channel_id uid)
                 (fun e => get_error (CommandInvokeError e))
  end.

(** The usage guidance, which is removed again after 15 seconds. *)
Definition usage_text : string :=
  "❌ Please use: `!get <uid>`" ++ nl ++ "Example: `!get 1722778962`".

(** *** The presence updater: lines 89 to 101 *)

Inductive activity : Type :=
| Game (name : string)
| Watching (name : string).

Inductive presence_effect : Type :=
| LogInfo (text : string)
| ChangePresence (a : activity)
| Sleep (seconds : Z).

Definition activities : list activity :=
  [Game "META's 👑 KINGDOM"; Watching "!get <uid>";
   Game "Example: !get 1722778962"].

(** One pass of [for activity in activities]. *)
Definition presence_pass : list presence_effect :=
  flat_map (fun a => [ChangePresence a; Sleep 10]) activities.

(** [on_ready] never returns; its effects up to the end of the first
    [passes] passes of [while True]. *)
Fixpoint presence_loop (passes : nat) : list presence_effect :=
  match passes with
  | O => []
  | S n => (presence_pass ++ presence_loop n)%list
  end.

Definition on_ready (user_name : string) (user_id : Z) (passes : nat)
    : list presence_effect :=
  LogInfo ("Logged in as " ++ user_name ++ " (" ++ str_int user_id ++ ")")
  :: presence_loop passes.

(** The presence changes among some effects, in order. *)
Definition presences (effects : list presence_effect) : list activity :=
  flat_map (fun e => match e with ChangePresence a => [a] | _ => [] end)
           effects.

(** *** The web application: lines 204 to 220

    Requests are served one after another. *)
Module Web.

(** The application object, as far as the module touches it: whether it
    has the attribute [bot_started]. *)
Record app : Type := { bot_started : bool }.

(** [bot_thread.start()], which runs [run_bot], that is
    [bot.run(DISCORD_TOKEN)], in a thread of its own. *)
Inductive web_effect : Type :=
| StartBot (token : string).

Definition run_bot (cfg : config) : web_effect := StartBot (DISCORD_TOKEN cfg).

(** The [before_request] hook. *)
Definition startup (cfg : config) (a : app) : app * list web_effect :=
  if negb (bot_started a) then ({| bot_started := true |}, [run_bot cfg])
  else (a, []).

Definition home : string := "Discord bot is running!".

(** What a request gets: the text of the route [/], or the framework's
    answer to a URL without a route. *)
Inductive response : Type :=
| Page (body : string)
| NotFound.

(** One request: the hook runs first, whatever the URL is. *)
Definition serve (cfg : config) (a : app) (path : string)
    : app * list web_effect * response :=
  let (a', started) := startup cfg a in
  (a', started, if String.eqb path "/" then Page home else NotFound).

(** Requests in a row, from the state [a] on: the state they leave, the
    threads they started and their answers. *)
Fixpoint serve_all (cfg : config) (a : app) (paths : list string)
    : app * list web_effect * list response :=
  match paths with
  | [] => (a, [], [])
  | path :: rest =>
      let '(a1, started1, answer) := serve cfg a path in
      let '(a2, started2, answers) := serve_all cfg a1 rest in
      (a2, (started1 ++ started2)%list, answer :: answers)
  end.

(** The application as [Flask(__name__)] makes it. *)
Definition fresh : app := {| bot_started := false |}.

End Web.

(** ** More vocabulary *)

(** Undoing [escape_markdown]: a backslash that stands before a character
    of the set is dropped. *)
Fixpoint unescape (s : string) : string :=
  match s with
  | EmptyString => EmptyString
  | String c s' =>
      match s' with
      | EmptyString => String c EmptyString
      | String c' s'' =>
          if Ascii.eqb c "\" && in_markdown_chars c'
          then String c' (unescape s'')
          else String c (unescape s')
      end
  end.

(** Every character of the set in [s] directly follows a backslash;
    [after_backslash] tells whether the character before [s] is one. *)
Fixpoint all_escaped (after_backslash : bool) (s : string) : bool :=
  match s with
  | EmptyString => true
  | String c s' =>
      (negb (in_markdown_chars c) || after_backslash)
      && all_escaped (Ascii.eqb c "\") s'
  end.

(** How many characters of the set [s] has. *)
Fixpoint count_markdown_chars (s : string) : nat :=
  match s with
  | EmptyString => O
  | String c s' =>
      ((if in_markdown_chars c then 1 else 0) + count_markdown_chars s')%nat
  end.

Definition is_dict (v : value) : bool :=
  match v with
  | VDict _ => true
  | _ => false
  end.

Definition is_list (v : value) : bool :=
  match v with
  | VList _ => true
  | _ => false
  end.

Definition is_log (e : effect) : Prop :=
  match e with
  | LogError _ _ => True
  | _ => False
  end.

(** A computation all of whose effects satisfy [P]. *)
Definition emits {A : Type} (P : effect -> Prop) (c : io A) : Prop :=
  forall log, exists effects,
    snd (c log) = (log ++ effects)%list /\ Forall P effects.

(** The address the fetcher asks for [uid]. *)
Definition profile_url (uid : string) : string :=
  "https://ff-community-api.vercel.app/ff.Info?uid=" ++ uid.

(** What the fetcher hands back for [uid] on [net]: the document of a
    response with a status below 400 and a JSON body, [None] otherwise. *)
Definition fetched (net : network) (uid : string) : value :=
  match net (profile_url uid) with
  | Response status (Ok doc) => if 400 <=? status then VNone else doc
  | _ => VNone
  end.

(** A document from which the command can compose its message: the
    three nested sections are dicts where they are present, and
    [format_items] accepts the two item lists. *)
Definition composable (rt : runtime) (profile_data : value) : Prop :=
  exists guild pet equipped outfit weapon outfit_text weapon_text,
    py_get profile_data "Guild Information" (VDict []) = Ok guild
    /\ is_dict guild = true
    /\ py_get profile_data "Pet Information" (VDict []) = Ok pet
    /\ is_dict pet = true
    /\ py_get profile_data "Equipped Items" (VDict []) = Ok equipped
    /\ py_get equipped "EquippedOutfit" (VList []) = Ok outfit
    /\ py_get equipped "EquippedWeapon" (VList []) = Ok weapon
    /\ format_items rt outfit "outfit" = Ok outfit_text
    /\ format_items rt weapon "weapon" = Ok weapon_text.

(** The id a document gives for the thumbnail or the banner: the entry
    of [key] when it is there and truthy. *)
Definition icon_of (rt : runtime) (profile_data : value) (key : string)
    : option string :=
  match py_get profile_data key VNone with
  | Ok id => if py_truthy id then Some (library_icons (py_str rt id)) else None
  | Raise _ => None
  end.

(** An effect that edits no message. *)
Definition not_edit (e : effect) : Prop :=
  match e with
  | Edit _ _ _ => False
  | _ => True
  end.

(** A continuation of the matcher that fails on every text that begins
    with a digit. *)
Definition digit_blind {A : Type}
    (k : string -> captures -> string -> option A) : Prop :=
  forall c rest caps acc, is_digit c = true -> k (String c rest) caps acc = None.

(** The fields of a text of the exact pattern make a date and a time of
    the 12-hour clock. *)
Definition fields_valid (d m y h mi s : Z) (pm : bool) : bool :=
  between 1 h 12 && valid_datetime y m d (hour24 h pm) mi s.

(** * Properties *)

(** ** [escape_markdown] *)

Lemma join_empty_cons (x : string) (xs : list string) :
  join "" (x :: xs) = x ++ join "" xs.
Proof.
  unfold join. destruct xs as [|y ys]; simpl.
  - induction x as [|c x IH]; simpl; [reflexivity | now rewrite <- IH].
  - reflexivity.
Qed.

Lemma escape_markdown_nil (rt : runtime) :
  escape_markdown rt (VStr "") = "".
Proof. reflexivity. Qed.

Lemma escape_markdown_cons (rt : runtime) (c : ascii) (s : string) :
  escape_markdown rt (VStr (String c s)) =
  (if in_markdown_chars c then String "\" (String c EmptyString)
   else String c EmptyString) ++ escape_markdown rt (VStr s).
Proof.
  unfold escape_markdown. simpl py_str. simpl list_ascii_of_string.
  rewrite map_cons, join_empty_cons. reflexivity.
Qed.

Lemma in_markdown_chars_spec (c : ascii) :
  in_markdown_chars c = true <-> significant c.
Proof.
  unfold in_markdown_chars, significant, markdown_chars. cbn [existsb].
  repeat rewrite orb_true_iff. repeat rewrite Ascii.eqb_eq.
  intuition discriminate.
Qed.

Lemma escapes_functional (s t t' : string) :
  escapes s t -> escapes s t' -> t = t'.
Proof.
  intros H. revert t'.
  induction H as [|c s t Hc _ IH|c s t Hc _ IH]; intros t' H'; inversion H';
    subst; try contradiction; try reflexivity; f_equal; auto.
  f_equal. auto.
Qed.

(** C2. For every input string, [escape_markdown] puts a backslash before
    every occurrence of a character of the fixed set (underscore, asterisk,
    brackets, parentheses, tilde, backtick, the closing angle bracket, hash,
    plus, hyphen, equals, pipe, braces, period, exclamation) and leaves
    every other character as it is: its output is the one text that
    [escapes] relates to the input. *)
Theorem escape_markdown_escapes (rt : runtime) (s t : string) :
  escapes s t <-> t = escape_markdown rt (VStr s).
Proof.
  assert (E : forall u, escapes u (escape_markdown rt (VStr u))).
  { induction u as [|c u IH].
    - rewrite escape_markdown_nil. constructor.
    - rewrite escape_markdown_cons.
      destruct (in_markdown_chars c) eqn:Hc; simpl.
      + apply escapes_significant; [now apply in_markdown_chars_spec | exact IH].
      + apply escapes_other; [| exact IH].
        intros Hs. apply in_markdown_chars_spec in Hs. congruence. }
  split.
  - intros H. exact (escapes_functional _ _ _ H (E s)).
  - intros ->. apply E.
Qed.

Lemma backslash_not_escaped : in_markdown_chars "\" = false.
Proof. reflexivity. Qed.

(** C5. For every input text, removing the backslashes from what
    [escape_markdown] returns gives the same string as removing them from
    the input: escaping only adds backslashes. *)
Theorem escape_markdown_additive (rt : runtime) (text : value) :
  without_backslashes (escape_markdown rt text) =
  without_backslashes (py_str rt text).
Proof.
  assert (E : forall s, without_backslashes (escape_markdown rt (VStr s)) =
                        without_backslashes s).
  { induction s as [|c s IH]; [reflexivity|].
    rewrite escape_markdown_cons.
    destruct (in_markdown_chars c) eqn:Hc; simpl.
    - destruct (Ascii.eqb c "\") eqn:Hb.
      + apply Ascii.eqb_eq in Hb. subst c. discriminate Hc.
      + now rewrite IH.
    - now rewrite IH. }
  assert (S : escape_markdown rt text = escape_markdown rt (VStr (py_str rt text)))
    by reflexivity.
  rewrite S. apply E.
Qed.

(** ** [format_items] *)

Lemma join_cons_cons (sep x y : string) (ys : list string) :
  join sep (x :: y :: ys) = x ++ sep ++ join sep (y :: ys).
Proof. reflexivity. Qed.

Lemma format_items_falsy (rt : runtime) (items : value) (category : string) :
  py_truthy items = false -> format_items rt items category = Ok "N/A".
Proof. intros H. unfold format_items. now rewrite H. Qed.

Lemma item_record_getitem (item id icon : value) :
  item_record item id icon ->
  py_getitem item "Items ID" = Ok id /\ py_getitem item "Items Icon" = Ok icon.
Proof.
  intros (kvs & -> & Hid & Hicon). simpl. now rewrite Hid, Hicon.
Qed.

Lemma mapM_cons {A B : Type} (f : A -> result B) (x : A) (xs : list A) :
  mapM f (x :: xs) =
  (y <- f x ;; ys <- mapM f xs ;; Ok (y :: ys))%result.
Proof. reflexivity. Qed.

(** The generator of [format_items] over well-formed records yields the
    records' lines, one for one and in order. *)
Lemma format_items_lines (rt : runtime) (items : list value) :
  Forall (fun item => exists id icon, item_record item id icon) items ->
  exists lines,
    mapM (fun item =>
            (id <- py_getitem item "Items ID" ;;
             icon <- py_getitem item "Items Icon" ;;
             Ok ("[" ++ py_str rt id ++ "](" ++ py_str rt icon ++ ")"))%result)
         items = Ok lines
    /\ Forall2 (fun item line =>
                  exists id icon,
                    item_record item id icon /\ line = item_line rt id icon)
               items lines.
Proof.
  induction 1 as [|item rest (id & icon & Hrec) _ (lines & Hmap & Hall)].
  - exists []. split; [reflexivity | constructor].
  - exists (item_line rt id icon :: lines).
    destruct (item_record_getitem _ _ _ Hrec) as [Hid Hicon].
    split.
    + rewrite mapM_cons, Hmap, Hid. cbn [bind]. rewrite Hicon. reflexivity.
    + constructor; [| exact Hall]. now exists id, icon.
Qed.

(** C8. [format_items] returns exactly "N/A" for an empty item sequence
    and for an absent one ([None]; a missing key reaches it as the empty
    list); for a non-empty sequence of item records it returns the
    records' display lines joined by newlines: one line per item, in the
    items' order, each linking the item's id to its icon reference. *)
Theorem format_items_spec (rt : runtime) (category : string) :
  format_items rt (VList []) category = Ok "N/A"
  /\ format_items rt VNone category = Ok "N/A"
  /\ forall items : list value,
       items <> [] ->
       Forall (fun item => exists id icon, item_record item id icon) items ->
       exists lines,
         format_items rt (VList items) category = Ok (join nl lines)
         /\ Forall2 (fun item line =>
                       exists id icon,
                         item_record item id icon
                         /\ line = item_line rt id icon)
                    items lines.
Proof.
  split; [reflexivity|]. split; [reflexivity|].
  intros items Hne Hrec.
  destruct (format_items_lines rt items Hrec) as (lines & Hmap & Hall).
  exists lines. split; [| exact Hall].
  unfold format_items. destruct items as [|item rest]; [contradiction|].
  cbn [py_truthy negb py_iter bind]. rewrite Hmap. reflexivity.
Qed.

(** C3, at the failing input. A record that lacks the icon key makes
    [format_items] raise [KeyError] instead of returning a fallback; the
    same holds of a record that lacks the id key. *)
Theorem format_items_raises_on_missing_key (rt : runtime) :
  format_items rt (VList [VDict [("Items ID", VInt 1)]]) "outfit"
  = Raise (KeyError "Items Icon")
  /\ format_items rt (VList [VDict [("Items Icon", VStr "icon")]]) "outfit"
     = Raise (KeyError "Items ID").
Proof. split; reflexivity. Qed.

(** ** Start-up *)

Lemma py_long_empty (rt : runtime) : py_long rt "" = IntInvalid.
Proof. reflexivity. Qed.

Lemma py_int_of_string_empty (rt : runtime) : py_int_of_string rt "" = None.
Proof. reflexivity. Qed.

(** [int] raises a [ValueError] or returns. *)
Lemma py_int_str_cases (rt : runtime) (s : string) :
  match py_int_of_string rt s with
  | Some n => py_int_str rt s = Ok n
  | None => exists msg, py_int_str rt s = Raise (ValueError msg)
  end.
Proof.
  unfold py_int_of_string, py_int_str.
  destruct (py_long rt s); [reflexivity | eexists; reflexivity ..].
Qed.

Lemma startup_cases (rt : runtime) (getenv : environment) :
  match getenv "CHANNEL_ID" with
  | None => exists msg, startup rt getenv = Raise (TypeError msg)
  | Some s =>
      match py_int_of_string rt s with
      | None => exists msg, startup rt getenv = Raise (ValueError msg)
                            /\ ValueError msg <> missing_token
                            /\ ValueError msg <> missing_channel
      | Some n =>
          s <> ""
          /\ if env_falsy (getenv "DISCORD_TOKEN")
             then startup rt getenv = Raise missing_token
             else exists token, startup rt getenv
                  = Ok {| DISCORD_TOKEN := token; ALLOWED_CHANNEL_IDS := [n] |}
      end
  end.
Proof.
  unfold startup.
  destruct (getenv "CHANNEL_ID") as [s|] eqn:Hc; cbn [py_int].
  - unfold py_int_of_string, py_int_str.
    destruct (py_long rt s) as [n| |digits] eqn:Hn; cbn [bind].
    + assert (Hs : s <> "").
      { intros ->. rewrite py_long_empty in Hn. discriminate Hn. }
      split; [exact Hs|].
      destruct (env_falsy (getenv "DISCORD_TOKEN")); [reflexivity|].
      cbn [env_falsy]. destruct (String.eqb s "") eqn:He.
      * apply String.eqb_eq in He. contradiction.
      * eexists. reflexivity.
    + eexists. split; [reflexivity|]. split; discriminate.
    + eexists. split; [reflexivity|]. split; discriminate.
  - eexists. reflexivity.
Qed.

(** C10. At start-up, when the channel variable is absent, building the
    allow-set raises the [TypeError] of [int(None)], whatever the token
    is, before either presence check runs; no environment makes the
    start-up raise the missing-channel error; and when it raises the
    missing-token error the channel variable is set (to a text [int]
    accepts). *)
Theorem startup_channel_checked_too_late (rt : runtime) :
  (forall getenv : environment,
     getenv "CHANNEL_ID" = None ->
     exists msg, startup rt getenv = Raise (TypeError msg))
  /\ (forall getenv : environment, startup rt getenv <> Raise missing_channel)
  /\ (forall getenv : environment,
        startup rt getenv = Raise missing_token ->
        exists s n, getenv "CHANNEL_ID" = Some s
                    /\ py_int_of_string rt s = Some n).
Proof.
  split; [| split]; intros getenv; pose proof (startup_cases rt getenv) as H.
  - intros Hc. rewrite Hc in H. exact H.
  - destruct (getenv "CHANNEL_ID") as [s|].
    + destruct (py_int_of_string rt s) as [n|].
      * destruct H as [_ H].
        destruct (env_falsy (getenv "DISCORD_TOKEN")).
        -- rewrite H. discriminate.
        -- destruct H as [token ->]. discriminate.
      * destruct H as (msg & -> & _ & H). congruence.
    + destruct H as [msg ->]. discriminate.
  - intros Hr. destruct (getenv "CHANNEL_ID") as [s|].
    + destruct (py_int_of_string rt s) as [n|] eqn:Hn.
      * now exists s, n.
      * destruct H as (msg & H & Hm & _). rewrite H in Hr. congruence.
    + destruct H as [msg H]. rewrite H in Hr. discriminate.
Qed.

(** ** The fetcher and the command *)

Lemma not_allowed (cfg : config) (channel_id : Z) :
  ~ In channel_id (ALLOWED_CHANNEL_IDS cfg) ->
  existsb (Z.eqb channel_id) (ALLOWED_CHANNEL_IDS cfg) = false.
Proof.
  intros H. destruct (existsb _ _) eqn:E; [| reflexivity].
  apply existsb_exists in E. destruct E as (x & Hx & Hex).
  apply Z.eqb_eq in Hex. subst x. contradiction.
Qed.

Lemma allowed (cfg : config) (channel_id : Z) :
  In channel_id (ALLOWED_CHANNEL_IDS cfg) ->
  existsb (Z.eqb channel_id) (ALLOWED_CHANNEL_IDS cfg) = true.
Proof.
  intros H. apply existsb_exists. exists channel_id. split; [exact H|].
  apply Z.eqb_refl.
Qed.

Lemma fetch_count_app (l1 l2 : list effect) :
  fetch_count (l1 ++ l2) = (fetch_count l1 + fetch_count l2)%nat.
Proof.
  induction l1 as [|e l1 IH]; [reflexivity|].
  destruct e; simpl; rewrite IH; reflexivity.
Qed.

(** C7, amended. From a channel outside the allowed set, the command
    called with its argument sends the rejection text and ends: that one
    message is all it does, the placeholder is never sent and the fetcher
    is never called.  So does every invocation that gives the argument,
    whatever words follow it; the error handler is not reached. *)
Theorem get_rejects_other_channels (rt : runtime) (net : network)
    (cfg : config) (channel_id : Z) (uid : string) (log : list effect) :
  ~ In channel_id (ALLOWED_CHANNEL_IDS cfg) ->
  get rt net cfg channel_id uid log
  = (Ok tt, (log ++ [Send rejection_text None])%list)
  /\ fetch_count (snd (get rt net cfg channel_id uid log)) = fetch_count log
  /\ sent (snd (get rt net cfg channel_id uid [])) = [rejection_text]
  /\ (forall more,
        invoke rt net cfg channel_id (uid :: more) log
        = (Ok tt, (log ++ [Send rejection_text None])%list)).
Proof.
  intros H. unfold invoke, try_except, get. rewrite (not_allowed _ _ H). cbn.
  repeat split.
  rewrite fetch_count_app. simpl. lia.
Qed.

(** The fetcher on a failing request: the request goes out, the error is
    logged, and [None] comes back. *)
Lemma get_profile_info_fails (net : network) (uid : string)
    (log : list effect) :
  let url := "https://ff-community-api.vercel.app/ff.Info?uid=" ++ uid in
  fetch_fails (net url) ->
  exists e,
    get_profile_info net uid log
    = (Ok VNone,
       (log ++ [HttpGet url] ++ [LogError "Error fetching profile info: " e])%list).
Proof.
  intros url H. unfold get_profile_info, session_get, raise_for_status,
    try_except, iobind, perform, lift, ret, logger_error.
  fold url. destruct (net url) as [msg|status json]; simpl in *.
  - eexists. rewrite <- app_assoc. reflexivity.
  - destruct (400 <=? status) eqn:Hs; simpl.
    + eexists. rewrite <- app_assoc. reflexivity.
    + destruct H as [H|[e ->]]; [apply Z.leb_gt in Hs; lia|].
      eexists. rewrite <- app_assoc. reflexivity.
Qed.

(** C6, amended. Whatever makes the request fail for the fetcher (a
    status from 400 on, a transport error, a body that is not JSON), the
    fetcher returns the one signal [None]; the command, called from an
    allowed channel, then edits the placeholder to the failure text and
    ends, so that the placeholder message shows the failure text and no
    longer the fetching text. *)
Theorem get_reports_failed_fetch (rt : runtime) (net : network)
    (cfg : config) (channel_id : Z) (uid : string) :
  In channel_id (ALLOWED_CHANNEL_IDS cfg) ->
  fetch_fails (net ("https://ff-community-api.vercel.app/ff.Info?uid=" ++ uid)) ->
  (forall log, fst (get_profile_info net uid log) = Ok VNone)
  /\ (exists e,
        get rt net cfg channel_id uid []
        = (Ok tt,
           [Send (fetching_text uid) None;
            HttpGet ("https://ff-community-api.vercel.app/ff.Info?uid=" ++ uid);
            LogError "Error fetching profile info: " e;
            Edit 0 failure_text None]))
  /\ visible (snd (get rt net cfg channel_id uid [])) 0
     = Some (failure_text, None).
Proof.
  intros Ha Hf.
  assert (G : exists e,
             get rt net cfg channel_id uid []
             = (Ok tt,
                [Send (fetching_text uid) None;
                 HttpGet ("https://ff-community-api.vercel.app/ff.Info?uid=" ++ uid);
                 LogError "Error fetching profile info: " e;
                 Edit 0 failure_text None])).
  { destruct (get_profile_info_fails net uid [Send (fetching_text uid) None] Hf)
      as [e He].
    exists e. unfold get. rewrite (allowed _ _ Ha). cbn [negb].
    unfold iobind at 1. unfold send at 1. cbn [length app].
    unfold iobind at 1. rewrite He. reflexivity. }
  split; [| split].
  - intros log. destruct (get_profile_info_fails net uid log Hf) as [e ->].
    reflexivity.
  - exact G.
  - destruct G as [e ->]. reflexivity.
Qed.

(** ** A document without the keys *)

Lemma get_profile_info_ok (net : network) (uid : string) (status : Z)
    (doc : value) (log : list effect) :
  let url := "https://ff-community-api.vercel.app/ff.Info?uid=" ++ uid in
  net url = Response status (Ok doc) ->
  status < 400 ->
  get_profile_info net uid log = (Ok doc, (log ++ [HttpGet url])%list).
Proof.
  intros url Hn Hs. unfold get_profile_info, session_get, raise_for_status,
    try_except, iobind, perform, lift, ret.
  fold url. rewrite Hn. cbn [fst snd].
  apply Z.leb_gt in Hs. rewrite Hs. reflexivity.
Qed.

Ltac in_keys := cbv [profile_keys In]; auto 30.

Ltac step_bare H :=
  repeat (cbn [py_get py_getitem dict_lookup py_truthy py_eq_one bind negb
                 String.eqb Ascii.eqb Bool.eqb];
          rewrite ?H by in_keys).

Lemma compose_bare (rt : runtime) (kvs : list (string * value))
    (uid : string) (log : list effect) :
  bare kvs ->
  compose rt (VDict kvs) uid log = (Ok (placeholder_embed uid), log).
Proof.
  intros H.
  unfold compose, activity_info, iobind, lift, ret.
  step_bare H.
  unfold visual_elements, basic_info, equipment_value, guild_value.
  step_bare H.
  reflexivity.
Qed.

Lemma placeholder_sections_filled (uid : string) :
  Forall (fun f => field_value f <> "") (embed_fields (placeholder_embed uid)).
Proof. repeat constructor; discriminate. Qed.

(** C1, amended. For every profile document that the fetch returns
    successfully, that has at least one key and that has none of the keys
    the command reads, the command composes and delivers the message whose
    sections hold the placeholders: the placeholder message ends up showing
    that embed, no section is empty, nothing raises and the failure path is
    not taken. *)
Theorem get_delivers_placeholders (rt : runtime) (net : network)
    (cfg : config) (channel_id : Z) (uid : string) (status : Z)
    (kvs : list (string * value)) :
  In channel_id (ALLOWED_CHANNEL_IDS cfg) ->
  net ("https://ff-community-api.vercel.app/ff.Info?uid=" ++ uid)
  = Response status (Ok (VDict kvs)) ->
  status < 400 ->
  kvs <> [] ->
  bare kvs ->
  get rt net cfg channel_id uid []
  = (Ok tt,
     [Send (fetching_text uid) None;
      HttpGet ("https://ff-community-api.vercel.app/ff.Info?uid=" ++ uid);
      Edit 0 "" (Some (placeholder_embed uid))])
  /\ visible (snd (get rt net cfg channel_id uid [])) 0
     = Some ("", Some (placeholder_embed uid))
  /\ Forall (fun f => field_value f <> "")
            (embed_fields (placeholder_embed uid)).
Proof.
  intros Ha Hn Hs Hne Hb.
  assert (G : get rt net cfg channel_id uid []
              = (Ok tt,
                 [Send (fetching_text uid) None;
                  HttpGet ("https://ff-community-api.vercel.app/ff.Info?uid=" ++ uid);
                  Edit 0 "" (Some (placeholder_embed uid))])).
  { unfold get. rewrite (allowed _ _ Ha). cbn [negb].
    unfold iobind at 1. unfold send at 1. cbn [length app].
    unfold iobind at 1.
    rewrite (get_profile_info_ok net uid status (VDict kvs) _ Hn Hs).
    destruct kvs as [|kv kvs']; [contradiction|].
    cbn [py_truthy negb]. unfold iobind. rewrite compose_bare by exact Hb.
    reflexivity. }
  split; [exact G | split].
  - rewrite G. reflexivity.
  - apply placeholder_sections_filled.
Qed.

Lemma bare_example : bare [("status", VStr "ok")].
Proof.
  intros k Hk. cbv [profile_keys In] in Hk.
  repeat (destruct Hk as [<-|Hk]; [reflexivity|]). contradiction.
Qed.

Lemma get_delivers_placeholders_witness :
  get utc_runtime
      (answering (Response 200 (Ok (VDict [("status", VStr "ok")]))))
      example_config 7 "1722778962" []
  = (Ok tt,
     [Send (fetching_text "1722778962") None;
      HttpGet "https://ff-community-api.vercel.app/ff.Info?uid=1722778962";
      Edit 0 "" (Some (placeholder_embed "1722778962"))])
  /\ visible (snd (get utc_runtime
                       (answering
                          (Response 200 (Ok (VDict [("status", VStr "ok")]))))
                       example_config 7 "1722778962" [])) 0
     = Some ("", Some (placeholder_embed "1722778962"))
  /\ Forall (fun f => field_value f <> "")
            (embed_fields (placeholder_embed "1722778962")).
Proof.
  apply (get_delivers_placeholders utc_runtime
           (answering (Response 200 (Ok (VDict [("status", VStr "ok")]))))
           example_config 7 "1722778962" 200 [("status", VStr "ok")]).
  - simpl. left. reflexivity.
  - reflexivity.
  - lia.
  - discriminate.
  - exact bare_example.
Defined.

(** C1, as stated, fails at the empty document: the fetch succeeds with
    [{}], which lacks every key, and the command takes the failure path. *)
Lemma get_empty_document_takes_failure_path :
  bare []
  /\ get_profile_info (answering (Response 200 (Ok (VDict []))))
                      "1722778962" [Send (fetching_text "1722778962") None]
     = (Ok (VDict []),
        [Send (fetching_text "1722778962") None;
         HttpGet "https://ff-community-api.vercel.app/ff.Info?uid=1722778962"])
  /\ get utc_runtime (answering (Response 200 (Ok (VDict []))))
         example_config 7 "1722778962" []
     = (Ok tt,
        [Send (fetching_text "1722778962") None;
         HttpGet "https://ff-community-api.vercel.app/ff.Info?uid=1722778962";
         Edit 0 failure_text None]).
Proof.
  split; [| split]; try reflexivity.
  intros k _. reflexivity.
Qed.

(** ** The sections of a delivered message *)

Lemma bind_inv {A B : Type} (r : result A) (k : A -> result B) (b : B) :
  bind r k = Ok b -> exists a, r = Ok a /\ k a = Ok b.
Proof. destruct r as [a|e]; simpl; [now exists a | discriminate]. Qed.

Lemma iobind_inv {A B : Type} (c : io A) (k : A -> io B) (b : B)
    (log log' : list effect) :
  iobind c k log = (Ok b, log') ->
  exists a log1, c log = (Ok a, log1) /\ k a log1 = (Ok b, log').
Proof.
  unfold iobind. destruct (c log) as [[a|e] log1]; [| discriminate].
  intros H. now exists a, log1.
Qed.

Lemma lift_inv {A : Type} (r : result A) (a : A) (log log' : list effect) :
  lift r log = (Ok a, log') -> r = Ok a /\ log' = log.
Proof. unfold lift. intros H. inversion H. now split. Qed.

Lemma ret_inv {A : Type} (a b : A) (log log' : list effect) :
  ret a log = (Ok b, log') -> a = b /\ log' = log.
Proof. unfold ret. intros H. inversion H. now split. Qed.

(** Inverting a successful run, bind by bind. *)
Ltac invert_run :=
  repeat match goal with
    | H : iobind _ _ _ = (Ok _, _) |- _ =>
        let a := fresh "a" in let l := fresh "log" in
        let H1 := fresh "H" in let H2 := fresh "H" in
        apply iobind_inv in H; destruct H as (a & l & H1 & H2)
    | H : lift _ _ = (Ok _, _) |- _ =>
        let E := fresh "E" in apply lift_inv in H; destruct H as [H E]; subst
    | H : ret _ _ = (Ok _, _) |- _ =>
        let E := fresh "E" in apply ret_inv in H; destruct H as [H E]; subst
    | H : bind _ _ = Ok _ |- _ =>
        let a := fresh "a" in
        let H1 := fresh "H" in let H2 := fresh "H" in
        apply bind_inv in H; destruct H as (a & H1 & H2)
    | H : Ok _ = Ok _ |- _ => inversion H; clear H; subst
    end.

Lemma endswith_refl (s : string) : endswith s s = true.
Proof. destruct s; cbn [endswith]; now rewrite String.eqb_refl. Qed.

Lemma endswith_app (a t suffix : string) :
  endswith t suffix = true -> endswith (a ++ t) suffix = true.
Proof.
  intros H. induction a as [|c a IH]; [exact H|].
  cbn [append endswith]. destruct (String.eqb _ _); [reflexivity | exact IH].
Qed.

Ltac ends_with_fence :=
  repeat first [ apply endswith_refl | apply endswith_app ]; try reflexivity.

Lemma basic_info_fenced (rt : runtime) (v : value) (uid s : string) :
  basic_info rt v uid = Ok s -> fenced s = true.
Proof.
  unfold basic_info. intros H. invert_run.
  unfold fenced. apply andb_true_intro. split; [reflexivity|].
  ends_with_fence.
Qed.

Lemma activity_info_fenced (rt : runtime) (v : value) (s : string)
    (log log' : list effect) :
  activity_info rt v log = (Ok s, log') -> fenced s = true.
Proof.
  unfold activity_info. intros H. invert_run.
  unfold fenced. apply andb_true_intro. split; [reflexivity|].
  ends_with_fence.
Qed.

Lemma pet_value_fenced (rt : runtime) (v : value) (s : string) :
  pet_value rt v = Ok s -> fenced s = true.
Proof.
  unfold pet_value. intros H. invert_run.
  unfold fenced. apply andb_true_intro. split; [reflexivity|].
  ends_with_fence.
Qed.

Lemma guild_value_fenced (rt : runtime) (v : value) (s : string) :
  guild_value rt v = Ok s -> fenced s = true.
Proof.
  unfold guild_value. intros H. invert_run.
  unfold fenced. apply andb_true_intro. split; [reflexivity|].
  ends_with_fence.
Qed.

Lemma equipment_value_plain (rt : runtime) (v outfit weapon : value)
    (s : string) :
  equipment_value rt v outfit weapon = Ok s -> fenced s = false.
Proof.
  unfold equipment_value. intros H. invert_run. reflexivity.
Qed.

(** The hints of the four fenced sections. *)
Lemma basic_info_hint (rt : runtime) (v : value) (uid s : string) :
  basic_info rt v uid = Ok s -> language_hint s = Some "diff".
Proof.
  intros H. unfold language_hint. rewrite (basic_info_fenced _ _ _ _ H).
  unfold basic_info in H. invert_run. reflexivity.
Qed.

Lemma activity_info_hint (rt : runtime) (v : value) (s : string)
    (log log' : list effect) :
  activity_info rt v log = (Ok s, log') -> language_hint s = Some "yaml".
Proof.
  intros H. unfold language_hint. rewrite (activity_info_fenced _ _ _ _ _ H).
  unfold activity_info in H. invert_run. reflexivity.
Qed.

Lemma pet_value_hint (rt : runtime) (v : value) (s : string) :
  pet_value rt v = Ok s -> language_hint s = Some "diff".
Proof.
  intros H. unfold language_hint. rewrite (pet_value_fenced _ _ _ H).
  unfold pet_value in H. invert_run. reflexivity.
Qed.

Lemma guild_value_hint (rt : runtime) (v : value) (s : string) :
  guild_value rt v = Ok s -> language_hint s = Some "fix".
Proof.
  intros H. unfold language_hint. rewrite (guild_value_fenced _ _ _ H).
  unfold guild_value in H. invert_run. reflexivity.
Qed.

Lemma equipment_value_no_hint (rt : runtime) (v outfit weapon : value)
    (s : string) :
  equipment_value rt v outfit weapon = Ok s -> language_hint s = None.
Proof.
  intros H. unfold language_hint.
  now rewrite (equipment_value_plain _ _ _ _ _ H).
Qed.

Lemma visual_elements_fields (rt : runtime) (v : value) (e e' : embed) :
  visual_elements rt v e = Ok e' -> embed_fields e' = embed_fields e.
Proof.
  unfold visual_elements. intros H. invert_run.
  destruct (py_truthy a); destruct (py_truthy a1); invert_run; reflexivity.
Qed.

Lemma compose_sections (rt : runtime) (v : value) (uid : string) (e : embed)
    (log log' : list effect) :
  compose rt v uid log = (Ok e, log') ->
  exists pet_info equipped,
    py_get v "Pet Information" (VDict []) = Ok pet_info
    /\ py_get pet_info "Equipped?" (VInt 0) = Ok equipped
    /\ section_names e
       = (["📜 PLAYER PROFILE"; "📈 ACTIVITY STATS"; "🎒 EQUIPMENT"]
          ++ (if py_eq_one equipped then ["🐾 PET COMPANION"] else [])
          ++ ["🏰 GUILD DETAILS"])%list
    /\ map fenced (map field_value (embed_fields e))
       = ([true; true; false]
          ++ (if py_eq_one equipped then [true] else []) ++ [true])%list
    /\ map language_hint (map field_value (embed_fields e))
       = ([Some "diff"; Some "yaml"; None]
          ++ (if py_eq_one equipped then [Some "diff"] else [])
          ++ [Some "fix"])%list.
Proof.
  unfold compose. intros H. invert_run.
  match goal with
  | H : visual_elements _ _ _ = Ok _ |- _ =>
      apply visual_elements_fields in H; rename H into Hfields
  end.
  repeat match goal with
    | H : basic_info _ _ _ = Ok _ |- _ =>
        pose proof (basic_info_hint _ _ _ _ H); apply basic_info_fenced in H
    | H : activity_info _ _ _ = (Ok _, _) |- _ =>
        pose proof (activity_info_hint _ _ _ _ _ H);
        apply activity_info_fenced in H
    | H : equipment_value _ _ _ _ = Ok _ |- _ =>
        pose proof (equipment_value_no_hint _ _ _ _ _ H);
        apply equipment_value_plain in H
    | H : guild_value _ _ = Ok _ |- _ =>
        pose proof (guild_value_hint _ _ _ H); apply guild_value_fenced in H
    end.
  match goal with
  | H1 : py_get v "Pet Information" _ = Ok ?p,
    H2 : py_get ?p "Equipped?" _ = Ok ?q |- _ =>
      exists p, q; split; [exact H1 | split; [exact H2 |]];
      destruct (py_eq_one q); invert_run;
      try match goal with
        | H : pet_value _ _ = Ok _ |- _ =>
            pose proof (pet_value_hint _ _ _ H); apply pet_value_fenced in H
        end
  end.
  all: unfold section_names;
    cbn [set_footer add_field embed_fields]; rewrite Hfields;
    cbn [Embed embed_fields app map field_name field_value];
    split; [reflexivity | split; congruence].
Qed.

Lemma quiet_ret {A : Type} (a : A) : quiet (ret a).
Proof. intros log. exists []. now rewrite app_nil_r. Qed.

Lemma quiet_lift {A : Type} (r : result A) : quiet (lift r).
Proof. intros log. exists []. now rewrite app_nil_r. Qed.

Lemma quiet_perform (e : effect) : plain_effect e -> quiet (perform e).
Proof. intros H log. exists [e]. split; [reflexivity | now constructor]. Qed.

Lemma quiet_send (content : string) (delete_after : option Z) :
  quiet (send content delete_after).
Proof.
  intros log. exists [Send content delete_after].
  split; [reflexivity | now repeat constructor].
Qed.

Lemma quiet_iobind {A B : Type} (c : io A) (k : A -> io B) :
  quiet c -> (forall a, quiet (k a)) -> quiet (iobind c k).
Proof.
  intros Hc Hk log. unfold iobind.
  destruct (Hc log) as (e1 & E1 & P1).
  destruct (c log) as [[a|ex] log1]; simpl in E1; subst log1.
  - destruct (Hk a (log ++ e1)%list) as (e2 & E2 & P2).
    exists (e1 ++ e2)%list. rewrite E2, app_assoc.
    split; [reflexivity | now apply Forall_app].
  - now exists e1.
Qed.

Lemma quiet_try_except {A : Type} (body : io A) (handler : exn -> io A) :
  quiet body -> (forall e, quiet (handler e)) -> quiet (try_except body handler).
Proof.
  intros Hb Hh log. unfold try_except.
  destruct (Hb log) as (e1 & E1 & P1).
  destruct (body log) as [[a|ex] log1]; simpl in E1; subst log1.
  - now exists e1.
  - destruct (Hh ex (log ++ e1)%list) as (e2 & E2 & P2).
    exists (e1 ++ e2)%list. rewrite E2, app_assoc.
    split; [reflexivity | now apply Forall_app].
Qed.

Ltac quiet_steps :=
  repeat first
    [ apply quiet_ret | apply quiet_lift | apply quiet_send
    | apply quiet_perform; exact I
    | apply quiet_iobind; [| intros ?]
    | apply quiet_try_except; [| intros ?]
    | match goal with
      | |- quiet (if ?b then _ else _) => destruct b
      | |- quiet (match ?o with TransportError _ => _ | Response _ _ => _ end) =>
          destruct o
      end ].

Lemma quiet_format_timestamp (rt : runtime) (v : value) :
  quiet (format_timestamp rt v).
Proof.
  unfold format_timestamp, logger_error. quiet_steps.
Qed.

Lemma quiet_get_profile_info (net : network) (uid : string) :
  quiet (get_profile_info net uid).
Proof.
  unfold get_profile_info, session_get, raise_for_status, logger_error.
  quiet_steps.
Qed.

Lemma quiet_compose (rt : runtime) (v : value) (uid : string) :
  quiet (compose rt v uid).
Proof.
  unfold compose, activity_info.
  quiet_steps.
Qed.

Lemma delivered_snoc (log : list effect) (x : effect) :
  delivered (log ++ [x])
  = match x with
    | Edit _ _ (Some emb) => Some emb
    | _ => delivered log
    end.
Proof. unfold delivered. now rewrite fold_left_app. Qed.

Lemma delivered_plain_app (log effects : list effect) :
  Forall plain_effect effects -> delivered (log ++ effects) = delivered log.
Proof.
  intros H. induction effects as [|x xs IH] using rev_ind.
  - now rewrite app_nil_r.
  - apply Forall_app in H. destruct H as [Hxs Hx].
    rewrite app_assoc, delivered_snoc, (IH Hxs).
    inversion Hx as [|? ? Px _]; subst.
    destruct x as [| m c [emb|] | |]; try reflexivity. contradiction.
Qed.

Lemma delivered_plain (effects : list effect) :
  Forall plain_effect effects -> delivered effects = None.
Proof. intros H. apply (delivered_plain_app [] effects H). Qed.

(** When the command has delivered an embed, the fetcher returned a
    document and [compose] built that embed from it. *)
Lemma delivered_by_compose (rt : runtime) (net : network) (cfg : config)
    (channel_id : Z) (uid : string) (e : embed) :
  delivered (snd (get rt net cfg channel_id uid [])) = Some e ->
  exists profile_data log1 log2,
    get_profile_info net uid [Send (fetching_text uid) None]
    = (Ok profile_data, log1)
    /\ compose rt profile_data uid log1 = (Ok e, log2).
Proof.
  unfold get.
  destruct (existsb _ _); cbn [negb]; [| discriminate].
  unfold iobind at 1. unfold send at 1. cbn [length app].
  unfold iobind at 1.
  destruct (quiet_get_profile_info net uid [Send (fetching_text uid) None])
    as (e1 & E1 & P1).
  assert (P0 : Forall plain_effect ([Send (fetching_text uid) None] ++ e1)%list)
    by (apply Forall_app; split; [repeat constructor | exact P1]).
  destruct (get_profile_info net uid [Send (fetching_text uid) None])
    as [[v|ex] log1] eqn:Hfetch; cbn [snd] in E1; rewrite <- E1 in P0; clear E1.
  - destruct (py_truthy v); cbn [negb].
    + unfold iobind.
      destruct (quiet_compose rt v uid log1) as (e2 & E2 & P2).
      destruct (compose rt v uid log1) as [[e'|ex] log2] eqn:Hc;
        cbn [snd] in E2; subst log2.
      * unfold edit, perform. cbn [snd]. rewrite delivered_snoc.
        intros H. inversion H; subst e'. eauto.
      * cbn [snd]. rewrite delivered_plain_app, delivered_plain by assumption.
        discriminate.
    + unfold edit, perform. cbn [snd].
      rewrite delivered_snoc, delivered_plain by assumption. discriminate.
  - cbn [snd]. rewrite delivered_plain by assumption. discriminate.
Qed.

Lemma filter_map_length {A : Type} (p : A -> bool) (q : bool -> bool)
    (xs : list A) :
  List.length (filter (fun x => q (p x)) xs)
  = List.length (filter q (map p xs)).
Proof.
  induction xs as [|x xs IH]; [reflexivity|].
  simpl. destruct (q (p x)); simpl; now rewrite IH.
Qed.

(** C9, amended. Every delivered message has its text sections in the
    order profile, activity, equipment, pet, guild, the pet section being
    there exactly when the [Equipped?] entry of the document's pet
    information equals 1; the profile, activity, pet and guild sections
    are fenced code blocks with the language hints [diff], [yaml], [diff]
    and [fix], and the equipment section is the one plain section: three
    fenced blocks and one plain section without a pet, four fenced blocks
    and one plain section with one. *)
Theorem delivered_message_sections (rt : runtime) (net : network)
    (cfg : config) (channel_id : Z) (uid : string) (e : embed) :
  delivered (snd (get rt net cfg channel_id uid [])) = Some e ->
  exists profile_data pet_info equipped,
    fst (get_profile_info net uid [Send (fetching_text uid) None])
    = Ok profile_data
    /\ py_get profile_data "Pet Information" (VDict []) = Ok pet_info
    /\ py_get pet_info "Equipped?" (VInt 0) = Ok equipped
    /\ section_names e
       = (["📜 PLAYER PROFILE"; "📈 ACTIVITY STATS"; "🎒 EQUIPMENT"]
          ++ (if py_eq_one equipped then ["🐾 PET COMPANION"] else [])
          ++ ["🏰 GUILD DETAILS"])%list
    /\ (In "🐾 PET COMPANION" (section_names e) <-> py_eq_one equipped = true)
    /\ map fenced (map field_value (embed_fields e))
       = ([true; true; false]
          ++ (if py_eq_one equipped then [true] else []) ++ [true])%list
    /\ map language_hint (map field_value (embed_fields e))
       = ([Some "diff"; Some "yaml"; None]
          ++ (if py_eq_one equipped then [Some "diff"] else [])
          ++ [Some "fix"])%list
    /\ count_sections fenced e = (if py_eq_one equipped then 4 else 3)%nat
    /\ count_sections (fun s => negb (fenced s)) e = 1%nat.
Proof.
  intros H.
  destruct (delivered_by_compose _ _ _ _ _ _ H) as (v & log1 & log2 & Hf & Hc).
  destruct (compose_sections _ _ _ _ _ _ Hc)
    as (p & q & Hp & Hq & Hn & Hm & Hh).
  exists v, p, q. rewrite Hf.
  split; [reflexivity|]. split; [exact Hp|]. split; [exact Hq|].
  split; [exact Hn|]. split; [| split; [exact Hm|]; split; [exact Hh|]].
  - rewrite Hn. destruct (py_eq_one q); simpl.
    + split; [reflexivity | intros _; auto 6].
    + split; [| discriminate].
      intros [A|[A|[A|[A|[]]]]]; discriminate A.
  - unfold count_sections.
    rewrite (filter_map_length fenced (fun b => b)),
            (filter_map_length fenced negb), Hm.
    destruct (py_eq_one q); split; reflexivity.
Qed.

Lemma delivered_message_sections_witness :
  exists profile_data pet_info equipped,
    fst (get_profile_info
           (answering (Response 200 (Ok (VDict [("status", VStr "ok")]))))
           "1722778962" [Send (fetching_text "1722778962") None])
    = Ok profile_data
    /\ py_get profile_data "Pet Information" (VDict []) = Ok pet_info
    /\ py_get pet_info "Equipped?" (VInt 0) = Ok equipped
    /\ section_names (placeholder_embed "1722778962")
       = (["📜 PLAYER PROFILE"; "📈 ACTIVITY STATS"; "🎒 EQUIPMENT"]
          ++ (if py_eq_one equipped then ["🐾 PET COMPANION"] else [])
          ++ ["🏰 GUILD DETAILS"])%list
    /\ (In "🐾 PET COMPANION" (section_names (placeholder_embed "1722778962"))
        <-> py_eq_one equipped = true)
    /\ map fenced (map field_value (embed_fields (placeholder_embed "1722778962")))
       = ([true; true; false]
          ++ (if py_eq_one equipped then [true] else []) ++ [true])%list
    /\ map language_hint
           (map field_value (embed_fields (placeholder_embed "1722778962")))
       = ([Some "diff"; Some "yaml"; None]
          ++ (if py_eq_one equipped then [Some "diff"] else [])
          ++ [Some "fix"])%list
    /\ count_sections fenced (placeholder_embed "1722778962")
       = (if py_eq_one equipped then 4 else 3)%nat
    /\ count_sections (fun s => negb (fenced s)) (placeholder_embed "1722778962")
       = 1%nat.
Proof.
  apply (delivered_message_sections utc_runtime
           (answering (Response 200 (Ok (VDict [("status", VStr "ok")]))))
           example_config 7 "1722778962" (placeholder_embed "1722778962")).
  vm_compute. reflexivity.
Defined.

(** C9, as stated, fails on the count of plain sections: the message
    delivered for the document of the specification's example has three
    fenced sections and one plain section, not two; with a pet equipped
    the fenced sections are four. *)
Lemma delivered_message_has_one_plain_section :
  (exists e,
     delivered (snd (get utc_runtime
                         (answering
                            (Response 200
                               (Ok (VDict [("AccountName", VStr "Foo");
                                           ("AccountLevel", VInt 42)]))))
                         example_config 7 "1722778962" [])) = Some e
     /\ count_sections fenced e = 3%nat
     /\ count_sections (fun s => negb (fenced s)) e = 1%nat)
  /\ (exists e,
        delivered (snd (get utc_runtime
                            (answering
                               (Response 200
                                  (Ok (VDict [("Pet Information",
                                               VDict [("Equipped?", VInt 1)])]))))
                            example_config 7 "1722778962" [])) = Some e
        /\ count_sections fenced e = 4%nat
        /\ count_sections (fun s => negb (fenced s)) e = 1%nat).
Proof.
  split; eexists; (split; [vm_compute; reflexivity | split; vm_compute; reflexivity]).
Qed.

(** ** [format_timestamp] *)

Lemma format_timestamp_parsed (rt : runtime) (v : value) (log : list effect) :
  fst (format_timestamp rt v log)
  = Ok (match parsed rt v with
        | Some dt => strftime rt dt
        | None => "Not Available"
        end).
Proof.
  unfold format_timestamp, parsed, try_except, lift, ret, iobind,
    logger_error, perform.
  destruct (is_number v).
  - destruct (fromtimestamp rt v); reflexivity.
  - destruct (is_str v); [| reflexivity].
    destruct (strptime rt (py_str rt v)); reflexivity.
Qed.

(** Checking a property of the integers of a range one by one. *)
Lemma range_check (p : Z -> bool) (lo hi : Z) :
  forallb (fun i => p (lo + Z.of_nat i)) (seq 0 (Z.to_nat (hi - lo + 1))) = true ->
  forall n, lo <= n <= hi -> p n = true.
Proof.
  intros H n Hn. rewrite forallb_forall in H.
  replace n with (lo + Z.of_nat (Z.to_nat (n - lo))) by lia.
  apply H. apply in_seq. lia.
Qed.

Lemma Z_range_ind (P : Z -> Prop) (lo : Z) (len : nat) :
  (forall i, (i < len)%nat -> P (lo + Z.of_nat i)) ->
  forall n, lo <= n < lo + Z.of_nat len -> P n.
Proof.
  intros H n Hn.
  replace n with (lo + Z.of_nat (Z.to_nat (n - lo))) by lia.
  apply H. lia.
Qed.

Lemma is_digit_digit_char (n : Z) :
  0 <= n <= 9 -> is_digit (digit_char n) = true.
Proof.
  intros H. apply (range_check (fun n => is_digit (digit_char n)) 0 9);
    [reflexivity | lia].
Qed.

Lemma is_digit_cases (c : ascii) :
  is_digit c = true -> exists n, 0 <= n <= 9 /\ c = digit_char n.
Proof.
  unfold is_digit, between. intros H.
  apply andb_true_iff in H. destruct H as [H1 H2].
  apply Z.leb_le in H1. apply Z.leb_le in H2.
  exists (code c - 48). split; [lia|].
  unfold digit_char, code in *.
  replace (48 + (Z.of_nat (nat_of_ascii c) - 48)) with (Z.of_nat (nat_of_ascii c))
    by lia.
  now rewrite Nat2Z.id, ascii_nat_embedding.
Qed.

(** Reasoning digit by digit: the ten digits are tried one by one, the
    rest of the numeral stays symbolic. *)
Ltac literal_index :=
  repeat match goal with
         | |- context [0 + Z.of_nat ?k] =>
             let v := eval vm_compute in (0 + Z.of_nat k) in
             change (0 + Z.of_nat k) with v
         end.

Ltac each_digit x tac :=
  pattern x; apply (Z_range_ind _ 0 10); [| lia];
  let i := fresh "i" in let Hi := fresh "Hi" in
  clear; intros i Hi;
  do 10 (destruct i as [|i]; [solve [cbv beta; literal_index; tac] |]); lia.

Lemma is_int_space_digit_char (n : Z) :
  0 <= n <= 9 -> is_int_space (digit_char n) = false.
Proof.
  intros H. each_digit n ltac:(reflexivity).
Qed.

Lemma digit_value_of_digit_char (n : Z) :
  0 <= n <= 9 -> digit_value (digit_char n) = n.
Proof.
  intros H. each_digit n ltac:(reflexivity).
Qed.

Lemma code_digit_char (n : Z) : 0 <= n <= 9 -> code (digit_char n) = 48 + n.
Proof.
  intros H. each_digit n ltac:(reflexivity).
Qed.

Lemma ascii_digit_char (n : Z) :
  0 <= n <= 9 -> (code (digit_char n) <? 128) = true.
Proof.
  intros H. rewrite code_digit_char by exact H. apply Z.ltb_lt. lia.
Qed.

Lemma is_ascii_cons (c : ascii) (s : string) :
  is_ascii (String c s) = (code c <? 128) && is_ascii s.
Proof. reflexivity. Qed.

(** A text of ASCII digits is ASCII. *)
Lemma is_ascii_pad2 (n : Z) : 0 <= n <= 99 -> is_ascii (pad2 n) = true.
Proof.
  intros H. unfold pad2. rewrite !is_ascii_cons.
  rewrite !ascii_digit_char by (Z.to_euclidean_division_equations; lia).
  reflexivity.
Qed.

Lemma is_ascii_pad4 (n : Z) : 0 <= n <= 9999 -> is_ascii (pad4 n) = true.
Proof.
  intros H. unfold pad4. rewrite !is_ascii_cons.
  rewrite !ascii_digit_char by (Z.to_euclidean_division_equations; lia).
  apply is_ascii_pad2. Z.to_euclidean_division_equations; lia.
Qed.

Lemma scan_digits_digit (acc count : Z) (after : bool) (x : Z) (s : string) :
  0 <= x <= 9 ->
  scan_digits acc count after (String (digit_char x) s)
  = scan_digits (10 * acc + x) (count + 1) false s.
Proof.
  intros H. cbn [scan_digits].
  now rewrite is_digit_digit_char, digit_value_of_digit_char by exact H.
Qed.

(** A text that starts with a digit carries no sign. *)
Lemma long_from_digits (max_digits x : Z) (t : string) :
  0 <= x <= 9 ->
  long_from_string max_digits (String (digit_char x) t)
  = match scan_digits x 1 false t with
    | None => IntInvalid
    | Some (n, digits, rest) =>
        if (640 <? digits) && (0 <? max_digits) && (max_digits <? digits)
        then IntTooLong digits
        else if digits =? 0 then IntInvalid
        else if String.eqb (lstrip rest) "" then IntValue n
        else IntInvalid
    end.
Proof.
  intros H. revert t. each_digit x ltac:(reflexivity).
Qed.

Ltac literal_count :=
  repeat match goal with
         | |- context [640 <? ?c] =>
             let v := eval vm_compute in (640 <? c) in
             change (640 <? c) with v
         | |- context [?c + 1 =? 0] =>
             let v := eval vm_compute in (c + 1 =? 0) in
             change (c + 1 =? 0) with v
         end.

Lemma py_long_pad2 (rt : runtime) (n : Z) :
  0 <= n <= 99 -> py_long rt (pad2 n) = IntValue n.
Proof.
  intros H. unfold py_long, int_text. rewrite is_ascii_pad2 by exact H.
  unfold pad2.
  assert (Ha : 0 <= n / 10 <= 9) by (Z.to_euclidean_division_equations; lia).
  assert (Hb : 0 <= n mod 10 <= 9) by (Z.to_euclidean_division_equations; lia).
  rewrite long_from_digits by exact Ha.
  rewrite !scan_digits_digit by assumption. cbn [scan_digits].
  literal_count. cbn [andb lstrip String.eqb].
  f_equal. Z.to_euclidean_division_equations; lia.
Qed.

Lemma py_long_pad4 (rt : runtime) (n : Z) :
  0 <= n <= 9999 -> py_long rt (pad4 n) = IntValue n.
Proof.
  intros H. unfold py_long, int_text. rewrite is_ascii_pad4 by exact H.
  unfold pad4, pad2.
  assert (Ha : 0 <= n / 1000 <= 9) by (Z.to_euclidean_division_equations; lia).
  assert (Hb : 0 <= n / 100 mod 10 <= 9)
    by (Z.to_euclidean_division_equations; lia).
  assert (Hc : 0 <= n mod 100 / 10 <= 9)
    by (Z.to_euclidean_division_equations; lia).
  assert (Hd : 0 <= n mod 100 mod 10 <= 9)
    by (Z.to_euclidean_division_equations; lia).
  rewrite long_from_digits by exact Ha.
  rewrite !scan_digits_digit by assumption. cbn [scan_digits].
  literal_count. cbn [andb lstrip String.eqb].
  f_equal. Z.to_euclidean_division_equations; lia.
Qed.

Lemma int_pad2 (rt : runtime) (n : Z) :
  0 <= n <= 99 -> py_int_str rt (pad2 n) = Ok n.
Proof. intros H. unfold py_int_str. now rewrite py_long_pad2. Qed.

Lemma int_pad4 (rt : runtime) (n : Z) :
  0 <= n <= 9999 -> py_int_str rt (pad4 n) = Ok n.
Proof. intros H. unfold py_int_str. now rewrite py_long_pad4. Qed.

(** [str] of an [int], digit by digit. *)
Lemma string_of_decimal_digit (x : Z) (l : Decimal.uint) :
  0 <= x <= 9 ->
  NilEmpty.string_of_uint (decimal_digit x l)
  = String (digit_char x) (NilEmpty.string_of_uint l).
Proof.
  intros H. revert l. each_digit x ltac:(reflexivity).
Qed.

Lemma string_of_leading_digit (x : Z) (l : Decimal.uint) :
  0 <= x <= 9 ->
  NilZero.string_of_uint (decimal_digit x l)
  = NilEmpty.string_of_uint (decimal_digit x l).
Proof.
  intros H. revert l. each_digit x ltac:(reflexivity).
Qed.

Lemma value_of_decimal_digit (x : Z) (l : Decimal.uint) (acc : positive) :
  0 <= x <= 9 ->
  Pos.of_uint_acc (decimal_digit x l) acc
  = Pos.of_uint_acc l (Z.to_pos (x + 10 * Z.pos acc)).
Proof.
  intros H. revert l acc.
  each_digit x ltac:(intros l acc; cbn [decimal_digit Pos.of_uint_acc];
                     apply (f_equal (Pos.of_uint_acc l)); lia).
Qed.

Lemma value_of_leading_digit (x : Z) (l : Decimal.uint) :
  1 <= x <= 9 ->
  Pos.of_uint (decimal_digit x l) = Npos (Pos.of_uint_acc l (Z.to_pos x)).
Proof.
  intros H. pose proof H as H'. revert l H'.
  each_digit x ltac:(intros l H'; first [lia | reflexivity]).
Qed.

Lemma unorm_leading_digit (x : Z) (l : Decimal.uint) :
  1 <= x <= 9 -> Decimal.unorm (decimal_digit x l) = decimal_digit x l.
Proof.
  intros H. pose proof H as H'. revert l H'.
  each_digit x ltac:(intros l H'; first [lia | reflexivity]).
Qed.

Lemma to_int_digits (a b c d : Z) :
  1 <= a <= 9 -> 0 <= b <= 9 -> 0 <= c <= 9 -> 0 <= d <= 9 ->
  Z.to_int (1000 * a + 100 * b + 10 * c + d)
  = Decimal.Pos (decimal_digit a (decimal_digit b (decimal_digit c
                  (decimal_digit d Decimal.Nil)))).
Proof.
  intros Ha Hb Hc Hd.
  set (u := decimal_digit a _).
  assert (E : Z.of_int (Decimal.Pos u) = 1000 * a + 100 * b + 10 * c + d).
  { unfold u, Z.of_int, Z.of_uint.
    rewrite value_of_leading_digit by exact Ha.
    rewrite !value_of_decimal_digit by assumption.
    cbn [Pos.of_uint_acc Z.of_N]. lia. }
  rewrite <- E, DecimalZ.to_of.
  unfold u. cbn [Decimal.norm]. now rewrite unorm_leading_digit.
Qed.

Lemma str_int_pad4 (n : Z) : 1000 <= n <= 9999 -> str_int n = pad4 n.
Proof.
  intros H. unfold str_int, pad4, pad2.
  replace n with (1000 * (n / 1000) + 100 * (n / 100 mod 10)
                  + 10 * (n mod 100 / 10) + n mod 100 mod 10) at 1
    by (Z.to_euclidean_division_equations; lia).
  rewrite to_int_digits by (Z.to_euclidean_division_equations; lia).
  cbn [NilZero.string_of_int].
  rewrite string_of_leading_digit by (Z.to_euclidean_division_equations; lia).
  rewrite !string_of_decimal_digit by (Z.to_euclidean_division_equations; lia).
  reflexivity.
Qed.

(** *** The compiled expression on a text of the exact pattern *)

Lemma first_some {A : Type} (o alt : option A) (a : A) :
  o = Some a ->
  match o with Some x => Some x | None => alt end = Some a.
Proof. now intros ->. Qed.

Lemma is_space_digit_char (n : Z) :
  0 <= n <= 9 -> is_space (digit_char n) = false.
Proof.
  intros H. apply negb_true_iff.
  apply (range_check (fun n => negb (is_space (digit_char n))) 0 9);
    [reflexivity | lia].
Qed.

Lemma rmatch_lit {A : Type} (rt : runtime) (c : ascii) (rest : string) (caps : captures)
    (acc : string) (k : string -> captures -> string -> option A) :
  rmatch rt (Lit c) (String c rest) caps acc k = k rest caps (snoc acc c).
Proof. cbn [rmatch one_char]. now rewrite Ascii.eqb_refl. Qed.

Lemma rmatch_cat {A : Type} (rt : runtime) (r1 r2 : regex) (s : string)
    (caps : captures) (acc : string)
    (k : string -> captures -> string -> option A) :
  rmatch rt (Cat r1 r2) s caps acc k
  = rmatch rt r1 s caps acc (fun s' caps' acc' => rmatch rt r2 s' caps' acc' k).
Proof. reflexivity. Qed.

(** A byte below 128 is a character of its own. *)
Lemma char_at_ascii (c : ascii) (rest : string) :
  (code c <? 128) = true -> char_at c rest = (code c, str1 c, rest).
Proof.
  intros H. unfold char_at, between. rewrite H.
  apply Z.ltb_lt in H.
  replace (194 <=? code c) with false by (symmetry; apply Z.leb_gt; lia).
  replace (224 <=? code c) with false by (symmetry; apply Z.leb_gt; lia).
  replace (240 <=? code c) with false by (symmetry; apply Z.leb_gt; lia).
  reflexivity.
Qed.

Lemma chars_ascii (c : ascii) (s : string) :
  (code c <? 128) = true -> chars (String c s) = (code c, str1 c, s) :: chars s.
Proof.
  intros H. unfold chars. cbn [chars_from].
  rewrite (char_at_ascii c s H). reflexivity.
Qed.

Lemma is_unicode_space_ascii (rt : runtime) (c : ascii) :
  (code c <? 128) = true -> is_unicode_space rt (code c) = is_space c.
Proof. intros H. unfold is_unicode_space. now rewrite H. Qed.

Lemma is_decimal_digit_char (rt : runtime) (n : Z) :
  0 <= n <= 9 -> is_decimal rt (code (digit_char n)) = true.
Proof.
  intros H. unfold is_decimal, to_decimal.
  rewrite ascii_digit_char by exact H.
  change (between 48 (code (digit_char n)) 57) with (is_digit (digit_char n)).
  now rewrite is_digit_digit_char.
Qed.

(** [\d] on an ASCII digit. *)
Lemma rmatch_digit {A : Type} (rt : runtime) (n : Z) (rest : string)
    (caps : captures) (acc : string)
    (k : string -> captures -> string -> option A) :
  0 <= n <= 9 ->
  rmatch rt Digit (String (digit_char n) rest) caps acc k
  = k rest caps (snoc acc (digit_char n)).
Proof.
  intros H. cbn [rmatch one_uchar].
  rewrite (char_at_ascii _ rest (ascii_digit_char n H)).
  now rewrite is_decimal_digit_char.
Qed.

(** [\s+] on one blank before an ASCII character that is no space. *)
Lemma rmatch_space {A : Type} (rt : runtime) (c : ascii) (rest : string)
    (caps : captures) (acc : string)
    (k : string -> captures -> string -> option A) :
  (code c <? 128) = true -> is_space c = false ->
  rmatch rt Spaces (String " " (String c rest)) caps acc k
  = k (String c rest) caps (snoc acc " ").
Proof.
  intros Ha Hc. cbn [rmatch].
  rewrite (chars_ascii " " (String c rest) eq_refl), (chars_ascii c rest Ha).
  cbn [spaces_loop]. rewrite (is_unicode_space_ascii rt c Ha), Hc.
  reflexivity.
Qed.

Lemma rmatch_Y {A : Type} (rt : runtime) (y : Z) (rest : string) (caps : captures)
    (acc : string) (k : string -> captures -> string -> option A) :
  0 <= y <= 9999 ->
  rmatch rt re_Y (pad4 y ++ rest) caps acc k
  = k rest (("Y", pad4 y) :: caps) (acc ++ pad4 y).
Proof.
  intros H. unfold re_Y, cats, pad4, pad2.
  cbn [fold_right append].
  change (rmatch rt (Group "Y" ?r) ?s caps acc k)
    with (rmatch rt r s caps EmptyString
            (fun s' caps' acc' => k s' (("Y", acc') :: caps') (acc ++ acc'))).
  do 4 (rewrite rmatch_cat, rmatch_digit
          by (Z.to_euclidean_division_equations; lia)).
  reflexivity.
Qed.

Ltac first_match Hk :=
  vm_compute; first [ exact Hk | apply first_some; exact Hk ].

Lemma rmatch_d {A : Type} (rt : runtime) (d : Z) (rest : string) (caps : captures)
    (acc : string) (k : string -> captures -> string -> option A) (a : A) :
  1 <= d <= 31 ->
  k rest (("d", pad2 d) :: caps) (acc ++ pad2 d) = Some a ->
  rmatch rt re_d (pad2 d ++ rest) caps acc k = Some a.
Proof.
  intros Hd. pattern d. apply (Z_range_ind _ 1 31); [| lia]. clear. intros i Hi Hk.
  do 31 (destruct i as [|i]; [first_match Hk|]). lia.
Qed.

Lemma rmatch_12 {A : Type} (rt : runtime) (name : string) (n : Z) (rest : string)
    (caps : captures) (acc : string)
    (k : string -> captures -> string -> option A) (a : A) :
  1 <= n <= 12 ->
  k rest ((name, pad2 n) :: caps) (acc ++ pad2 n) = Some a ->
  rmatch rt (re_12 name) (pad2 n ++ rest) caps acc k = Some a.
Proof.
  intros Hn. pattern n. apply (Z_range_ind _ 1 12); [| lia]. clear. intros i Hi Hk.
  do 12 (destruct i as [|i]; [first_match Hk|]). lia.
Qed.

Lemma rmatch_M {A : Type} (rt : runtime) (n : Z) (rest : string) (caps : captures)
    (acc : string) (k : string -> captures -> string -> option A) (a : A) :
  0 <= n <= 59 ->
  k rest (("M", pad2 n) :: caps) (acc ++ pad2 n) = Some a ->
  rmatch rt re_M (pad2 n ++ rest) caps acc k = Some a.
Proof.
  intros Hn. pattern n. apply (Z_range_ind _ 0 60); [| lia]. clear. intros i Hi Hk.
  do 60 (destruct i as [|i]; [first_match Hk|]). lia.
Qed.

Lemma rmatch_S {A : Type} (rt : runtime) (n : Z) (rest : string) (caps : captures)
    (acc : string) (k : string -> captures -> string -> option A) (a : A) :
  0 <= n <= 59 ->
  k rest (("S", pad2 n) :: caps) (acc ++ pad2 n) = Some a ->
  rmatch rt re_S (pad2 n ++ rest) caps acc k = Some a.
Proof.
  intros Hn. pattern n. apply (Z_range_ind _ 0 60); [| lia]. clear. intros i Hi Hk.
  do 60 (destruct i as [|i]; [first_match Hk|]). lia.
Qed.

Lemma rmatch_space_pad2 {A : Type} (rt : runtime) (n : Z) (rest : string) (caps : captures)
    (acc : string) (k : string -> captures -> string -> option A) :
  0 <= n <= 99 ->
  rmatch rt Spaces (String " " (pad2 n ++ rest)) caps acc k
  = k (pad2 n ++ rest) caps (snoc acc " ").
Proof.
  intros H. unfold pad2. cbn [append].
  assert (Hd : 0 <= n / 10 <= 9) by (Z.to_euclidean_division_equations; lia).
  apply rmatch_space;
    [now apply ascii_digit_char | now apply is_space_digit_char].
Qed.

Lemma rmatch_p {A : Type} (rt : runtime) (pm : bool) (caps : captures) (acc : string)
    (k : string -> captures -> string -> option A) (a : A) :
  k "" (("p", if pm then "PM" else "AM") :: caps)
    (acc ++ (if pm then "PM" else "AM")) = Some a ->
  rmatch rt re_p (if pm then "PM" else "AM") caps acc k = Some a.
Proof. destruct pm; intros Hk; first_match Hk. Qed.

(** On a text of the exact pattern whose fields are in the ranges of the
    directives, the expression matches the whole text and captures the
    fields. *)
Lemma time_re_exact (rt : runtime) (d m y h mi s : Z) (pm : bool) :
  1 <= d <= 31 -> 1 <= m <= 12 -> 0 <= y <= 9999 ->
  1 <= h <= 12 -> 0 <= mi <= 59 -> 0 <= s <= 59 ->
  rmatch rt time_re (pattern_text d m y h mi s pm) [] EmptyString
         (fun rest caps _ => Some (rest, caps))
  = Some (EmptyString,
          [("p", if pm then "PM" else "AM"); ("S", pad2 s); ("M", pad2 mi);
           ("I", pad2 h); ("Y", pad4 y); ("m", pad2 m); ("d", pad2 d)]).
Proof.
  intros Hd Hm Hy Hh Hmi Hs.
  unfold time_re, cats, pattern_text. cbn [fold_right append].
  rewrite rmatch_cat. apply rmatch_d; [exact Hd|]. cbv beta.
  rewrite rmatch_cat, rmatch_lit.
  rewrite rmatch_cat. apply rmatch_12; [exact Hm|]. cbv beta.
  rewrite rmatch_cat, rmatch_lit.
  rewrite rmatch_cat, rmatch_Y by exact Hy.
  rewrite rmatch_cat, rmatch_space by reflexivity.
  rewrite rmatch_cat, rmatch_lit.
  rewrite rmatch_cat, rmatch_space_pad2 by lia.
  rewrite rmatch_cat. apply rmatch_12; [exact Hh|]. cbv beta.
  rewrite rmatch_cat, rmatch_lit.
  rewrite rmatch_cat. apply rmatch_M; [exact Hmi|]. cbv beta.
  rewrite rmatch_cat, rmatch_lit.
  rewrite rmatch_cat. apply rmatch_S; [exact Hs|]. cbv beta.
  rewrite rmatch_cat.
  assert (Sp : forall caps acc
                 (k : string -> captures -> string -> option (string * captures)),
             rmatch rt Spaces (String " " (if pm then "PM" else "AM")) caps acc k
             = k (if pm then "PM" else "AM") caps (snoc acc " ")).
  { intros. destruct pm; apply rmatch_space; reflexivity. }
  rewrite Sp. rewrite rmatch_cat. apply rmatch_p. reflexivity.
Qed.

Lemma captures_exact (p s mi h y m d : string) :
  let caps := [("p", p); ("S", s); ("M", mi); ("I", h); ("Y", y); ("m", m);
               ("d", d)] in
  capture "d" caps = d /\ capture "m" caps = m /\ capture "Y" caps = y
  /\ capture "I" caps = h /\ capture "M" caps = mi /\ capture "S" caps = s
  /\ capture "p" caps = p.
Proof. repeat split. Qed.

(** [strptime] on a text of the exact pattern: the date of its fields, or
    the error of the date's constructor. *)
Lemma strptime_exact (rt : runtime) (d m y h mi s : Z) (pm : bool) :
  1 <= d <= 31 -> 1 <= m <= 12 -> 0 <= y <= 9999 ->
  1 <= h <= 12 -> 0 <= mi <= 59 -> 0 <= s <= 59 ->
  strptime rt (pattern_text d m y h mi s pm)
  = new_datetime y m d (hour24 h pm) mi s.
Proof.
  intros Hd Hm Hy Hh Hmi Hs. unfold strptime.
  rewrite time_re_exact by assumption.
  cbn [String.eqb negb]. unfold capture_int.
  destruct (captures_exact (if pm then "PM" else "AM") (pad2 s) (pad2 mi)
              (pad2 h) (pad4 y) (pad2 m) (pad2 d))
    as (Cd & Cm & Cy & Ch & Cmi & Cs & Cp).
  cbv zeta in Cd, Cm, Cy, Ch, Cmi, Cs, Cp.
  rewrite Cd, Cm, Cy, Ch, Cmi, Cs, Cp.
  rewrite !int_pad2, int_pad4 by lia. cbn [bind].
  unfold hour24.
  destruct pm; destruct (h =? 12) eqn:E; try reflexivity;
    apply Z.eqb_eq in E; subst h; reflexivity.
Qed.

(** *** Dates and their display *)

Lemma new_datetime_ok (y m d hh mm ss : Z) :
  valid_datetime y m d hh mm ss = true ->
  exists dt,
    new_datetime y m d hh mm ss = Ok dt
    /\ year dt = y /\ month dt = m /\ day dt = d
    /\ hour dt = hh /\ minute dt = mm /\ second dt = ss.
Proof.
  intros Hv. unfold new_datetime.
  assert (G : forall (b : bool) (e : valid_datetime y m d hh mm ss = b),
             b = true ->
             exists dt,
               (if b as b' return (valid_datetime y m d hh mm ss = b' ->
                                   result datetime)
                then fun ok => Ok (Build_datetime y m d hh mm ss ok)
                else fun _ => Raise (datetime_error y m d hh mm ss)) e = Ok dt
               /\ year dt = y /\ month dt = m /\ day dt = d
               /\ hour dt = hh /\ minute dt = mm /\ second dt = ss).
  { intros b e Hb. destruct b; [| discriminate].
    eexists. split; [reflexivity|]. repeat split. }
  exact (G _ eq_refl Hv).
Qed.

Lemma datetime_ranges (dt : datetime) :
  1 <= year dt <= 9999 /\ 1 <= month dt <= 12 /\ 1 <= day dt <= 31
  /\ 0 <= hour dt <= 23 /\ 0 <= minute dt <= 59 /\ 0 <= second dt <= 59.
Proof.
  pose proof (datetime_ok dt) as H. unfold valid_datetime, between in H.
  repeat (apply andb_true_iff in H; destruct H as [H ?]).
  assert (days_in_month (year dt) (month dt) <= 31).
  { unfold days_in_month.
    destruct (month dt =? 2); [destruct (is_leap _); lia|].
    destruct (_ || _); lia. }
  lia.
Qed.

Lemma template_two (n : Z) (tpl rest : string) :
  0 <= n <= 99 ->
  matches_template (String "#" (String "#" tpl)) (pad2 n ++ rest)
  = matches_template tpl rest.
Proof.
  intros H. unfold pad2. cbn [append matches_template].
  change (Ascii.eqb "#" "#") with true. cbv iota.
  rewrite !is_digit_digit_char by (Z.to_euclidean_division_equations; lia).
  reflexivity.
Qed.

Lemma template_four (n : Z) (tpl rest : string) :
  0 <= n <= 9999 ->
  matches_template (String "#" (String "#" (String "#" (String "#" tpl))))
                   (pad4 n ++ rest)
  = matches_template tpl rest.
Proof.
  intros H. unfold pad4. cbn [append matches_template].
  change (Ascii.eqb "#" "#") with true. cbv iota.
  rewrite !is_digit_digit_char by (Z.to_euclidean_division_equations; lia).
  cbn [andb].
  apply (template_two (n mod 100) tpl rest).
  Z.to_euclidean_division_equations; lia.
Qed.

Lemma template_char (c : ascii) (tpl rest : string) :
  Ascii.eqb c "#" = false ->
  matches_template (String c tpl) (String c rest) = matches_template tpl rest.
Proof.
  intros H. cbn [matches_template]. now rewrite H, Ascii.eqb_refl.
Qed.

Lemma append_empty_r (s : string) : s ++ "" = s.
Proof. induction s as [|c s IH]; [reflexivity | simpl; now rewrite IH]. Qed.

(** The part of the display after the month name. *)
Lemma display_tail (y hh mm ss : Z) :
  1000 <= y <= 9999 -> 0 <= hh <= 23 -> 0 <= mm <= 59 -> 0 <= ss <= 59 ->
  matches_template " #### ##:##:##"
    (" " ++ pad4 y ++ " " ++ pad2 hh ++ ":" ++ pad2 mm ++ ":" ++ pad2 ss)
  = true.
Proof.
  intros Hy Hh Hm Hs. cbn [append].
  rewrite template_char by reflexivity. rewrite template_four by lia.
  rewrite template_char by reflexivity. rewrite template_two by lia.
  rewrite template_char by reflexivity. rewrite template_two by lia.
  rewrite template_char by reflexivity.
  rewrite <- (append_empty_r (pad2 ss)).
  rewrite template_two by lia. reflexivity.
Qed.

Lemma substring_0_0 (s : string) : substring 0 0 s = "".
Proof. destruct s; reflexivity. Qed.

Lemma strftime_shape (rt : runtime) (dt : datetime) :
  1000 <= year dt -> display_shape (strftime rt dt) = true.
Proof.
  intros Hy.
  destruct (datetime_ranges dt) as (Ry & Rm & Rd & Rh & Rmi & Rs).
  unfold strftime, year_text.
  replace (year dt <? 1000) with false by (symmetry; apply Z.ltb_ge; lia).
  rewrite str_int_pad4 by lia.
  unfold display_shape. apply andb_true_intro. split.
  - unfold pad2 at 1. cbn [append substring matches_template].
    change (Ascii.eqb "#" "#") with true. cbv iota.
    rewrite !is_digit_digit_char by (Z.to_euclidean_division_equations; lia).
    rewrite substring_0_0. reflexivity.
  - apply existsb_exists.
    exists (nth (Z.to_nat (month dt - 1)) month_names "").
    split.
    + apply nth_In. change (List.length month_names) with 12%nat. lia.
    + revert Rm. generalize (month dt). intros m Rm. pattern m.
      apply (Z_range_ind _ 1 12); [| lia]. clear m Rm. intros i Hi.
      unfold pad2 at 1 2.
      do 12 (destruct i as [|i];
             [apply andb_true_intro; split;
              [reflexivity
              | exact (display_tail (year dt) (hour dt) (minute dt)
                         (second dt) (conj Hy (proj2 Ry)) Rh Rmi Rs)]
             |]).
      lia.
Qed.

Lemma exact_pattern_text (d m y h mi s : Z) (pm : bool) :
  0 <= d <= 99 -> 0 <= m <= 99 -> 0 <= y <= 9999 ->
  0 <= h <= 99 -> 0 <= mi <= 99 -> 0 <= s <= 99 ->
  exact_pattern (pattern_text d m y h mi s pm) = true.
Proof.
  intros Hd Hm Hy Hh Hmi Hs. unfold exact_pattern, pattern_text.
  cbn [append].
  assert (T : forall ampm,
             matches_template ("##/##/#### : ##:##:## " ++ ampm)
               (pad2 d ++ String "/" (pad2 m ++ String "/" (pad4 y ++
                String " " (String ":" (String " " (pad2 h ++ String ":"
                (pad2 mi ++ String ":" (pad2 s ++ String " " ampm))))))))
             = matches_template ampm ampm).
  { intros ampm. cbn [append].
    rewrite template_two by lia. rewrite template_char by reflexivity.
    rewrite template_two by lia. rewrite template_char by reflexivity.
    rewrite template_four by lia.
    rewrite !template_char by reflexivity.
    rewrite template_two by lia. rewrite template_char by reflexivity.
    rewrite template_two by lia. rewrite template_char by reflexivity.
    rewrite template_two by lia. rewrite template_char by reflexivity.
    reflexivity. }
  destruct pm.
  - apply orb_true_iff. right. exact (T "PM").
  - apply orb_true_iff. left. exact (T "AM").
Qed.

Lemma valid_datetime_ranges (y m d hh mm ss : Z) :
  valid_datetime y m d hh mm ss = true ->
  1 <= y <= 9999 /\ 1 <= m <= 12 /\ 1 <= d <= 31
  /\ 0 <= hh <= 23 /\ 0 <= mm <= 59 /\ 0 <= ss <= 59.
Proof.
  intros H. destruct (new_datetime_ok _ _ _ _ _ _ H)
    as (dt & _ & <- & <- & <- & <- & <- & <-).
  apply datetime_ranges.
Qed.




(** ** The theorems at concrete inputs *)

Lemma get_rejects_other_channels_witness :
  get utc_runtime (answering (Response 200 (Ok (VDict [("status", VStr "ok")]))))
      example_config 8 "1722778962" []
  = (Ok tt, ([] ++ [Send rejection_text None])%list)
  /\ fetch_count (snd (get utc_runtime
                           (answering
                              (Response 200 (Ok (VDict [("status", VStr "ok")]))))
                           example_config 8 "1722778962" []))
     = fetch_count []
  /\ sent (snd (get utc_runtime
                    (answering
                       (Response 200 (Ok (VDict [("status", VStr "ok")]))))
                    example_config 8 "1722778962" []))
     = [rejection_text]
  /\ (forall more,
        invoke utc_runtime
               (answering (Response 200 (Ok (VDict [("status", VStr "ok")]))))
               example_config 8 ("1722778962" :: more) []
        = (Ok tt, ([] ++ [Send rejection_text None])%list)).
Proof.
  apply (get_rejects_other_channels utc_runtime
           (answering (Response 200 (Ok (VDict [("status", VStr "ok")]))))
           example_config 8 "1722778962" []).
  simpl. intros [H|[]]. discriminate H.
Defined.

(** C7, as stated, fails for an invocation without the argument.  The
    framework then raises [MissingRequiredArgument] before the command and
    its channel test run, and the error handler, which tests no channel,
    answers with the usage guidance: from channel 8, which is not allowed,
    the one message sent is that guidance and not the rejection text. *)
Lemma missing_argument_is_answered_in_every_channel :
  ~ In 8 (ALLOWED_CHANNEL_IDS example_config)
  /\ invoke utc_runtime
            (answering (Response 200 (Ok (VDict [("status", VStr "ok")]))))
            example_config 8 [] []
     = (Ok tt, [Send usage_text (Some 15)])
  /\ sent (snd (invoke utc_runtime
                       (answering
                          (Response 200 (Ok (VDict [("status", VStr "ok")]))))
                       example_config 8 [] []))
     <> [rejection_text].
Proof.
  split; [| split].
  - simpl. intros [H|[]]. discriminate H.
  - reflexivity.
  - vm_compute. discriminate.
Qed.

Lemma get_reports_failed_fetch_witness :
  (forall log,
     fst (get_profile_info (answering (Response 404 (Ok VNone)))
                           "1722778962" log) = Ok VNone)
  /\ (exists e,
        get utc_runtime (answering (Response 404 (Ok VNone))) example_config 7
            "1722778962" []
        = (Ok tt,
           [Send (fetching_text "1722778962") None;
            HttpGet ("https://ff-community-api.vercel.app/ff.Info?uid="
                     ++ "1722778962");
            LogError "Error fetching profile info: " e;
            Edit 0 failure_text None]))
  /\ visible (snd (get utc_runtime (answering (Response 404 (Ok VNone)))
                       example_config 7 "1722778962" [])) 0
     = Some (failure_text, None).
Proof.
  apply (get_reports_failed_fetch utc_runtime
           (answering (Response 404 (Ok VNone))) example_config 7 "1722778962").
  - simpl. left. reflexivity.
  - simpl. left. lia.
Defined.

(** C6, as stated, fails for a status that is no success and below 400:
    [raise_for_status] lets it pass, and when its body is JSON the fetcher
    returns the document and the command delivers the message instead of
    the failure text. *)
Lemma get_delivers_at_status_300 :
  exists e,
    ~ fetch_fails (Response 300 (Ok (VDict [("AccountName", VStr "Foo")])))
    /\ fst (get_profile_info
              (answering
                 (Response 300 (Ok (VDict [("AccountName", VStr "Foo")]))))
              "1722778962" [])
       = Ok (VDict [("AccountName", VStr "Foo")])
    /\ get utc_runtime
           (answering (Response 300 (Ok (VDict [("AccountName", VStr "Foo")]))))
           example_config 7 "1722778962" []
       = (Ok tt,
          [Send (fetching_text "1722778962") None;
           HttpGet (profile_url "1722778962");
           Edit 0 "" (Some e)])
    /\ visible (snd (get utc_runtime
                         (answering
                            (Response 300
                               (Ok (VDict [("AccountName", VStr "Foo")]))))
                         example_config 7 "1722778962" [])) 0
       = Some ("", Some e)
    /\ embed_title e = "🎮 Foo's PROFILE".
Proof.
  eexists. split; [| split; [| split; [| split]]].
  - intros [H|[e H]]; [lia | discriminate H].
  - reflexivity.
  - vm_compute. reflexivity.
  - vm_compute. reflexivity.
  - reflexivity.
Qed.

Lemma format_items_spec_witness :
  exists lines,
    format_items utc_runtime
      (VList [VDict [("Items ID", VInt 203000543); ("Items Icon", VStr "a.png")];
              VDict [("Items Icon", VStr "b.png"); ("Items ID", VInt 7)]])
      "outfit"
    = Ok (join nl lines)
    /\ Forall2 (fun item line =>
                  exists id icon,
                    item_record item id icon
                    /\ line = item_line utc_runtime id icon)
         [VDict [("Items ID", VInt 203000543); ("Items Icon", VStr "a.png")];
          VDict [("Items Icon", VStr "b.png"); ("Items ID", VInt 7)]]
         lines.
Proof.
  apply (proj2 (proj2 (format_items_spec utc_runtime "outfit"))).
  - discriminate.
  - repeat constructor.
    + exists (VInt 203000543), (VStr "a.png"). eexists. repeat split.
    + exists (VInt 7), (VStr "b.png"). eexists. repeat split.
Defined.

Lemma startup_channel_checked_too_late_witness :
  exists msg,
    startup utc_runtime
            (fun name => if String.eqb name "DISCORD_TOKEN"
                         then Some "token" else None)
    = Raise (TypeError msg).
Proof.
  apply (proj1 (startup_channel_checked_too_late utc_runtime)). reflexivity.
Defined.

(** * Further properties *)

(** ** [escape_markdown], further *)

Lemma escape_head_not_significant (rt : runtime) (s : string) (c : ascii)
    (t : string) :
  escape_markdown rt (VStr s) = String c t -> in_markdown_chars c = false.
Proof.
  destruct s as [|c0 s]; [discriminate|].
  rewrite escape_markdown_cons.
  destruct (in_markdown_chars c0) eqn:Hc; simpl; intros H; inversion H; subst.
  - reflexivity.
  - exact Hc.
Qed.

Lemma unescape_step (c c' : ascii) (t : string) :
  unescape (String c (String c' t))
  = if Ascii.eqb c "\" && in_markdown_chars c'
    then String c' (unescape t)
    else String c (unescape (String c' t)).
Proof. reflexivity. Qed.

Lemma unescape_escape (rt : runtime) (s : string) :
  unescape (escape_markdown rt (VStr s)) = s.
Proof.
  induction s as [|c s IH]; [reflexivity|].
  rewrite escape_markdown_cons.
  destruct (in_markdown_chars c) eqn:Hc.
  - cbn [append]. rewrite unescape_step, Ascii.eqb_refl, Hc. cbn [andb].
    now rewrite IH.
  - cbn [append].
    destruct (escape_markdown rt (VStr s)) as [|c' t] eqn:E.
    + cbn [unescape] in *. now rewrite <- IH.
    + rewrite unescape_step, (escape_head_not_significant rt s c' t E).
      rewrite andb_false_r. now rewrite IH.
Qed.

(** X1. [escape_markdown] loses nothing: dropping the backslashes that
    stand before characters of the set gives the text back, so two
    different texts never get the same escaped form. *)
Theorem escape_markdown_injective (rt : runtime) :
  (forall s, unescape (escape_markdown rt (VStr s)) = s)
  /\ (forall s s',
        escape_markdown rt (VStr s) = escape_markdown rt (VStr s') -> s = s').
Proof.
  split; [apply unescape_escape|].
  intros s s' H. rewrite <- (unescape_escape rt s), <- (unescape_escape rt s').
  now rewrite H.
Qed.

Lemma all_escaped_escape (rt : runtime) (s : string) (b : bool) :
  all_escaped b (escape_markdown rt (VStr s)) = true.
Proof.
  revert b. induction s as [|c s IH]; intros b; [reflexivity|].
  rewrite escape_markdown_cons.
  destruct (in_markdown_chars c) eqn:Hc; cbn [append all_escaped].
  - rewrite backslash_not_escaped, Ascii.eqb_refl. cbn [negb orb andb].
    rewrite orb_true_r. apply IH.
  - rewrite Hc. cbn [negb orb andb]. apply IH.
Qed.

(** X2. In what [escape_markdown] returns, every character of the set
    directly follows a backslash, whatever the text was and whatever
    stands before the result. *)
Theorem escape_markdown_guards_every_character (rt : runtime) (text : value)
    (after_backslash : bool) :
  all_escaped after_backslash (escape_markdown rt text) = true.
Proof.
  change (escape_markdown rt text)
    with (escape_markdown rt (VStr (py_str rt text))).
  apply all_escaped_escape.
Qed.

Lemma escape_markdown_app (rt : runtime) (s t : string) :
  escape_markdown rt (VStr (s ++ t))
  = escape_markdown rt (VStr s) ++ escape_markdown rt (VStr t).
Proof.
  induction s as [|c s IH]; [reflexivity|].
  cbn [append]. rewrite !escape_markdown_cons, IH.
  destruct (in_markdown_chars c); reflexivity.
Qed.

Lemma escape_markdown_length (rt : runtime) (s : string) :
  String.length (escape_markdown rt (VStr s))
  = (String.length s + count_markdown_chars s)%nat.
Proof.
  induction s as [|c s IH]; [reflexivity|].
  rewrite escape_markdown_cons.
  destruct (in_markdown_chars c) eqn:Hc; cbn [append String.length
    count_markdown_chars]; rewrite ?Hc, IH; lia.
Qed.

(** X3. [escape_markdown] works character by character: the escape of a
    concatenation is the concatenation of the escapes, and the result is
    longer than the text by the number of characters of the set in it. *)
Theorem escape_markdown_compositional (rt : runtime) (s t : string) :
  escape_markdown rt (VStr (s ++ t))
  = escape_markdown rt (VStr s) ++ escape_markdown rt (VStr t)
  /\ String.length (escape_markdown rt (VStr s))
     = (String.length s + count_markdown_chars s)%nat.
Proof. split; [apply escape_markdown_app | apply escape_markdown_length]. Qed.

(** X4. [escape_markdown] returns a text unchanged exactly when the text
    has no character of the set; in particular it is not idempotent on a
    text that has one. *)
Theorem escape_markdown_fixes_plain_text (rt : runtime) (s : string) :
  (escape_markdown rt (VStr s) = s <-> count_markdown_chars s = 0%nat)
  /\ (count_markdown_chars s <> 0%nat ->
      escape_markdown rt (VStr (escape_markdown rt (VStr s)))
      <> escape_markdown rt (VStr s)).
Proof.
  assert (F : forall u, escape_markdown rt (VStr u) = u <->
                        count_markdown_chars u = 0%nat).
  { intros u. split.
    - intros H. pose proof (escape_markdown_length rt u) as L.
      rewrite H in L. lia.
    - induction u as [|c u IH]; [reflexivity|].
      cbn [count_markdown_chars]. rewrite escape_markdown_cons.
      destruct (in_markdown_chars c); [intros H; lia|].
      intros H. cbn [append]. f_equal. apply IH. lia. }
  split; [apply F|].
  intros H E. apply F in E.
  assert (C : forall u, (count_markdown_chars u
                         <= count_markdown_chars (escape_markdown rt (VStr u)))%nat).
  { induction u as [|c u IH]; [apply Nat.le_refl|].
    rewrite escape_markdown_cons.
    destruct (in_markdown_chars c) eqn:Hc;
      cbn [append count_markdown_chars]; rewrite ?Hc, ?backslash_not_escaped;
      lia. }
  specialize (C s). lia.
Qed.

(** ** [format_items], further *)

Lemma mapM_length {A B : Type} (f : A -> result B) (xs : list A)
    (ys : list B) :
  mapM f xs = Ok ys -> List.length ys = List.length xs.
Proof.
  revert ys. induction xs as [|x xs IH]; intros ys H.
  - inversion H. reflexivity.
  - rewrite mapM_cons in H. apply bind_inv in H. destruct H as (y & _ & H).
    apply bind_inv in H. destruct H as (ys' & Hys & H).
    inversion H. subst. simpl. now rewrite (IH ys' Hys).
Qed.

Lemma truthy_iter_nonempty (items : value) (xs : list value) :
  py_truthy items = true -> py_iter items = Ok xs -> xs <> [].
Proof.
  destruct items as [| b | n | x | s | ys | kvs]; simpl; intros Ht Hi;
    try discriminate; inversion Hi; subst; clear Hi.
  - destruct s; [discriminate | simpl; discriminate].
  - intros E. rewrite E in Ht. discriminate.
  - destruct kvs; [discriminate | simpl; discriminate].
Qed.

(** X5. Whatever [format_items] returns is a non-empty text, so the
    [or 'N/A'] that the command puts after each call never takes
    effect. *)
Theorem format_items_never_empty (rt : runtime) (items : value)
    (category s : string) :
  format_items rt items category = Ok s -> s <> "" /\ or_na s = s.
Proof.
  intros H.
  assert (N : s <> "").
  { unfold format_items in H.
    destruct (py_truthy items) eqn:Ht; cbn [negb] in H.
    - apply bind_inv in H. destruct H as (xs & Hi & H).
      apply bind_inv in H. destruct H as (lines & Hm & H).
      inversion H; subst s; clear H.
      pose proof (truthy_iter_nonempty items xs Ht Hi) as Hne.
      destruct xs as [|x xs]; [contradiction|].
      rewrite mapM_cons in Hm. apply bind_inv in Hm.
      destruct Hm as (line & Hl & Hm).
      apply bind_inv in Hm. destruct Hm as (rest & _ & Hm).
      inversion Hm; subst lines; clear Hm.
      apply bind_inv in Hl. destruct Hl as (id & _ & Hl).
      apply bind_inv in Hl. destruct Hl as (icon & _ & Hl).
      inversion Hl; subst line; clear Hl.
      destruct rest; discriminate.
    - inversion H. discriminate. }
  split; [exact N|].
  unfold or_na. cbn [py_truthy]. destruct (String.eqb s "") eqn:E.
  - apply String.eqb_eq in E. contradiction.
  - reflexivity.
Qed.

Lemma format_items_never_empty_witness :
  "[7](b.png)" <> "" /\ or_na "[7](b.png)" = "[7](b.png)".
Proof.
  apply (format_items_never_empty utc_runtime
           (VList [VDict [("Items Icon", VStr "b.png"); ("Items ID", VInt 7)]])
           "weapon" "[7](b.png)").
  reflexivity.
Defined.

(** X6. An item value that is truthy and not a list (a number, a text, a
    dict, as a malformed document may hold one) makes [format_items]
    raise a [TypeError]. *)
Theorem format_items_rejects_other_types (rt : runtime) (items : value)
    (category : string) :
  py_truthy items = true -> is_list items = false ->
  exists msg, format_items rt items category = Raise (TypeError msg).
Proof.
  intros Ht Hl. unfold format_items. rewrite Ht. cbn [negb].
  destruct items as [| b | n | x | s | ys | kvs]; try discriminate;
    try (eexists; reflexivity).
  - destruct s as [|c s]; [discriminate|]. eexists. reflexivity.
  - destruct kvs as [|[k v] kvs]; [discriminate|]. eexists. reflexivity.
Qed.

Lemma format_items_rejects_other_types_witness :
  exists msg,
    format_items utc_runtime (VDict [("Items ID", VInt 7)]) "outfit"
    = Raise (TypeError msg).
Proof.
  apply (format_items_rejects_other_types utc_runtime
           (VDict [("Items ID", VInt 7)]) "outfit"); reflexivity.
Defined.

Lemma mapM_first_failure {A B : Type} (f : A -> result B) (good : list A)
    (bad : A) (rest : list A) (e : exn) :
  Forall (fun x => exists y, f x = Ok y) good ->
  f bad = Raise e ->
  mapM f (good ++ bad :: rest) = Raise e.
Proof.
  intros Hg Hb. induction Hg as [|x good (y & Hy) _ IH].
  - cbn [app]. rewrite mapM_cons, Hb. reflexivity.
  - cbn [app]. rewrite mapM_cons, Hy, IH. reflexivity.
Qed.

(** X7. One malformed entry anywhere in an item list loses the whole
    list: when the entries before it are well-formed records, the call
    raises the error of the first entry whose id or icon cannot be read,
    and no line is returned. *)
Theorem format_items_first_bad_record (rt : runtime) (good : list value)
    (bad : value) (rest : list value) (category : string) (e : exn) :
  Forall (fun item => exists id icon, item_record item id icon) good ->
  (py_getitem bad "Items ID" = Raise e
   \/ exists id, py_getitem bad "Items ID" = Ok id
                 /\ py_getitem bad "Items Icon" = Raise e) ->
  format_items rt (VList (good ++ bad :: rest)) category = Raise e.
Proof.
  intros Hg Hb. unfold format_items.
  assert (T : py_truthy (VList (good ++ bad :: rest)) = true)
    by (destruct good; reflexivity).
  rewrite T. cbn [negb py_iter bind].
  rewrite (mapM_first_failure _ good bad rest e); [reflexivity | |].
  - eapply Forall_impl; [| exact Hg].
    intros item (id & icon & Hrec).
    destruct (item_record_getitem _ _ _ Hrec) as [Hid Hicon].
    rewrite Hid. cbn [bind]. rewrite Hicon. cbn [bind]. eexists. reflexivity.
  - destruct Hb as [Hb | (id & Hid & Hb)].
    + now rewrite Hb.
    + rewrite Hid. cbn [bind]. now rewrite Hb.
Qed.

Lemma format_items_first_bad_record_witness :
  format_items utc_runtime
    (VList ([VDict [("Items ID", VInt 1); ("Items Icon", VStr "a.png")]]
            ++ VNone :: [VDict [("Items ID", VInt 2)]]))
    "outfit"
  = Raise (TypeError "'NoneType' object is not subscriptable").
Proof.
  apply (format_items_first_bad_record utc_runtime
           [VDict [("Items ID", VInt 1); ("Items Icon", VStr "a.png")]]
           VNone [VDict [("Items ID", VInt 2)]] "outfit").
  - repeat constructor.
    exists (VInt 1), (VStr "a.png"). eexists. repeat split.
  - left. reflexivity.
Defined.

(** ** The fetcher and the command, further *)

Lemma emits_ret {A : Type} (P : effect -> Prop) (a : A) : emits P (ret a).
Proof. intros log. exists []. now rewrite app_nil_r. Qed.

Lemma emits_lift {A : Type} (P : effect -> Prop) (r : result A) :
  emits P (lift r).
Proof. intros log. exists []. now rewrite app_nil_r. Qed.

Lemma emits_perform (P : effect -> Prop) (e : effect) :
  P e -> emits P (perform e).
Proof. intros H log. exists [e]. split; [reflexivity | now constructor]. Qed.

Lemma emits_iobind {A B : Type} (P : effect -> Prop) (c : io A)
    (k : A -> io B) :
  emits P c -> (forall a, emits P (k a)) -> emits P (iobind c k).
Proof.
  intros Hc Hk log. unfold iobind.
  destruct (Hc log) as (e1 & E1 & P1).
  destruct (c log) as [[a|ex] log1]; cbn [snd] in E1; subst log1.
  - destruct (Hk a (log ++ e1)%list) as (e2 & E2 & P2).
    exists (e1 ++ e2)%list. rewrite E2, app_assoc.
    split; [reflexivity | now apply Forall_app].
  - now exists e1.
Qed.

Lemma emits_try_except {A : Type} (P : effect -> Prop) (body : io A)
    (handler : exn -> io A) :
  emits P body -> (forall e, emits P (handler e)) ->
  emits P (try_except body handler).
Proof.
  intros Hb Hh log. unfold try_except.
  destruct (Hb log) as (e1 & E1 & P1).
  destruct (body log) as [[a|ex] log1]; cbn [snd] in E1; subst log1.
  - now exists e1.
  - destruct (Hh ex (log ++ e1)%list) as (e2 & E2 & P2).
    exists (e1 ++ e2)%list. rewrite E2, app_assoc.
    split; [reflexivity | now apply Forall_app].
Qed.

Ltac emits_steps :=
  repeat first
    [ apply emits_ret | apply emits_lift
    | apply emits_perform; exact I
    | apply emits_iobind; [| intros ?]
    | apply emits_try_except; [| intros ?]
    | match goal with
      | |- emits _ (if ?b then _ else _) => destruct b
      end ].

Lemma emits_format_timestamp (rt : runtime) (v : value) :
  emits is_log (format_timestamp rt v).
Proof. unfold format_timestamp, logger_error. emits_steps. Qed.

Lemma emits_compose (rt : runtime) (v : value) (uid : string) :
  emits is_log (compose rt v uid).
Proof. unfold compose, activity_info. emits_steps. Qed.

(** What the fetcher does, in full. *)
Lemma get_profile_info_fetched (net : network) (uid : string)
    (log : list effect) :
  exists errors,
    get_profile_info net uid log
    = (Ok (fetched net uid), (log ++ HttpGet (profile_url uid) :: errors)%list)
    /\ Forall is_log errors
    /\ (List.length errors <= 1)%nat.
Proof.
  unfold get_profile_info, fetched, session_get, raise_for_status,
    logger_error, try_except, iobind, perform, lift, ret.
  fold (profile_url uid).
  destruct (net (profile_url uid)) as [msg|status json]; cbn [fst snd].
  - eexists [_]. rewrite <- app_assoc.
    split; [reflexivity | split; [repeat constructor | simpl; lia]].
  - destruct (400 <=? status).
    + destruct json; eexists [_]; rewrite <- app_assoc;
        (split; [reflexivity | split; [repeat constructor | simpl; lia]]).
    + destruct json as [doc|e].
      * exists []. split; [reflexivity | split; [constructor | simpl; lia]].
      * eexists [_]. rewrite <- app_assoc.
        split; [reflexivity | split; [repeat constructor | simpl; lia]].
Qed.

Lemma fetch_count_logs (effects : list effect) :
  Forall is_log effects -> fetch_count effects = 0%nat.
Proof.
  induction 1 as [|e l He _ IH]; [reflexivity|].
  destruct e; try contradiction. exact IH.
Qed.

(** X8. The fetcher never raises and goes to the network exactly once per
    call, for the address made of the fixed prefix and the identifier as
    it is; it hands back the document of a response with a status below
    400 and a JSON body, and [None] in every other case, after logging at
    most one error. *)
Theorem get_profile_info_one_request (net : network) (uid : string)
    (log : list effect) :
  exists errors,
    get_profile_info net uid log
    = (Ok (fetched net uid), (log ++ HttpGet (profile_url uid) :: errors)%list)
    /\ Forall is_log errors
    /\ (List.length errors <= 1)%nat
    /\ fetch_count (snd (get_profile_info net uid log))
       = S (fetch_count log).
Proof.
  destruct (get_profile_info_fetched net uid log) as (errors & E & L & N).
  exists errors. repeat split; try assumption.
  rewrite E. cbn [snd]. rewrite fetch_count_app. cbn [fetch_count].
  rewrite (fetch_count_logs errors L). lia.
Qed.

Lemma iobind_step {A B : Type} (c : io A) (k : A -> io B) (a : A)
    (log log1 : list effect) :
  c log = (Ok a, log1) -> iobind c k log = k a log1.
Proof. unfold iobind. now intros ->. Qed.

Lemma iobind_raise {A B : Type} (c : io A) (k : A -> io B) (e : exn)
    (log log1 : list effect) :
  c log = (Raise e, log1) -> iobind c k log = (Raise e, log1).
Proof. unfold iobind. now intros ->. Qed.

Lemma lift_ok {A : Type} (r : result A) (a : A) (log : list effect) :
  r = Ok a -> lift r log = (Ok a, log).
Proof. now intros ->. Qed.

Lemma py_get_ok_dict (v : value) (key : string) (default x : value) :
  py_get v key default = Ok x -> is_dict v = true.
Proof. destruct v; simpl; intros H; try discriminate; reflexivity. Qed.

Lemma is_dict_inv (v : value) : is_dict v = true -> exists kvs, v = VDict kvs.
Proof. destruct v; try discriminate. intros _. now eexists. Qed.

Lemma format_timestamp_returns (rt : runtime) (v : value) (log : list effect) :
  exists s log', format_timestamp rt v log = (Ok s, log').
Proof.
  pose proof (format_timestamp_parsed rt v log) as H.
  destruct (format_timestamp rt v log) as [r log'].
  cbn [fst] in H. subst r. eauto.
Qed.

(** The thumbnail and the banner that lines 134 to 139 set. *)
Lemma visual_elements_dict (rt : runtime) (kvs : list (string * value))
    (e : embed) :
  exists e',
    visual_elements rt (VDict kvs) e = Ok e'
    /\ embed_thumbnail e'
       = match icon_of rt (VDict kvs) "AccountAvatarId" with
         | Some u => Some u
         | None => embed_thumbnail e
         end
    /\ embed_image e'
       = match icon_of rt (VDict kvs) "AccountBannerId" with
         | Some u => Some u
         | None => embed_image e
         end
    /\ embed_title e' = embed_title e /\ embed_color e' = embed_color e
    /\ embed_url e' = embed_url e /\ embed_footer e' = embed_footer e.
Proof.
  unfold visual_elements, icon_of. cbn [py_get py_getitem bind].
  destruct (dict_lookup "AccountAvatarId" kvs) as [a|];
    destruct (dict_lookup "AccountBannerId" kvs) as [b|];
    cbn [py_truthy bind];
    try destruct (py_truthy a); try destruct (py_truthy b); cbn [bind];
    eexists; (split; [reflexivity | repeat split]).
Qed.

Lemma basic_info_dict (rt : runtime) (kvs : list (string * value))
    (uid : string) :
  exists s, basic_info rt (VDict kvs) uid = Ok s.
Proof. eexists. reflexivity. Qed.

Lemma pet_value_dict (rt : runtime) (kvs : list (string * value)) :
  exists s, pet_value rt (VDict kvs) = Ok s.
Proof. eexists. reflexivity. Qed.

Lemma guild_value_dict (rt : runtime) (kvs : list (string * value)) :
  exists s, guild_value rt (VDict kvs) = Ok s.
Proof. eexists. reflexivity. Qed.

Lemma activity_info_dict (rt : runtime) (kvs : list (string * value))
    (log : list effect) :
  exists s log', activity_info rt (VDict kvs) log = (Ok s, log').
Proof.
  unfold activity_info.
  repeat (erewrite iobind_step by (apply lift_ok; reflexivity)).
  match goal with
  | |- context [iobind (format_timestamp rt ?v) _ log] =>
      destruct (format_timestamp_returns rt v log) as (s1 & log1 & H1)
  end.
  erewrite iobind_step by exact H1.
  erewrite iobind_step by (apply lift_ok; reflexivity).
  match goal with
  | |- context [iobind (format_timestamp rt ?v) _ log1] =>
      destruct (format_timestamp_returns rt v log1) as (s2 & log2 & H2)
  end.
  erewrite iobind_step by exact H2.
  eexists. eexists. reflexivity.
Qed.

Lemma equipment_value_ok (rt : runtime) (kvs : list (string * value))
    (outfit weapon : value) (so sw : string) :
  format_items rt outfit "outfit" = Ok so ->
  format_items rt weapon "weapon" = Ok sw ->
  exists s, equipment_value rt (VDict kvs) outfit weapon = Ok s.
Proof.
  intros Ho Hw. unfold equipment_value. rewrite Ho, Hw. eexists. reflexivity.
Qed.

(** [compose] returns exactly on the composable documents. *)
Lemma compose_returns_iff (rt : runtime) (v : value) (uid : string)
    (log : list effect) :
  (exists e log', compose rt v uid log = (Ok e, log')) <-> composable rt v.
Proof.
  split.
  - intros (e & log' & H). unfold compose in H. invert_run.
    repeat match goal with
      | H : py_get ?x "LeaderInfo" _ = Ok _ |- _ =>
          apply py_get_ok_dict in H
      | H : py_get ?x "Equipped?" _ = Ok _ |- _ =>
          apply py_get_ok_dict in H
      | H : equipment_value _ _ _ _ = Ok _ |- _ =>
          unfold equipment_value in H; invert_run
      end.
    unfold composable. do 7 eexists. repeat split; eassumption.
  - intros (guild & pet & equipped & outfit & weapon & so & sw
            & Hg & Dg & Hp & Dp & He & Ho & Hw & Fo & Fw).
    destruct (is_dict_inv _ (py_get_ok_dict _ _ _ _ Hg)) as [kvs ->].
    destruct (is_dict_inv _ Dg) as [gk ->].
    destruct (is_dict_inv _ Dp) as [pk ->].
    destruct (is_dict_inv _ (py_get_ok_dict _ _ _ _ Ho)) as [ek ->].
    unfold compose.
    erewrite iobind_step by (apply lift_ok; exact Hg).
    erewrite iobind_step by (apply lift_ok; reflexivity).
    erewrite iobind_step by (apply lift_ok; exact Hp).
    erewrite iobind_step by (apply lift_ok; exact He).
    erewrite iobind_step by (apply lift_ok; exact Ho).
    erewrite iobind_step by (apply lift_ok; exact Hw).
    erewrite iobind_step by (apply lift_ok; reflexivity).
    cbv zeta.
    match goal with
    | |- context [visual_elements rt (VDict kvs) ?e0] =>
        destruct (visual_elements_dict rt kvs e0) as (e1 & He1 & _)
    end.
    erewrite iobind_step by (apply lift_ok; exact He1).
    destruct (basic_info_dict rt kvs uid) as (sb & Hb).
    erewrite iobind_step by (apply lift_ok; exact Hb).
    destruct (activity_info_dict rt kvs log) as (sa & log1 & Ha).
    erewrite iobind_step by exact Ha.
    destruct (equipment_value_ok rt ek outfit weapon so sw Fo Fw) as (sq & Hq).
    erewrite iobind_step by (apply lift_ok; exact Hq).
    erewrite iobind_step by (apply lift_ok; reflexivity).
    destruct (pet_value_dict rt pk) as (sp & Hsp).
    destruct (guild_value_dict rt gk) as (sg & Hsg).
    match goal with
    | |- context [if ?b then _ else _] => destruct b
    end.
    + erewrite iobind_step
        by (erewrite iobind_step by (apply lift_ok; exact Hsp); reflexivity).
      erewrite iobind_step by (apply lift_ok; exact Hsg).
      eexists. eexists. reflexivity.
    + erewrite iobind_step by reflexivity.
      erewrite iobind_step by (apply lift_ok; exact Hsg).
      eexists. eexists. reflexivity.
Qed.

(** The command from an allowed channel, case by case. *)
Lemma get_allowed (rt : runtime) (net : network) (cfg : config)
    (channel_id : Z) (uid : string) :
  In channel_id (ALLOWED_CHANNEL_IDS cfg) ->
  exists errors,
    Forall is_log errors
    /\ get rt net cfg channel_id uid []
       = let log1 := Send (fetching_text uid) None
                     :: HttpGet (profile_url uid) :: errors in
         if py_truthy (fetched net uid) then
           match compose rt (fetched net uid) uid log1 with
           | (Ok e, log2) => (Ok tt, (log2 ++ [Edit 0 "" (Some e)])%list)
           | (Raise ex, log2) => (Raise ex, log2)
           end
         else (Ok tt, (log1 ++ [Edit 0 failure_text None])%list).
Proof.
  intros Ha.
  destruct (get_profile_info_fetched net uid [Send (fetching_text uid) None])
    as (errors & E & L & _).
  exists errors. split; [exact L|].
  unfold get. rewrite (allowed _ _ Ha). cbn [negb].
  unfold iobind at 1. unfold send at 1. cbn [length app].
  unfold iobind at 1. rewrite E. cbn [app].
  destruct (py_truthy (fetched net uid)); cbn [negb]; [| reflexivity].
  unfold iobind, edit, perform.
  destruct (compose rt (fetched net uid) uid _) as [[e|ex] log2]; reflexivity.
Qed.

Lemma is_log_not_edit (effects : list effect) :
  Forall is_log effects -> Forall not_edit effects.
Proof.
  intros H. eapply Forall_impl; [| exact H]. intros [] Hl; try exact I.
  contradiction.
Qed.

Lemma shown_unedited (msg : nat) (rest : list effect)
    (shown : string * option embed) :
  Forall not_edit rest ->
  fold_left
    (fun shown e =>
       match e with
       | Edit m content' emb =>
           if Nat.eqb m msg then
             (content', match emb with
                        | Some _ => emb
                        | None => snd shown
                        end)
           else shown
       | _ => shown
       end) rest shown = shown.
Proof.
  intros H. revert shown. induction H as [|e l He _ IH]; intros shown.
  - reflexivity.
  - cbn [fold_left]. destruct e; try contradiction; apply IH.
Qed.

Lemma visible_placeholder (content : string) (rest : list effect) :
  Forall not_edit rest ->
  visible (Send content None :: rest) 0 = Some (content, None).
Proof.
  intros H. unfold visible. cbn [nth_error fold_left].
  now rewrite shown_unedited.
Qed.

Lemma visible_placeholder_edited (content : string) (rest : list effect)
    (content' : string) (emb : option embed) :
  Forall not_edit rest ->
  visible ((Send content None :: rest) ++ [Edit 0 content' emb]) 0
  = Some (content', emb).
Proof.
  intros H. unfold visible. cbn [app nth_error fold_left].
  rewrite fold_left_app. rewrite (shown_unedited 0 rest _ H).
  cbn [fold_left Nat.eqb snd]. destruct emb; reflexivity.
Qed.

Lemma sent_app (l1 l2 : list effect) : sent (l1 ++ l2) = (sent l1 ++ sent l2)%list.
Proof. apply flat_map_app. Qed.

Lemma sent_logs (effects : list effect) : Forall is_log effects -> sent effects = [].
Proof.
  induction 1 as [|e l He _ IH]; [reflexivity|].
  destruct e; try contradiction. exact IH.
Qed.

(** The log after [compose]: the log before it and error lines. *)
Lemma compose_log (rt : runtime) (v : value) (uid : string)
    (log : list effect) :
  exists logs, snd (compose rt v uid log) = (log ++ logs)%list
               /\ Forall is_log logs.
Proof. apply emits_compose. Qed.

(** X9. Every run of the command from an allowed channel has the same
    outline: the placeholder is sent, one request goes out, error lines
    may be logged, and at the end the placeholder is edited at most once,
    to the failure text or to the composed message; it is not edited
    exactly when the command raises.  No second message is ever sent and
    no second request made. *)
Theorem get_run_outline (rt : runtime) (net : network) (cfg : config)
    (channel_id : Z) (uid : string) :
  In channel_id (ALLOWED_CHANNEL_IDS cfg) ->
  exists logs final,
    snd (get rt net cfg channel_id uid [])
    = ([Send (fetching_text uid) None; HttpGet (profile_url uid)]
       ++ logs ++ final)%list
    /\ Forall is_log logs
    /\ ((final = [] /\ exists ex, fst (get rt net cfg channel_id uid []) = Raise ex)
        \/ (final = [Edit 0 failure_text None]
            /\ fst (get rt net cfg channel_id uid []) = Ok tt)
        \/ (exists e, final = [Edit 0 "" (Some e)]
                      /\ fst (get rt net cfg channel_id uid []) = Ok tt))
    /\ fetch_count (snd (get rt net cfg channel_id uid [])) = 1%nat
    /\ sent (snd (get rt net cfg channel_id uid [])) = [fetching_text uid].
Proof.
  intros Ha. destruct (get_allowed rt net cfg channel_id uid Ha)
    as (errors & L & G).
  cbv zeta in G.
  assert (S : exists logs final,
             snd (get rt net cfg channel_id uid [])
             = ([Send (fetching_text uid) None; HttpGet (profile_url uid)]
                ++ logs ++ final)%list
             /\ Forall is_log logs
             /\ ((final = []
                  /\ exists ex, fst (get rt net cfg channel_id uid []) = Raise ex)
                 \/ (final = [Edit 0 failure_text None]
                     /\ fst (get rt net cfg channel_id uid []) = Ok tt)
                 \/ (exists e,
                       final = [Edit 0 "" (Some e)]
                       /\ fst (get rt net cfg channel_id uid []) = Ok tt))).
  { rewrite G. destruct (py_truthy (fetched net uid)).
    - destruct (compose_log rt (fetched net uid) uid
                  (Send (fetching_text uid) None
                   :: HttpGet (profile_url uid) :: errors))
        as (logs & E & L2).
      destruct (compose rt (fetched net uid) uid _) as [[e|ex] log2];
        cbn [snd fst] in *; subst log2.
      + exists (errors ++ logs)%list, [Edit 0 "" (Some e)].
        split; [cbn [app]; now rewrite <- !app_assoc|].
        split; [now apply Forall_app|]. right. right. eauto.
      + exists (errors ++ logs)%list, [].
        split; [cbn [app]; now rewrite app_nil_r|].
        split; [now apply Forall_app|]. left. eauto.
    - exists errors, [Edit 0 failure_text None].
      split; [reflexivity|]. split; [exact L|]. right. left. now split. }
  destruct S as (logs & final & E & Ll & F).
  exists logs, final. split; [exact E|]. split; [exact Ll|]. split; [exact F|].
  rewrite E. rewrite !fetch_count_app, !sent_app.
  rewrite (fetch_count_logs logs Ll), (sent_logs logs Ll).
  destruct F as [[-> _]|[[-> _]|(e & -> & _)]]; split; reflexivity.
Qed.

Lemma allowed_example : In 7 (ALLOWED_CHANNEL_IDS example_config).
Proof. simpl. left. reflexivity. Qed.

Lemma get_run_outline_witness :
  exists logs final,
    snd (get utc_runtime (answering (Response 200 (Ok (VList [VInt 1]))))
             example_config 7 "1722778962" [])
    = ([Send (fetching_text "1722778962") None;
        HttpGet (profile_url "1722778962")] ++ logs ++ final)%list
    /\ Forall is_log logs
    /\ ((final = []
         /\ exists ex,
              fst (get utc_runtime
                       (answering (Response 200 (Ok (VList [VInt 1]))))
                       example_config 7 "1722778962" []) = Raise ex)
        \/ (final = [Edit 0 failure_text None]
            /\ fst (get utc_runtime
                        (answering (Response 200 (Ok (VList [VInt 1]))))
                        example_config 7 "1722778962" []) = Ok tt)
        \/ (exists e,
              final = [Edit 0 "" (Some e)]
              /\ fst (get utc_runtime
                          (answering (Response 200 (Ok (VList [VInt 1]))))
                          example_config 7 "1722778962" []) = Ok tt))
    /\ fetch_count (snd (get utc_runtime
                             (answering (Response 200 (Ok (VList [VInt 1]))))
                             example_config 7 "1722778962" [])) = 1%nat
    /\ sent (snd (get utc_runtime
                      (answering (Response 200 (Ok (VList [VInt 1]))))
                      example_config 7 "1722778962" []))
       = [fetching_text "1722778962"].
Proof.
  apply (get_run_outline utc_runtime
           (answering (Response 200 (Ok (VList [VInt 1]))))
           example_config 7 "1722778962").
  simpl. left. reflexivity.
Defined.

Lemma is_log_plain (effects : list effect) :
  Forall is_log effects -> Forall plain_effect effects.
Proof.
  intros H. eapply Forall_impl; [| exact H]. intros [] Hl; try exact I.
  contradiction.
Qed.

(** The three outcomes of the command from an allowed channel. *)
Lemma get_outcome (rt : runtime) (net : network) (cfg : config)
    (channel_id : Z) (uid : string) :
  In channel_id (ALLOWED_CHANNEL_IDS cfg) ->
  exists logs,
    Forall is_log logs
    /\ let log1 := Send (fetching_text uid) None
                   :: HttpGet (profile_url uid) :: logs in
       (py_truthy (fetched net uid) = false
        /\ get rt net cfg channel_id uid []
           = (Ok tt, (log1 ++ [Edit 0 failure_text None])%list))
       \/ (py_truthy (fetched net uid) = true
           /\ composable rt (fetched net uid)
           /\ exists e log0,
                compose rt (fetched net uid) uid log0 = (Ok e, log1)
                /\ get rt net cfg channel_id uid []
                   = (Ok tt, (log1 ++ [Edit 0 "" (Some e)])%list))
       \/ (py_truthy (fetched net uid) = true
           /\ ~ composable rt (fetched net uid)
           /\ exists ex, get rt net cfg channel_id uid [] = (Raise ex, log1)).
Proof.
  intros Ha. destruct (get_allowed rt net cfg channel_id uid Ha)
    as (errors & L & G).
  cbv zeta in G. destruct (py_truthy (fetched net uid)) eqn:Ht.
  - destruct (compose_log rt (fetched net uid) uid
                (Send (fetching_text uid) None
                 :: HttpGet (profile_url uid) :: errors))
      as (logs & E & L2).
    exists (errors ++ logs)%list. split; [now apply Forall_app|].
    cbv zeta. right.
    destruct (compose rt (fetched net uid) uid _) as [[e|ex] log2] eqn:Hc;
      cbn [snd] in E; subst log2.
    + left. split; [reflexivity|]. split.
      * apply (compose_returns_iff rt _ uid
                 (Send (fetching_text uid) None
                  :: HttpGet (profile_url uid) :: errors)). eauto.
      * exists e. eexists. split; [exact Hc | exact G].
    + right. split; [reflexivity|]. split.
      * intros C.
        apply (compose_returns_iff rt _ uid
                 (Send (fetching_text uid) None
                  :: HttpGet (profile_url uid) :: errors)) in C.
        destruct C as (e & log' & C). rewrite C in Hc. discriminate.
      * exists ex. exact G.
  - exists errors. split; [exact L|]. cbv zeta. left. now split.
Qed.

Lemma not_edit_request (uid : string) (logs : list effect) :
  Forall is_log logs -> Forall not_edit (HttpGet (profile_url uid) :: logs).
Proof. intros H. constructor; [exact I | now apply is_log_not_edit]. Qed.

Lemma plain_request (uid : string) (logs : list effect) :
  Forall is_log logs ->
  Forall plain_effect
    (Send (fetching_text uid) None :: HttpGet (profile_url uid) :: logs).
Proof.
  intros H. constructor; [exact I|]. constructor; [exact I|].
  now apply is_log_plain.
Qed.

(** X10. When what the fetcher hands back is falsy (the [None] of a
    failed fetch, and also a JSON [null], [false], [0], [""], [[]] or [{}]
    fetched with success), the command from an allowed channel edits the
    placeholder to the failure text, delivers no embed and returns
    normally. *)
Theorem get_falsy_document (rt : runtime) (net : network) (cfg : config)
    (channel_id : Z) (uid : string) :
  In channel_id (ALLOWED_CHANNEL_IDS cfg) ->
  py_truthy (fetched net uid) = false ->
  fst (get rt net cfg channel_id uid []) = Ok tt
  /\ visible (snd (get rt net cfg channel_id uid [])) 0
     = Some (failure_text, None)
  /\ delivered (snd (get rt net cfg channel_id uid [])) = None.
Proof.
  intros Ha Hf. destruct (get_outcome rt net cfg channel_id uid Ha)
    as (logs & L & [[_ G]|[[Ht _]|[Ht _]]]); try congruence.
  rewrite G. cbn [fst snd]. split; [reflexivity|]. split.
  - apply visible_placeholder_edited. now apply not_edit_request.
  - rewrite delivered_snoc. apply delivered_plain. now apply plain_request.
Qed.

Lemma get_falsy_document_witness :
  fst (get utc_runtime (answering (Response 200 (Ok (VList []))))
           example_config 7 "1722778962" []) = Ok tt
  /\ visible (snd (get utc_runtime (answering (Response 200 (Ok (VList []))))
                       example_config 7 "1722778962" [])) 0
     = Some (failure_text, None)
  /\ delivered (snd (get utc_runtime
                         (answering (Response 200 (Ok (VList []))))
                         example_config 7 "1722778962" [])) = None.
Proof.
  apply (get_falsy_document utc_runtime
           (answering (Response 200 (Ok (VList [])))) example_config 7
           "1722778962").
  - simpl. left. reflexivity.
  - reflexivity.
Defined.

(** X11. When the fetched document is truthy and not composable (it is
    no dict, a nested section is present and no dict, or an item list is
    malformed), the command raises after the placeholder was sent: the
    placeholder keeps showing the fetching text.  The framework hands the
    exception, wrapped in a [CommandInvokeError], to [get_error], which
    only answers a missing argument and sends nothing for it, so that the
    user is left with the placeholder. *)
Theorem get_leaves_placeholder_on_malformed_document (rt : runtime)
    (net : network) (cfg : config) (channel_id : Z) (uid : string)
    (more : list string) :
  In channel_id (ALLOWED_CHANNEL_IDS cfg) ->
  py_truthy (fetched net uid) = true ->
  ~ composable rt (fetched net uid) ->
  (exists ex, fst (get rt net cfg channel_id uid []) = Raise ex)
  /\ visible (snd (get rt net cfg channel_id uid [])) 0
     = Some (fetching_text uid, None)
  /\ fst (invoke rt net cfg channel_id (uid :: more) []) = Ok tt
  /\ snd (invoke rt net cfg channel_id (uid :: more) [])
     = snd (get rt net cfg channel_id uid [])
  /\ sent (snd (invoke rt net cfg channel_id (uid :: more) []))
     = [fetching_text uid].
Proof.
  intros Ha Ht Hn. destruct (get_outcome rt net cfg channel_id uid Ha)
    as (logs & L & [[Hf _]|[[_ [C _]]|[_ [_ [ex G]]]]]);
    try congruence; try contradiction.
  unfold invoke, try_except. rewrite G. cbn [get_error]. unfold ret.
  cbn [fst snd].
  split; [eauto|]. split.
  - apply visible_placeholder. now apply not_edit_request.
  - split; [reflexivity|]. split; [reflexivity|].
    change (Send (fetching_text uid) None :: HttpGet (profile_url uid) :: logs)
      with ([Send (fetching_text uid) None; HttpGet (profile_url uid)]
            ++ logs)%list.
    rewrite sent_app, (sent_logs logs L). reflexivity.
Qed.

Lemma not_composable_list (rt : runtime) (xs : list value) :
  ~ composable rt (VList xs).
Proof.
  intros (g & p & e & o & w & so & sw & H & _). discriminate H.
Qed.

Lemma get_leaves_placeholder_on_malformed_document_witness :
  (exists ex,
     fst (get utc_runtime (answering (Response 200 (Ok (VList [VInt 1]))))
              example_config 7 "1722778962" []) = Raise ex)
  /\ visible (snd (get utc_runtime
                       (answering (Response 200 (Ok (VList [VInt 1]))))
                       example_config 7 "1722778962" [])) 0
     = Some (fetching_text "1722778962", None)
  /\ fst (invoke utc_runtime (answering (Response 200 (Ok (VList [VInt 1]))))
                 example_config 7 ("1722778962" :: []) []) = Ok tt
  /\ snd (invoke utc_runtime (answering (Response 200 (Ok (VList [VInt 1]))))
                 example_config 7 ("1722778962" :: []) [])
     = snd (get utc_runtime (answering (Response 200 (Ok (VList [VInt 1]))))
                example_config 7 "1722778962" [])
  /\ sent (snd (invoke utc_runtime
                       (answering (Response 200 (Ok (VList [VInt 1]))))
                       example_config 7 ("1722778962" :: []) []))
     = [fetching_text "1722778962"].
Proof.
  apply (get_leaves_placeholder_on_malformed_document utc_runtime
           (answering (Response 200 (Ok (VList [VInt 1]))))
           example_config 7 "1722778962" []).
  - simpl. left. reflexivity.
  - reflexivity.
  - apply not_composable_list.
Defined.

(** X12. From an allowed channel the command delivers a composed message
    exactly when the fetched document is truthy and composable; the
    placeholder then shows that message with an empty text, and the
    command returns normally. *)
Theorem get_delivers_iff_composable (rt : runtime) (net : network)
    (cfg : config) (channel_id : Z) (uid : string) :
  In channel_id (ALLOWED_CHANNEL_IDS cfg) ->
  ((exists e, delivered (snd (get rt net cfg channel_id uid [])) = Some e)
   <-> py_truthy (fetched net uid) = true /\ composable rt (fetched net uid))
  /\ (forall e,
        delivered (snd (get rt net cfg channel_id uid [])) = Some e ->
        fst (get rt net cfg channel_id uid []) = Ok tt
        /\ visible (snd (get rt net cfg channel_id uid [])) 0
           = Some ("", Some e)).
Proof.
  intros Ha. destruct (get_outcome rt net cfg channel_id uid Ha)
    as (logs & L & [[Hf G]|[[Ht [C (e & log0 & _ & G)]]|[Ht [Hn [ex G]]]]]);
    rewrite G; cbn [fst snd].
  - rewrite delivered_snoc, delivered_plain by now apply plain_request.
    split; [| discriminate].
    split; [intros [e H]; discriminate | intros [H _]; congruence].
  - rewrite delivered_snoc. split.
    + split; [now intros _ | intros _; eauto].
    + intros e' H. inversion H; subst e'. split; [reflexivity|].
      apply visible_placeholder_edited. now apply not_edit_request.
  - rewrite delivered_plain by now apply plain_request.
    split; [| discriminate].
    split; [intros [e H]; discriminate | intros [_ C]; contradiction].
Qed.

Lemma get_delivers_iff_composable_witness :
  ((exists e,
      delivered (snd (get utc_runtime
                          (answering (Response 200 (Ok (VList [VInt 1]))))
                          example_config 7 "1722778962" [])) = Some e)
   <-> py_truthy (fetched (answering (Response 200 (Ok (VList [VInt 1]))))
                          "1722778962") = true
       /\ composable utc_runtime
            (fetched (answering (Response 200 (Ok (VList [VInt 1]))))
                     "1722778962"))
  /\ (forall e,
        delivered (snd (get utc_runtime
                            (answering (Response 200 (Ok (VList [VInt 1]))))
                            example_config 7 "1722778962" [])) = Some e ->
        fst (get utc_runtime (answering (Response 200 (Ok (VList [VInt 1]))))
                 example_config 7 "1722778962" []) = Ok tt
        /\ visible (snd (get utc_runtime
                             (answering (Response 200 (Ok (VList [VInt 1]))))
                             example_config 7 "1722778962" [])) 0
           = Some ("", Some e)).
Proof.
  apply (get_delivers_iff_composable utc_runtime
           (answering (Response 200 (Ok (VList [VInt 1]))))
           example_config 7 "1722778962").
  simpl. left. reflexivity.
Defined.

Lemma compose_frame (rt : runtime) (kvs : list (string * value))
    (uid : string) (e : embed) (log log' : list effect) :
  compose rt (VDict kvs) uid log = (Ok e, log') ->
  exists name,
    py_get (VDict kvs) "AccountName" (VStr "Unknown") = Ok name
    /\ embed_title e = "🎮 " ++ escape_markdown rt name ++ "'s PROFILE"
    /\ embed_color e = 0x3498db
    /\ embed_url e = "https://ff.garena.com/account/" ++ uid
    /\ embed_thumbnail e = icon_of rt (VDict kvs) "AccountAvatarId"
    /\ embed_image e = icon_of rt (VDict kvs) "AccountBannerId"
    /\ embed_footer e
       = Some ("🔥 Powered by META's API | 📧 Contact: @jackson_tn",
               "https://emoji.discord.st/emojis/7692_ff.png")
    /\ Forall (fun f => field_inline f = false) (embed_fields e).
Proof.
  unfold compose. intros H. invert_run.
  match goal with
  | H : visual_elements rt (VDict kvs) ?e0 = Ok ?e1 |- _ =>
      destruct (visual_elements_dict rt kvs e0)
        as (e1' & V & Th & Im & Ti & Co & Ur & _);
      rewrite V in H; inversion H; subst e1'; clear H;
      pose proof (visual_elements_fields rt _ _ _ V) as Fi
  end.
  match goal with
  | H : py_get (VDict kvs) "AccountName" _ = Ok ?n |- _ => exists n
  end.
  split; [assumption|].
  assert (T : forall o : option string,
             match o with Some u => Some u | None => None end = o)
    by (intros []; reflexivity).
  match goal with
  | H : (if ?b then _ else _) _ = (Ok _, _) |- _ => destruct b; invert_run
  end;
  cbn [set_footer add_field embed_title embed_color embed_url embed_thumbnail
       embed_image embed_footer embed_fields];
  rewrite Th, Im, Ti, Co, Ur, Fi;
  cbn [Embed embed_title embed_color embed_url embed_thumbnail embed_image
       embed_fields app];
  rewrite !T; repeat split; repeat constructor.
Qed.

(** X13. Every delivered message is framed the same way: the title is the
    escaped account name (or "Unknown") between the fixed words, the link
    is the account page of the identifier as it was typed, the colour and
    the footer are the fixed ones, every section is a full-width one, and
    the thumbnail and the banner are there exactly when the document has
    a truthy avatar id and banner id. *)
Theorem delivered_message_frame (rt : runtime) (net : network) (cfg : config)
    (channel_id : Z) (uid : string) (e : embed) :
  delivered (snd (get rt net cfg channel_id uid [])) = Some e ->
  exists name,
    py_get (fetched net uid) "AccountName" (VStr "Unknown") = Ok name
    /\ embed_title e = "🎮 " ++ escape_markdown rt name ++ "'s PROFILE"
    /\ embed_color e = 0x3498db
    /\ embed_url e = "https://ff.garena.com/account/" ++ uid
    /\ embed_thumbnail e = icon_of rt (fetched net uid) "AccountAvatarId"
    /\ embed_image e = icon_of rt (fetched net uid) "AccountBannerId"
    /\ embed_footer e
       = Some ("🔥 Powered by META's API | 📧 Contact: @jackson_tn",
               "https://emoji.discord.st/emojis/7692_ff.png")
    /\ Forall (fun f => field_inline f = false) (embed_fields e).
Proof.
  intros H.
  destruct (delivered_by_compose _ _ _ _ _ _ H) as (v & log1 & log2 & Hf & Hc).
  destruct (get_profile_info_fetched net uid [Send (fetching_text uid) None])
    as (errors & E & _).
  rewrite E in Hf. inversion Hf; subst v log1; clear Hf.
  assert (D : exists kvs, fetched net uid = VDict kvs).
  { assert (C : composable rt (fetched net uid))
      by (eapply compose_returns_iff; eauto).
    destruct C as (g & p & q & o & w & so & sw & Hg & _).
    exact (is_dict_inv _ (py_get_ok_dict _ _ _ _ Hg)). }
  destruct D as [kvs D]. rewrite D in *.
  exact (compose_frame rt kvs uid e _ _ Hc).
Qed.

Lemma delivered_message_frame_witness :
  exists name,
    py_get (fetched (answering
                       (Response 200
                          (Ok (VDict [("AccountAvatarId", VInt 902000011)]))))
                    "1722778962")
           "AccountName" (VStr "Unknown") = Ok name
    /\ embed_title
         (set_thumbnail (placeholder_embed "1722778962")
                        (library_icons "902000011"))
       = "🎮 " ++ escape_markdown utc_runtime name ++ "'s PROFILE"
    /\ embed_color
         (set_thumbnail (placeholder_embed "1722778962")
                        (library_icons "902000011")) = 0x3498db
    /\ embed_url
         (set_thumbnail (placeholder_embed "1722778962")
                        (library_icons "902000011"))
       = "https://ff.garena.com/account/" ++ "1722778962"
    /\ embed_thumbnail
         (set_thumbnail (placeholder_embed "1722778962")
                        (library_icons "902000011"))
       = icon_of utc_runtime
           (fetched (answering
                       (Response 200
                          (Ok (VDict [("AccountAvatarId", VInt 902000011)]))))
                    "1722778962") "AccountAvatarId"
    /\ embed_image
         (set_thumbnail (placeholder_embed "1722778962")
                        (library_icons "902000011"))
       = icon_of utc_runtime
           (fetched (answering
                       (Response 200
                          (Ok (VDict [("AccountAvatarId", VInt 902000011)]))))
                    "1722778962") "AccountBannerId"
    /\ embed_footer
         (set_thumbnail (placeholder_embed "1722778962")
                        (library_icons "902000011"))
       = Some ("🔥 Powered by META's API | 📧 Contact: @jackson_tn",
               "https://emoji.discord.st/emojis/7692_ff.png")
    /\ Forall (fun f => field_inline f = false)
         (embed_fields
            (set_thumbnail (placeholder_embed "1722778962")
                           (library_icons "902000011"))).
Proof.
  apply (delivered_message_frame utc_runtime
           (answering
              (Response 200
                 (Ok (VDict [("AccountAvatarId", VInt 902000011)]))))
           example_config 7 "1722778962").
  vm_compute. reflexivity.
Defined.

(** ** Start-up, further *)

Lemma startup_ok_inv (rt : runtime) (getenv : environment) (cfg : config) :
  startup rt getenv = Ok cfg ->
  exists token s n,
    getenv "DISCORD_TOKEN" = Some token /\ token <> ""
    /\ getenv "CHANNEL_ID" = Some s /\ py_int_of_string rt s = Some n
    /\ cfg = {| DISCORD_TOKEN := token; ALLOWED_CHANNEL_IDS := [n] |}.
Proof.
  unfold startup, py_int, env_falsy.
  destruct (getenv "CHANNEL_ID") as [s|]; [| discriminate].
  pose proof (py_int_str_cases rt s) as C.
  destruct (py_int_of_string rt s) as [n|] eqn:Hn;
    [rewrite C | destruct C as [msg ->]; discriminate].
  cbn [bind].
  destruct (getenv "DISCORD_TOKEN") as [token|]; [| discriminate].
  destruct (String.eqb token "") eqn:Ht; [discriminate|].
  destruct (String.eqb s "") eqn:Hs; [discriminate|].
  intros H. inversion H. exists token, s, n.
  apply String.eqb_neq in Ht. repeat split; auto.
Qed.

Lemma is_ascii_digits (s : string) :
  (forall c, In c (list_ascii_of_string s) -> is_digit c = true) ->
  is_ascii s = true.
Proof.
  induction s as [|c s IH]; intros H; [reflexivity|].
  rewrite is_ascii_cons. apply andb_true_intro. split.
  - destruct (is_digit_cases c (H c (or_introl eq_refl))) as (n & Hn & ->).
    now apply ascii_digit_char.
  - apply IH. intros c' Hc'. apply H. now right.
Qed.

Lemma scan_digits_all (s : string) (acc count : Z) :
  (forall c, In c (list_ascii_of_string s) -> is_digit c = true) ->
  exists n,
    scan_digits acc count false s
    = Some (n, count + Z.of_nat (String.length s), EmptyString).
Proof.
  revert acc count. induction s as [|c s IH]; intros acc count H.
  - exists acc. cbn [scan_digits String.length Z.of_nat].
    now rewrite Z.add_0_r.
  - destruct (is_digit_cases c (H c (or_introl eq_refl))) as (x & Hx & ->).
    rewrite scan_digits_digit by exact Hx.
    destruct (IH (10 * acc + x) (count + 1)) as [n E].
    { intros c' Hc'. apply H. now right. }
    exists n. rewrite E. cbn [String.length]. do 3 f_equal. lia.
Qed.

(** A text of more digits than the interpreter's limit, which counts only
    beyond 640 digits, is refused. *)
Lemma py_int_of_string_beyond_limit (rt : runtime) (s : string) :
  (forall c, In c (list_ascii_of_string s) -> is_digit c = true) ->
  0 < int_max_str_digits rt ->
  640 < Z.of_nat (String.length s) ->
  int_max_str_digits rt < Z.of_nat (String.length s) ->
  py_int_of_string rt s = None.
Proof.
  intros H Hmax H640 Hlen. unfold py_int_of_string, py_long, int_text.
  rewrite (is_ascii_digits s H).
  destruct s as [|c t]; [reflexivity|].
  destruct (is_digit_cases c (H c (or_introl eq_refl))) as (x & Hx & ->).
  rewrite long_from_digits by exact Hx.
  destruct (scan_digits_all t x 1) as [n E].
  { intros c' Hc'. apply H. now right. }
  rewrite E. cbn [String.length] in H640, Hlen.
  replace (640 <? 1 + Z.of_nat (String.length t)) with true
    by (symmetry; apply Z.ltb_lt; lia).
  replace (0 <? int_max_str_digits rt) with true
    by (symmetry; apply Z.ltb_lt; lia).
  replace (int_max_str_digits rt <? 1 + Z.of_nat (String.length t)) with true
    by (symmetry; apply Z.ltb_lt; lia).
  reflexivity.
Qed.

(** [int] on texts a channel variable may hold: digits of another
    script and blanks around them are read, a single underscore between
    two digits too. *)
Lemma py_int_of_string_samples :
  py_int_of_string utc_runtime "٧" = Some 7
  /\ py_int_of_string utc_runtime " -1_0٣ " = Some (- 103)
  /\ py_int_of_string utc_runtime "7 8" = None
  /\ py_int_of_string utc_runtime "1__0" = None.
Proof. repeat split; vm_compute; reflexivity. Qed.

(** X14. The start-up succeeds exactly when the token is set and not
    empty and the channel variable is a text that [int] accepts; the
    allow-set it builds holds that one channel and nothing else.  A
    channel variable of more digits than the interpreter's limit on
    integer texts is not accepted. *)
Theorem startup_succeeds_iff (rt : runtime) (getenv : environment)
    (cfg : config) :
  (startup rt getenv = Ok cfg
   <-> exists token s n,
         getenv "DISCORD_TOKEN" = Some token /\ token <> ""
         /\ getenv "CHANNEL_ID" = Some s /\ py_int_of_string rt s = Some n
         /\ cfg = {| DISCORD_TOKEN := token; ALLOWED_CHANNEL_IDS := [n] |})
  /\ (forall s,
        getenv "CHANNEL_ID" = Some s ->
        (forall c, In c (list_ascii_of_string s) -> is_digit c = true) ->
        0 < int_max_str_digits rt ->
        640 < Z.of_nat (String.length s) ->
        int_max_str_digits rt < Z.of_nat (String.length s) ->
        startup rt getenv <> Ok cfg).
Proof.
  split.
  - split; [apply startup_ok_inv|].
    intros (token & s & n & Ht & Hne & Hs & Hn & ->).
    unfold startup, py_int, env_falsy.
    pose proof (py_int_str_cases rt s) as C. rewrite Hn in C.
    rewrite Hs, C, Ht. cbn [bind].
    apply String.eqb_neq in Hne. rewrite Hne.
    destruct (String.eqb s "") eqn:E; [| reflexivity].
    apply String.eqb_eq in E. subst s.
    rewrite py_int_of_string_empty in Hn. discriminate Hn.
  - intros s Hs Hd Hmax H640 Hlen Hok.
    apply startup_ok_inv in Hok.
    destruct Hok as (token & s' & n & _ & _ & Hs' & Hn & _).
    rewrite Hs in Hs'. inversion Hs'; subst s'.
    rewrite (py_int_of_string_beyond_limit rt s Hd Hmax H640 Hlen) in Hn.
    discriminate Hn.
Qed.

Lemma get_allowed_effects (rt : runtime) (net : network) (cfg : config)
    (channel_id : Z) (uid : string) :
  In channel_id (ALLOWED_CHANNEL_IDS cfg) ->
  sent (snd (get rt net cfg channel_id uid [])) = [fetching_text uid]
  /\ fetch_count (snd (get rt net cfg channel_id uid [])) = 1%nat.
Proof.
  intros Ha. destruct (get_outcome rt net cfg channel_id uid Ha)
    as (logs & L & [[_ G]|[[_ [_ (e & log0 & _ & G)]]|[_ [_ [ex G]]]]]);
    rewrite G; cbn [snd];
    change (Send (fetching_text uid) None :: HttpGet (profile_url uid) :: logs)
      with ([Send (fetching_text uid) None; HttpGet (profile_url uid)]
            ++ logs)%list;
    rewrite ?sent_app, ?fetch_count_app, (sent_logs logs L),
      (fetch_count_logs logs L); split; reflexivity.
Qed.

(** X15. Under a configuration that the start-up built, the command
    serves the one channel whose id the channel variable spells and
    rejects every other channel without a request. *)
Theorem startup_then_get (getenv : environment) (cfg : config)
    (rt : runtime) (net : network) (uid : string) :
  startup rt getenv = Ok cfg ->
  exists n,
    py_int rt (getenv "CHANNEL_ID") = Ok n
    /\ (forall channel_id,
          channel_id <> n ->
          get rt net cfg channel_id uid []
          = (Ok tt, [Send rejection_text None]))
    /\ sent (snd (get rt net cfg n uid [])) = [fetching_text uid]
    /\ fetch_count (snd (get rt net cfg n uid [])) = 1%nat.
Proof.
  intros H. apply startup_ok_inv in H.
  destruct H as (token & s & n & _ & _ & Hs & Hn & ->).
  pose proof (py_int_str_cases rt s) as C. rewrite Hn in C.
  exists n. unfold py_int. rewrite Hs, C. split; [reflexivity|]. split.
  - intros channel_id Hc. unfold get.
    rewrite not_allowed; [reflexivity|].
    cbn [ALLOWED_CHANNEL_IDS]. intros [E|[]]. congruence.
  - apply get_allowed_effects. left. reflexivity.
Qed.

Lemma startup_then_get_witness :
  exists n,
    py_int utc_runtime
           ((fun name => if String.eqb name "DISCORD_TOKEN" then Some "token"
                         else Some " 7 ") "CHANNEL_ID") = Ok n
    /\ (forall channel_id,
          channel_id <> n ->
          get utc_runtime (answering (TransportError "down"))
              {| DISCORD_TOKEN := "token"; ALLOWED_CHANNEL_IDS := [7] |}
              channel_id "1722778962" []
          = (Ok tt, [Send rejection_text None]))
    /\ sent (snd (get utc_runtime (answering (TransportError "down"))
                      {| DISCORD_TOKEN := "token"; ALLOWED_CHANNEL_IDS := [7] |}
                      n "1722778962" []))
       = [fetching_text "1722778962"]
    /\ fetch_count (snd (get utc_runtime (answering (TransportError "down"))
                             {| DISCORD_TOKEN := "token";
                                ALLOWED_CHANNEL_IDS := [7] |}
                             n "1722778962" [])) = 1%nat.
Proof.
  apply (startup_then_get
           (fun name => if String.eqb name "DISCORD_TOKEN" then Some "token"
                        else Some " 7 ")
           {| DISCORD_TOKEN := "token"; ALLOWED_CHANNEL_IDS := [7] |}
           utc_runtime (answering (TransportError "down")) "1722778962").
  reflexivity.
Defined.

(** ** The web application *)

Lemma serve_all_started (cfg : config) (paths : list string) :
  let '(a, started, answers) :=
    Web.serve_all cfg {| Web.bot_started := true |} paths in
  Web.bot_started a = true /\ started = []
  /\ answers = map (fun path => if String.eqb path "/" then Web.Page Web.home
                                else Web.NotFound) paths.
Proof.
  induction paths as [|path rest IH]; [repeat split|].
  cbn [Web.serve_all Web.serve Web.startup Web.bot_started negb].
  destruct (Web.serve_all cfg {| Web.bot_started := true |} rest)
    as [[a started] answers].
  destruct IH as (Ha & Hs & Hr). subst. repeat split. exact Ha.
Qed.

(** X16. Served one after another from a fresh application, the requests
    start the bot once: the first request does, whatever its URL is, no
    later request does, and without a request the bot is never started.
    Each request for [/] is answered with the fixed text. *)
Theorem bot_started_by_first_request (cfg : config) (paths : list string) :
  let '(a, started, answers) := Web.serve_all cfg Web.fresh paths in
  started = match paths with
            | [] => []
            | _ :: _ => [Web.StartBot (DISCORD_TOKEN cfg)]
            end
  /\ Web.bot_started a = match paths with [] => false | _ :: _ => true end
  /\ answers = map (fun path => if String.eqb path "/" then Web.Page Web.home
                                else Web.NotFound) paths.
Proof.
  destruct paths as [|path rest]; [repeat split|].
  cbn [Web.serve_all Web.serve Web.startup Web.fresh Web.bot_started negb].
  pose proof (serve_all_started cfg rest) as H.
  destruct (Web.serve_all cfg {| Web.bot_started := true |} rest)
    as [[a started] answers].
  destruct H as (Ha & Hs & Hr). subst. repeat split. exact Ha.
Qed.

(** ** The presence updater *)

Lemma presences_app (l1 l2 : list presence_effect) :
  presences (l1 ++ l2) = (presences l1 ++ presences l2)%list.
Proof. apply flat_map_app. Qed.

Lemma presence_loop_add (n m : nat) :
  presence_loop (n + m) = (presence_loop n ++ presence_loop m)%list.
Proof.
  induction n as [|n IH]; [reflexivity|].
  cbn [Nat.add presence_loop]. now rewrite IH, app_assoc.
Qed.

Lemma presences_loop_nth (passes i : nat) :
  (i < 3 * passes)%nat ->
  nth_error (presences (presence_loop passes)) i
  = nth_error activities (i mod 3).
Proof.
  revert i. induction passes as [|n IH]; intros i Hi; [lia|].
  cbn [presence_loop]. rewrite presences_app.
  change (presences presence_pass) with activities.
  destruct (Nat.lt_ge_cases i 3) as [Hlt|Hge].
  - rewrite nth_error_app1 by exact Hlt.
    now rewrite Nat.mod_small by exact Hlt.
  - rewrite nth_error_app2 by exact Hge.
    change (List.length activities) with 3%nat.
    rewrite IH by lia. f_equal.
    replace i with ((i - 3) + 1 * 3)%nat at 2 by lia.
    now rewrite Nat.Div0.mod_add.
Qed.

Lemma presence_loop_logs_nothing (passes i : nat) (text : string) :
  nth_error (presence_loop passes) i <> Some (LogInfo text).
Proof.
  revert i. induction passes as [|n IH]; intros i.
  - destruct i; discriminate.
  - cbn [presence_loop].
    change presence_pass
      with [ChangePresence (Game "META's 👑 KINGDOM"); Sleep 10;
            ChangePresence (Watching "!get <uid>"); Sleep 10;
            ChangePresence (Game "Example: !get 1722778962"); Sleep 10].
    do 6 (destruct i as [|i]; [cbn [app nth_error]; discriminate|]).
    cbn [app nth_error]. apply IH.
Qed.

(** X17. The presence updater first logs the login, with the name and
    the id of the bot's user, and logs nothing more; then it shows the
    three activities in their order over and over: the change number [i]
    shows activity [i mod 3], every change is followed by a pause of 10,
    and running on only adds to what was done, without end. *)
Theorem on_ready_cycles (user_name : string) (user_id : Z) (passes : nat) :
  nth_error (on_ready user_name user_id passes) 0
  = Some (LogInfo ("Logged in as " ++ user_name ++ " ("
                   ++ str_int user_id ++ ")"))
  /\ (forall i text,
        nth_error (on_ready user_name user_id passes) i = Some (LogInfo text) ->
        i = 0%nat)
  /\ (forall i, (i < 3 * passes)%nat ->
     nth_error (presences (on_ready user_name user_id passes)) i
     = nth_error activities (i mod 3))
  /\ List.length (presences (on_ready user_name user_id passes))
     = (3 * passes)%nat
  /\ (forall more,
        on_ready user_name user_id (passes + more)
        = (on_ready user_name user_id passes ++ presence_loop more)%list)
  /\ (forall i a,
        nth_error (on_ready user_name user_id passes) i
        = Some (ChangePresence a) ->
        nth_error (on_ready user_name user_id passes) (S i)
        = Some (Sleep 10)).
Proof.
  split; [reflexivity|]. split.
  { intros i text H. destruct i as [|i]; [reflexivity|].
    unfold on_ready in H. cbn [nth_error] in H.
    now apply presence_loop_logs_nothing in H. }
  split; [| split; [| split]].
  - intros i Hi. unfold on_ready.
    change (presences (?x :: ?l)) with (presences l).
    now apply presences_loop_nth.
  - unfold on_ready.
    change (presences (?x :: ?l)) with (presences l).
    induction passes as [|n IH]; [reflexivity|].
    cbn [presence_loop]. rewrite presences_app, length_app, IH.
    change (List.length (presences presence_pass)) with 3%nat. lia.
  - intros more. unfold on_ready. now rewrite presence_loop_add.
  - intros i a. unfold on_ready. destruct i as [|i]; [discriminate|].
    cbn [nth_error]. revert i.
    induction passes as [|n IH]; intros i; [destruct i; discriminate|].
    cbn [presence_loop].
    change presence_pass
      with [ChangePresence (Game "META's 👑 KINGDOM"); Sleep 10;
            ChangePresence (Watching "!get <uid>"); Sleep 10;
            ChangePresence (Game "Example: !get 1722778962"); Sleep 10].
    do 6 (destruct i as [|i]; [cbn [app nth_error]; intros H;
                               first [discriminate H | reflexivity]|]).
    cbn [app nth_error]. apply IH.
Qed.

(** ** [format_timestamp], further *)

(** X18. [format_timestamp] logs an error exactly when it was given a
    number or a string and could not convert it; a missing timestamp
    ([None]) or any other kind of value gets "Not Available" without a
    log line, and a converted one leaves the log as it was. *)
Theorem format_timestamp_logging (rt : runtime) (v : value)
    (log : list effect) :
  (forall dt, parsed rt v = Some dt ->
              format_timestamp rt v log = (Ok (strftime rt dt), log))
  /\ (is_number v = false -> is_str v = false ->
      format_timestamp rt v log = (Ok "Not Available", log))
  /\ (parsed rt v = None -> is_number v = true \/ is_str v = true ->
      exists e,
        format_timestamp rt v log
        = (Ok "Not Available",
           (log ++ [LogError "Error formatting timestamp: " e])%list)).
Proof.
  unfold format_timestamp, parsed, try_except, lift, ret, iobind,
    logger_error, perform.
  destruct (is_number v).
  - destruct (fromtimestamp rt v) as [dt|e]; repeat split;
      try discriminate; try congruence.
    + intros dt' H. inversion H. reflexivity.
    + intros _ _. now exists e.
  - destruct (is_str v).
    + destruct (strptime rt (py_str rt v)) as [dt|e]; repeat split;
        try discriminate; try congruence.
      * intros dt' H. inversion H. reflexivity.
      * intros _ _. now exists e.
    + repeat split; try discriminate. intros _ [H|H]; discriminate H.
Qed.

(** *** Texts of the exact pattern that the expression rejects *)

Lemma match_none {A : Type} (o alt : option A) :
  o = None -> alt = None ->
  match o with Some x => Some x | None => alt end = None.
Proof. now intros -> ->. Qed.

Ltac none_case Hb Hm :=
  try specialize (Hm ltac:(lia));
  vm_compute;
  repeat (apply match_none; [first [exact Hm | apply Hb; reflexivity]|]);
  first [reflexivity | exact Hm | apply Hb; reflexivity].

Lemma rmatch_d_none {A : Type} (rt : runtime) (n : Z) (rest : string) (caps : captures)
    (acc : string) (k : string -> captures -> string -> option A) :
  0 <= n <= 99 -> digit_blind k ->
  (1 <= n <= 31 -> k rest (("d", pad2 n) :: caps) (acc ++ pad2 n) = None) ->
  rmatch rt re_d (pad2 n ++ rest) caps acc k = None.
Proof.
  intros Hn Hb. pattern n. apply (Z_range_ind _ 0 100); [| lia].
  clear n Hn. intros i Hi Hm.
  do 100 (destruct i as [|i]; [none_case Hb Hm|]). lia.
Qed.

Lemma rmatch_12_none {A : Type} (rt : runtime) (name : string) (n : Z) (rest : string)
    (caps : captures) (acc : string)
    (k : string -> captures -> string -> option A) :
  0 <= n <= 99 -> digit_blind k ->
  (1 <= n <= 12 -> k rest ((name, pad2 n) :: caps) (acc ++ pad2 n) = None) ->
  rmatch rt (re_12 name) (pad2 n ++ rest) caps acc k = None.
Proof.
  intros Hn Hb. pattern n. apply (Z_range_ind _ 0 100); [| lia].
  clear n Hn. intros i Hi Hm.
  do 100 (destruct i as [|i]; [none_case Hb Hm|]). lia.
Qed.

Lemma rmatch_M_none {A : Type} (rt : runtime) (n : Z) (rest : string) (caps : captures)
    (acc : string) (k : string -> captures -> string -> option A) :
  0 <= n <= 99 -> digit_blind k ->
  (0 <= n <= 59 -> k rest (("M", pad2 n) :: caps) (acc ++ pad2 n) = None) ->
  rmatch rt re_M (pad2 n ++ rest) caps acc k = None.
Proof.
  intros Hn Hb. pattern n. apply (Z_range_ind _ 0 100); [| lia].
  clear n Hn. intros i Hi Hm.
  do 100 (destruct i as [|i]; [none_case Hb Hm|]). lia.
Qed.

Lemma rmatch_S_none {A : Type} (rt : runtime) (n : Z) (rest : string) (caps : captures)
    (acc : string) (k : string -> captures -> string -> option A) :
  0 <= n <= 99 -> digit_blind k ->
  (0 <= n <= 61 -> k rest (("S", pad2 n) :: caps) (acc ++ pad2 n) = None) ->
  rmatch rt re_S (pad2 n ++ rest) caps acc k = None.
Proof.
  intros Hn Hb. pattern n. apply (Z_range_ind _ 0 100); [| lia].
  clear n Hn. intros i Hi Hm.
  do 100 (destruct i as [|i]; [none_case Hb Hm|]). lia.
Qed.

(** The seconds 60 and 61, which the directive [%S] lets through. *)
Lemma rmatch_S_leap {A : Type} (rt : runtime) (n : Z) (rest : string) (caps : captures)
    (acc : string) (k : string -> captures -> string -> option A) (a : A) :
  0 <= n <= 61 ->
  k rest (("S", pad2 n) :: caps) (acc ++ pad2 n) = Some a ->
  rmatch rt re_S (pad2 n ++ rest) caps acc k = Some a.
Proof.
  intros Hn. pattern n. apply (Z_range_ind _ 0 62); [| lia]. clear.
  intros i Hi Hk.
  do 62 (destruct i as [|i]; [first_match Hk|]). lia.
Qed.

Lemma digit_blind_lit {A : Type} (rt : runtime) (c0 : ascii) (r : regex)
    (k : string -> captures -> string -> option A) :
  is_digit c0 = false -> lower c0 = c0 ->
  digit_blind (fun s caps acc => rmatch rt (Cat (Lit c0) r) s caps acc k).
Proof.
  intros H0 L0 c rest caps acc Hc. rewrite rmatch_cat.
  cbn [rmatch one_char]. rewrite L0.
  destruct (is_digit_cases c Hc) as (n & Hn & ->).
  assert (E : lower (digit_char n) = digit_char n).
  { apply Ascii.eqb_eq.
    apply (range_check (fun n => Ascii.eqb (lower (digit_char n)) (digit_char n))
             0 9); [reflexivity | lia]. }
  rewrite E. destruct (Ascii.eqb (digit_char n) c0) eqn:Q; [| reflexivity].
  apply Ascii.eqb_eq in Q. subst c0.
  rewrite is_digit_digit_char in H0 by lia. discriminate.
Qed.

Lemma digit_blind_spaces {A : Type} (rt : runtime) (r : regex)
    (k : string -> captures -> string -> option A) :
  digit_blind (fun s caps acc => rmatch rt (Cat Spaces r) s caps acc k).
Proof.
  intros c rest caps acc Hc. rewrite rmatch_cat. cbn [rmatch].
  destruct (is_digit_cases c Hc) as (n & Hn & ->).
  rewrite (chars_ascii _ rest (ascii_digit_char n Hn)). cbn [spaces_loop].
  rewrite (is_unicode_space_ascii rt _ (ascii_digit_char n Hn)).
  now rewrite is_space_digit_char.
Qed.

(** A text of the exact pattern with a field outside the range of its
    directive does not match. *)
Lemma time_re_rejects (rt : runtime) (d m y h mi s : Z) (pm : bool) :
  0 <= d <= 99 -> 0 <= m <= 99 -> 0 <= y <= 9999 ->
  0 <= h <= 99 -> 0 <= mi <= 99 -> 0 <= s <= 99 ->
  ~ (1 <= d <= 31 /\ 1 <= m <= 12 /\ 1 <= h <= 12 /\ mi <= 59 /\ s <= 61) ->
  rmatch rt time_re (pattern_text d m y h mi s pm) [] EmptyString
         (fun rest caps _ => Some (rest, caps))
  = None.
Proof.
  intros Hd Hm Hy Hh Hmi Hs Hout.
  unfold time_re, cats, pattern_text. cbn [fold_right append].
  rewrite rmatch_cat.
  apply rmatch_d_none; [exact Hd | now apply digit_blind_lit | intros Rd].
  rewrite rmatch_cat, rmatch_lit. rewrite rmatch_cat.
  apply rmatch_12_none; [exact Hm | now apply digit_blind_lit | intros Rm].
  rewrite rmatch_cat, rmatch_lit.
  rewrite rmatch_cat, rmatch_Y by exact Hy.
  rewrite rmatch_cat, rmatch_space by reflexivity.
  rewrite rmatch_cat, rmatch_lit.
  rewrite rmatch_cat, rmatch_space_pad2 by lia.
  rewrite rmatch_cat.
  apply rmatch_12_none; [exact Hh | now apply digit_blind_lit | intros Rh].
  rewrite rmatch_cat, rmatch_lit. rewrite rmatch_cat.
  apply rmatch_M_none; [exact Hmi | now apply digit_blind_lit | intros Rmi].
  rewrite rmatch_cat, rmatch_lit. rewrite rmatch_cat.
  apply rmatch_S_none; [exact Hs | apply digit_blind_spaces | intros Rs].
  exfalso. apply Hout. lia.
Qed.

(** The whole match again, now with the seconds up to 61. *)
Lemma time_re_exact_leap (rt : runtime) (d m y h mi s : Z) (pm : bool) :
  1 <= d <= 31 -> 1 <= m <= 12 -> 0 <= y <= 9999 ->
  1 <= h <= 12 -> 0 <= mi <= 59 -> 0 <= s <= 61 ->
  rmatch rt time_re (pattern_text d m y h mi s pm) [] EmptyString
         (fun rest caps _ => Some (rest, caps))
  = Some (EmptyString,
          [("p", if pm then "PM" else "AM"); ("S", pad2 s); ("M", pad2 mi);
           ("I", pad2 h); ("Y", pad4 y); ("m", pad2 m); ("d", pad2 d)]).
Proof.
  intros Hd Hm Hy Hh Hmi Hs.
  unfold time_re, cats, pattern_text. cbn [fold_right append].
  rewrite rmatch_cat. apply rmatch_d; [exact Hd|]. cbv beta.
  rewrite rmatch_cat, rmatch_lit.
  rewrite rmatch_cat. apply rmatch_12; [exact Hm|]. cbv beta.
  rewrite rmatch_cat, rmatch_lit.
  rewrite rmatch_cat, rmatch_Y by exact Hy.
  rewrite rmatch_cat, rmatch_space by reflexivity.
  rewrite rmatch_cat, rmatch_lit.
  rewrite rmatch_cat, rmatch_space_pad2 by lia.
  rewrite rmatch_cat. apply rmatch_12; [exact Hh|]. cbv beta.
  rewrite rmatch_cat, rmatch_lit.
  rewrite rmatch_cat. apply rmatch_M; [exact Hmi|]. cbv beta.
  rewrite rmatch_cat, rmatch_lit.
  rewrite rmatch_cat. apply rmatch_S_leap; [exact Hs|]. cbv beta.
  rewrite rmatch_cat.
  assert (Sp : forall caps acc
                 (k : string -> captures -> string -> option (string * captures)),
             rmatch rt Spaces (String " " (if pm then "PM" else "AM")) caps acc k
             = k (if pm then "PM" else "AM") caps (snoc acc " ")).
  { intros. destruct pm; apply rmatch_space; reflexivity. }
  rewrite Sp. rewrite rmatch_cat. apply rmatch_p. reflexivity.
Qed.

(** [strptime] on every text of the exact pattern. *)
Lemma strptime_on_pattern (rt : runtime) (d m y h mi s : Z) (pm : bool) :
  0 <= d <= 99 -> 0 <= m <= 99 -> 0 <= y <= 9999 ->
  0 <= h <= 99 -> 0 <= mi <= 99 -> 0 <= s <= 99 ->
  if fields_valid d m y h mi s pm then
    exists dt,
      strptime rt (pattern_text d m y h mi s pm) = Ok dt
      /\ year dt = y /\ month dt = m /\ day dt = d
      /\ hour dt = hour24 h pm /\ minute dt = mi /\ second dt = s
  else exists e, strptime rt (pattern_text d m y h mi s pm) = Raise e.
Proof.
  intros Hd Hm Hy Hh Hmi Hs. unfold fields_valid.
  destruct (between 1 h 12) eqn:Bh; cbn [andb].
  - unfold between in Bh. apply andb_true_iff in Bh.
    destruct Bh as [B1 B2]. apply Z.leb_le in B1. apply Z.leb_le in B2.
    destruct (valid_datetime y m d (hour24 h pm) mi s) eqn:V.
    + destruct (valid_datetime_ranges _ _ _ _ _ _ V)
        as (Ry & Rm & Rd & _ & Rmi & Rs).
      rewrite strptime_exact by lia. now apply new_datetime_ok.
    + destruct (Z_le_gt_dec 1 d) as [D1|D1];
        [destruct (Z_le_gt_dec d 31) as [D2|D2];
         [destruct (Z_le_gt_dec 1 m) as [M1|M1];
          [destruct (Z_le_gt_dec m 12) as [M2|M2];
           [destruct (Z_le_gt_dec mi 59) as [I1|I1];
            [destruct (Z_le_gt_dec s 61) as [S1|S1]|]|]|]|]|].
      * unfold strptime. rewrite time_re_exact_leap by lia.
        cbn [String.eqb negb]. unfold capture_int.
        destruct (captures_exact (if pm then "PM" else "AM") (pad2 s)
                    (pad2 mi) (pad2 h) (pad4 y) (pad2 m) (pad2 d))
          as (Cd & Cm & Cy & Ch & Cmi & Cs & Cp).
        cbv zeta in Cd, Cm, Cy, Ch, Cmi, Cs, Cp.
        rewrite Cd, Cm, Cy, Ch, Cmi, Cs, Cp.
        rewrite !int_pad2, int_pad4 by lia. cbn [bind].
        assert (N : exists e, new_datetime y m d (hour24 h pm) mi s = Raise e).
        { unfold new_datetime.
          assert (G : forall (b : bool)
                        (e : valid_datetime y m d (hour24 h pm) mi s = b),
                     b = false ->
                     exists ex,
                       (if b as b' return
                           (valid_datetime y m d (hour24 h pm) mi s = b' ->
                            result datetime)
                        then fun ok =>
                               Ok (Build_datetime y m d (hour24 h pm) mi s ok)
                        else fun _ =>
                               Raise (datetime_error y m d (hour24 h pm) mi s))
                         e = Raise ex).
          { intros b e Hb. destruct b; [discriminate | eexists; reflexivity]. }
          exact (G _ eq_refl V). }
        destruct N as [e N]. exists e. rewrite <- N.
        unfold hour24.
        destruct pm; destruct (h =? 12) eqn:E; try reflexivity;
          apply Z.eqb_eq in E; subst h; reflexivity.
      * unfold strptime. rewrite time_re_rejects by lia. eexists. reflexivity.
      * unfold strptime. rewrite time_re_rejects by lia. eexists. reflexivity.
      * unfold strptime. rewrite time_re_rejects by lia. eexists. reflexivity.
      * unfold strptime. rewrite time_re_rejects by lia. eexists. reflexivity.
      * unfold strptime. rewrite time_re_rejects by lia. eexists. reflexivity.
      * unfold strptime. rewrite time_re_rejects by lia. eexists. reflexivity.
  - unfold strptime. rewrite time_re_rejects; [eexists; reflexivity | lia..|].
    unfold between in Bh. apply andb_false_iff in Bh.
    destruct Bh as [B|B]; [apply Z.leb_gt in B | apply Z.leb_gt in B]; lia.
Qed.

Lemma template_digit (tpl s : string) :
  matches_template (String "#" tpl) s = true ->
  exists c s',
    s = String c s' /\ is_digit c = true /\ matches_template tpl s' = true.
Proof.
  destruct s as [|c s']; [discriminate|]. cbn [matches_template].
  change (Ascii.eqb "#" "#") with true. cbv iota.
  intros H. apply andb_true_iff in H. destruct H as [H1 H2].
  now exists c, s'.
Qed.

Lemma template_literal (t : ascii) (tpl s : string) :
  Ascii.eqb t "#" = false ->
  matches_template (String t tpl) s = true ->
  exists s', s = String t s' /\ matches_template tpl s' = true.
Proof.
  intros Ht. destruct s as [|c s']; [discriminate|]. cbn [matches_template].
  rewrite Ht. intros H. apply andb_true_iff in H. destruct H as [H1 H2].
  apply Ascii.eqb_eq in H1. subst c. now exists s'.
Qed.

Lemma template_end (s : string) : matches_template "" s = true -> s = "".
Proof. destruct s; [reflexivity | discriminate]. Qed.

Lemma two_digits (c1 c2 : ascii) :
  is_digit c1 = true -> is_digit c2 = true ->
  exists n, 0 <= n <= 99 /\ String c1 (String c2 "") = pad2 n.
Proof.
  intros H1 H2.
  destruct (is_digit_cases c1 H1) as (a & Ha & ->).
  destruct (is_digit_cases c2 H2) as (b & Hb & ->).
  exists (10 * a + b). split; [lia|]. unfold pad2.
  replace ((10 * a + b) / 10) with a
    by (Z.to_euclidean_division_equations; lia).
  replace ((10 * a + b) mod 10) with b
    by (Z.to_euclidean_division_equations; lia).
  reflexivity.
Qed.

Lemma four_digits (c1 c2 c3 c4 : ascii) :
  is_digit c1 = true -> is_digit c2 = true ->
  is_digit c3 = true -> is_digit c4 = true ->
  exists n, 0 <= n <= 9999
            /\ String c1 (String c2 (String c3 (String c4 ""))) = pad4 n.
Proof.
  intros H1 H2 H3 H4.
  destruct (is_digit_cases c1 H1) as (a & Ha & ->).
  destruct (is_digit_cases c2 H2) as (b & Hb & ->).
  destruct (is_digit_cases c3 H3) as (c & Hc & ->).
  destruct (is_digit_cases c4 H4) as (d & Hd & ->).
  exists (1000 * a + 100 * b + 10 * c + d). split; [lia|]. unfold pad4, pad2.
  replace ((1000 * a + 100 * b + 10 * c + d) / 1000) with a
    by (Z.to_euclidean_division_equations; lia).
  replace ((1000 * a + 100 * b + 10 * c + d) / 100 mod 10) with b
    by (Z.to_euclidean_division_equations; lia).
  replace ((1000 * a + 100 * b + 10 * c + d) mod 100 / 10) with c
    by (Z.to_euclidean_division_equations; lia).
  replace ((1000 * a + 100 * b + 10 * c + d) mod 100 mod 10) with d
    by (Z.to_euclidean_division_equations; lia).
  reflexivity.
Qed.

Ltac digit_step H c D :=
  let s' := fresh "s" in
  apply template_digit in H; destruct H as (c & s' & -> & D & H).

Ltac literal_step H :=
  let s' := fresh "s" in
  apply template_literal in H; [| reflexivity]; destruct H as (s' & -> & H).

(** Every text of the exact pattern is [pattern_text] of its fields. *)
Lemma exact_pattern_fields (s : string) :
  exact_pattern s = true ->
  exists d m y h mi sec pm,
    s = pattern_text d m y h mi sec pm
    /\ 0 <= d <= 99 /\ 0 <= m <= 99 /\ 0 <= y <= 9999
    /\ 0 <= h <= 99 /\ 0 <= mi <= 99 /\ 0 <= sec <= 99.
Proof.
  unfold exact_pattern. intros H. apply orb_true_iff in H.
  assert (G : forall (ampm : string) (pm : bool),
             ampm = (if pm then "PM" else "AM") ->
             matches_template ("##/##/#### : ##:##:## " ++ ampm) s = true ->
             exists d m y h mi sec pm,
               s = pattern_text d m y h mi sec pm
               /\ 0 <= d <= 99 /\ 0 <= m <= 99 /\ 0 <= y <= 9999
               /\ 0 <= h <= 99 /\ 0 <= mi <= 99 /\ 0 <= sec <= 99).
  { intros ampm pm E T. subst ampm.
    cbn [append] in T.
    digit_step T c1 D1. digit_step T c2 D2. literal_step T.
    digit_step T c3 D3. digit_step T c4 D4. literal_step T.
    digit_step T c5 D5. digit_step T c6 D6.
    digit_step T c7 D7. digit_step T c8 D8.
    literal_step T. literal_step T. literal_step T.
    digit_step T c9 D9. digit_step T c10 D10. literal_step T.
    digit_step T c11 D11. digit_step T c12 D12. literal_step T.
    digit_step T c13 D13. digit_step T c14 D14. literal_step T.
    assert (E : forall a b rest, String a (String b rest)
                                 = String a (String b "") ++ rest)
      by reflexivity.
    assert (E4 : forall a b c d rest,
               String a (String b (String c (String d rest)))
               = String a (String b (String c (String d ""))) ++ rest)
      by reflexivity.
    rewrite (E c1 c2), (E c3 c4), (E4 c5 c6 c7 c8), (E c9 c10), (E c11 c12),
      (E c13 c14).
    match goal with
    | H : matches_template (if pm then "PM" else "AM") ?tail = true |- _ =>
        assert (tail = if pm then "PM" else "AM")
          by (destruct pm; literal_step H; literal_step H;
              apply template_end in H; subst; reflexivity);
        subst tail
    end.
    destruct (two_digits c1 c2 D1 D2) as (d & Rd & ->).
    destruct (two_digits c3 c4 D3 D4) as (m & Rm & ->).
    destruct (four_digits c5 c6 c7 c8 D5 D6 D7 D8) as (y & Ry & ->).
    destruct (two_digits c9 c10 D9 D10) as (h & Rh & ->).
    destruct (two_digits c11 c12 D11 D12) as (mi & Rmi & ->).
    destruct (two_digits c13 c14 D13 D14) as (sec & Rs & ->).
    exists d, m, y, h, mi, sec, pm. repeat split; try lia. }
  destruct H as [H|H].
  - exact (G "AM" false eq_refl H).
  - exact (G "PM" true eq_refl H).
Qed.



Lemma time_re_rejects_digits (rt : runtime) (s : string) :
  (forall c, In c (list_ascii_of_string s) -> is_digit c = true) ->
  rmatch rt time_re s [] EmptyString (fun rest caps _ => Some (rest, caps))
  = None.
Proof.
  intros H. destruct s as [|c1 [|c2 rest]].
  - reflexivity.
  - destruct (is_digit_cases c1 (H c1 (or_introl eq_refl))) as (n & Hn & ->).
    pattern n. apply (Z_range_ind _ 0 10); [| lia]. clear. intros i Hi.
    do 10 (destruct i as [|i]; [vm_compute; reflexivity|]). lia.
  - assert (D1 : is_digit c1 = true) by (apply H; left; reflexivity).
    assert (D2 : is_digit c2 = true)
      by (apply H; right; left; reflexivity).
    destruct (two_digits c1 c2 D1 D2) as (n & Rn & E).
    change (String c1 (String c2 rest))
      with (String c1 (String c2 "") ++ rest).
    rewrite E. unfold time_re, cats. cbn [fold_right].
    rewrite rmatch_cat.
    apply rmatch_d_none; [exact Rn | now apply digit_blind_lit | intros _].
    destruct rest as [|c3 rest'].
    + reflexivity.
    + apply (digit_blind_lit rt "/"); [reflexivity | reflexivity |].
      apply H. right. right. left. reflexivity.
Qed.

(** X20. [format_timestamp] goes by the type of its argument: an epoch
    written as a string of digits is not read as a number and gets
    "Not Available", while a JSON [true] or [false], being integers for
    Python, are read as the epoch seconds 1 and 0. *)
Theorem format_timestamp_goes_by_type (rt : runtime) (log : list effect) :
  (forall s,
     (forall c, In c (list_ascii_of_string s) -> is_digit c = true) ->
     parsed rt (VStr s) = None
     /\ fst (format_timestamp rt (VStr s) log) = Ok "Not Available")
  /\ (forall b,
        format_timestamp rt (VBool b) log
        = format_timestamp rt (VInt (Z.b2z b)) log).
Proof.
  split.
  - intros s H.
    assert (P : parsed rt (VStr s) = None).
    { unfold parsed. cbn [is_number is_str py_str]. unfold strptime.
      now rewrite (time_re_rejects_digits rt s H). }
    split; [exact P|]. rewrite format_timestamp_parsed. now rewrite P.
  - intros b. reflexivity.
Qed.

Lemma format_timestamp_goes_by_type_witness :
  parsed utc_runtime (VStr "1722778962") = None
  /\ fst (format_timestamp utc_runtime (VStr "1722778962") [])
     = Ok "Not Available".
Proof.
  apply (proj1 (format_timestamp_goes_by_type utc_runtime [])).
  intros c Hc. cbn in Hc.
  repeat (destruct Hc as [<-|Hc]; [reflexivity|]). contradiction.
Defined.
